(** * ThermalData: Lepton 3.1R frame decoding (thermal_network/src/thermal_data.cpp)

    A shallow embedding of the [ThermalData] node: the receive loop
    [temp_data], the auto-ranging pass and the decoding pass of
    [process_data], the [colormap_ironblack_] table, and the machine
    arithmetic they rely on (uint16_t / uint8_t conversions, C++ integer
    division, binary32 and binary64 floating point).

    Members that the code never assigns ([myImageWidth_], [myImageHeight_],
    the palette) are constants here; the auto-range flags and the range,
    which [process_data] reads and rewrites, are fields of the state. *)

From Stdlib Require Import ZArith List Bool Lia String.
From Stdlib Require Import QArith Qabs Lqa.
From Stdlib Require Import Floats.SpecFloat.
From Stdlib Require Floats.PrimFloat Floats.FloatOps Numbers.Cyclic.Int63.Uint63.
From stdpp Require Import base option list.

Local Open Scope Z_scope.
Set Warnings "-abstract-large-number".

(** ** Machine arithmetic *)

Module Machine.

(** Conversion of an [int] to [uint16_t] and to [uint8_t]. *)
Definition wrap16 (z : Z) : Z := z mod 65536.
Definition wrap8 (z : Z) : Z := z mod 256.

(** C++ [/] and [%] on [int] truncate towards zero. *)
Definition cdiv (a b : Z) : Z := Z.quot a b.
Definition cmod (a b : Z) : Z := Z.rem a b.

(** Unchecked indexing ([operator[]] of [std::array] and [std::vector]):
    an index outside the container is undefined behaviour, modelled as
    [None]. *)
Definition at_ {A : Type} (l : list A) (i : Z) : option A :=
  if (i <? 0) then None else l !! Z.to_nat i.

Definition set_at {A : Type} (l : list A) (i : Z) (x : A) : option (list A) :=
  if (0 <=? i) && (i <? Z.of_nat (length l))
  then Some (<[Z.to_nat i := x]> l) else None.

End Machine.
Import Machine.

(** ** Floating point

    [float] is IEEE binary32, given by the specification of floats at
    precision 24; [double] is IEEE binary64, the kernel's primitive
    floats. *)

Module Float.

Definition f32_of_int (z : Z) : spec_float := binary_normalize 24 128 z 0 false.
Definition f32_div : spec_float -> spec_float -> spec_float := SFdiv 24 128.
Definition f32_mul : spec_float -> spec_float -> spec_float := SFmul 24 128.

(** An [int] that is not negative, as a [double]. *)
Definition f64_of_int (z : Z) : PrimFloat.float :=
  PrimFloat.of_uint63 (Uint63.of_Z z).
Definition f64_div : PrimFloat.float -> PrimFloat.float -> PrimFloat.float :=
  PrimFloat.div.
Definition f64_sub : PrimFloat.float -> PrimFloat.float -> PrimFloat.float :=
  PrimFloat.sub.

(** Narrowing a [double] to a [float] rounds to nearest even. *)
Definition f32_of_f64 (x : PrimFloat.float) : spec_float :=
  match FloatOps.Prim2SF x with
  | S754_finite s m e => binary_round 24 128 s m e
  | y => y
  end.

(** The integer part of a float, towards zero; none for NaN and infinities. *)
Definition trunc (x : spec_float) : option Z :=
  match x with
  | S754_zero _ => Some 0
  | S754_finite s m e =>
      Some (cond_Zopp s (if 0 <=? e then Zpos m * 2 ^ e
                         else Z.quot (Zpos m) (2 ^ (- e))))
  | _ => None
  end.

(** The rational number a finite float stands for (0 for the others). *)
Definition to_Q (x : spec_float) : Q :=
  match x with
  | S754_finite s m e =>
      (inject_Z (cond_Zopp s (Zpos m)) * Qpower (2 # 1) e)%Q
  | _ => 0%Q
  end.

Definition is_finite (x : spec_float) : bool :=
  match x with
  | S754_zero _ | S754_finite _ _ _ => true
  | _ => false
  end.

End Float.
Import Float.

(** ** The colour palette *)

Definition colormap_ironblack_ : list Z :=
  [255; 255; 255; 253; 253; 253; 251; 251; 251; 249; 249; 249;
   247; 247; 247; 245; 245; 245; 243; 243; 243; 241; 241; 241; 239; 239; 239; 237; 237; 237; 235;
   235; 235; 233; 233; 233; 231; 231; 231; 229; 229; 229; 227; 227; 227; 225; 225; 225; 223; 223;
   223; 221; 221; 221; 219; 219; 219; 217; 217; 217; 215; 215; 215; 213; 213; 213; 211; 211; 211;
   209; 209; 209; 207; 207; 207; 205; 205; 205; 203; 203; 203; 201; 201; 201; 199; 199; 199; 197;
   197; 197; 195; 195; 195; 193; 193; 193; 191; 191; 191; 189; 189; 189; 187; 187; 187; 185; 185;
   185; 183; 183; 183; 181; 181; 181; 179; 179; 179; 177; 177; 177; 175; 175; 175; 173; 173; 173;
   171; 171; 171; 169; 169; 169; 167; 167; 167; 165; 165; 165; 163; 163; 163; 161; 161; 161; 159;
   159; 159; 157; 157; 157; 155; 155; 155; 153; 153; 153; 151; 151; 151; 149; 149; 149; 147; 147;
   147; 145; 145; 145; 143; 143; 143; 141; 141; 141; 139; 139; 139; 137; 137; 137; 135; 135; 135;
   133; 133; 133; 131; 131; 131; 129; 129; 129; 126; 126; 126; 124; 124; 124; 122; 122; 122; 120;
   120; 120; 118; 118; 118; 116; 116; 116; 114; 114; 114; 112; 112; 112; 110; 110; 110; 108; 108;
   108; 106; 106; 106; 104; 104; 104; 102; 102; 102; 100; 100; 100; 98; 98; 98; 96; 96; 96; 94;
   94; 94; 92; 92; 92; 90; 90; 90; 88; 88; 88; 86; 86; 86; 84; 84; 84; 82; 82; 82; 80; 80; 80;
   78; 78; 78; 76; 76; 76; 74; 74; 74; 72; 72; 72; 70; 70; 70; 68; 68; 68; 66; 66; 66; 64; 64;
   64; 62; 62; 62; 60; 60; 60; 58; 58; 58; 56; 56; 56; 54; 54; 54; 52; 52; 52; 50; 50; 50; 48;
   48; 48; 46; 46; 46; 44; 44; 44; 42; 42; 42; 40; 40; 40; 38; 38; 38; 36; 36; 36; 34; 34; 34;
   32; 32; 32; 30; 30; 30; 28; 28; 28; 26; 26; 26; 24; 24; 24; 22; 22; 22; 20; 20; 20; 18; 18;
   18; 16; 16; 16; 14; 14; 14; 12; 12; 12; 10; 10; 10; 8; 8; 8; 6; 6; 6; 4; 4; 4; 2; 2; 2; 0; 0;
   0; 0; 0; 9; 2; 0; 16; 4; 0; 24; 6; 0; 31; 8; 0; 38; 10; 0; 45; 12; 0; 53; 14; 0; 60; 17; 0;
   67; 19; 0; 74; 21; 0; 82; 23; 0; 89; 25; 0; 96; 27; 0; 103; 29; 0; 111; 31; 0; 118; 36; 0;
   120; 41; 0; 121; 46; 0; 122; 51; 0; 123; 56; 0; 124; 61; 0; 125; 66; 0; 126; 71; 0; 127; 76;
   1; 128; 81; 1; 129; 86; 1; 130; 91; 1; 131; 96; 1; 132; 101; 1; 133; 106; 1; 134; 111; 1; 135;
   116; 1; 136; 121; 1; 136; 125; 2; 137; 130; 2; 137; 135; 3; 137; 139; 3; 138; 144; 3; 138;
   149; 4; 138; 153; 4; 139; 158; 5; 139; 163; 5; 139; 167; 5; 140; 172; 6; 140; 177; 6; 140;
   181; 7; 141; 186; 7; 141; 189; 10; 137; 191; 13; 132; 194; 16; 127; 196; 19; 121; 198; 22;
   116; 200; 25; 111; 203; 28; 106; 205; 31; 101; 207; 34; 95; 209; 37; 90; 212; 40; 85; 214;
   43; 80; 216; 46; 75; 218; 49; 69; 221; 52; 64; 223; 55; 59; 224; 57; 49; 225; 60; 47; 226;
   64; 44; 227; 67; 42; 228; 71; 39; 229; 74; 37; 230; 78; 34; 231; 81; 32; 231; 85; 29; 232;
   88; 27; 233; 92; 24; 234; 95; 22; 235; 99; 19; 236; 102; 17; 237; 106; 14; 238; 109; 12; 239;
   112; 12; 240; 116; 12; 240; 119; 12; 241; 123; 12; 241; 127; 12; 242; 130; 12; 242; 134; 12;
   243; 138; 12; 243; 141; 13; 244; 145; 13; 244; 149; 13; 245; 152; 13; 245; 156; 13; 246; 160;
   13; 246; 163; 13; 247; 167; 13; 247; 171; 13; 248; 175; 14; 248; 178; 15; 249; 182; 16; 249;
   185; 18; 250; 189; 19; 250; 192; 20; 251; 196; 21; 251; 199; 22; 252; 203; 23; 252; 206; 24;
   253; 210; 25; 253; 213; 27; 254; 217; 28; 254; 220; 29; 255; 224; 30; 255; 227; 39; 255; 229;
   53; 255; 231; 67; 255; 233; 81; 255; 234; 95; 255; 236; 109; 255; 238; 123; 255; 240; 137;
   255; 242; 151; 255; 244; 165; 255; 246; 179; 255; 248; 193; 255; 249; 207; 255; 251; 221; 255;
   253; 235; 255; 255; 24; -1].

(** ** The node's state *)

Definition myImageWidth_ : Z := 160.
Definition myImageHeight_ : Z := 120.
Definition rangeMin_ : Z := 27300.
Definition rangeMax_ : Z := 31500.

(** What the node does to the outside world. *)
Inductive event : Type :=
| EvLogError (msg : string)
| EvCloseSocket
| EvPublish (temp : list spec_float) (image : list Z).

Record ThermalData : Type := mkThermalData {
  autoRangeMin_ : bool;
  autoRangeMax_ : bool;
  minValue_ : Z;
  maxValue_ : Z;
  diff_ : spec_float;
  scale_ : spec_float;
  n_zero_value_drop_frame_ : Z;
  shelf_ : list (list Z);
  temperature_data_ : list spec_float;
  image_data_ : list Z;
  events_ : list event
}.

Definition set_minValue (st : ThermalData) (v : Z) : ThermalData :=
  mkThermalData (autoRangeMin_ st) (autoRangeMax_ st) v (maxValue_ st)
    (diff_ st) (scale_ st) (n_zero_value_drop_frame_ st) (shelf_ st)
    (temperature_data_ st) (image_data_ st) (events_ st).

Definition set_maxValue (st : ThermalData) (v : Z) : ThermalData :=
  mkThermalData (autoRangeMin_ st) (autoRangeMax_ st) (minValue_ st) v
    (diff_ st) (scale_ st) (n_zero_value_drop_frame_ st) (shelf_ st)
    (temperature_data_ st) (image_data_ st) (events_ st).

Definition set_diff (st : ThermalData) (d : spec_float) : ThermalData :=
  mkThermalData (autoRangeMin_ st) (autoRangeMax_ st) (minValue_ st) (maxValue_ st)
    d (scale_ st) (n_zero_value_drop_frame_ st) (shelf_ st)
    (temperature_data_ st) (image_data_ st) (events_ st).

Definition set_scale (st : ThermalData) (s : spec_float) : ThermalData :=
  mkThermalData (autoRangeMin_ st) (autoRangeMax_ st) (minValue_ st) (maxValue_ st)
    (diff_ st) s (n_zero_value_drop_frame_ st) (shelf_ st)
    (temperature_data_ st) (image_data_ st) (events_ st).

Definition set_drop (st : ThermalData) (n : Z) : ThermalData :=
  mkThermalData (autoRangeMin_ st) (autoRangeMax_ st) (minValue_ st) (maxValue_ st)
    (diff_ st) (scale_ st) n (shelf_ st)
    (temperature_data_ st) (image_data_ st) (events_ st).

Definition set_shelf (st : ThermalData) (sh : list (list Z)) : ThermalData :=
  mkThermalData (autoRangeMin_ st) (autoRangeMax_ st) (minValue_ st) (maxValue_ st)
    (diff_ st) (scale_ st) (n_zero_value_drop_frame_ st) sh
    (temperature_data_ st) (image_data_ st) (events_ st).

Definition set_temperature (st : ThermalData) (t : list spec_float) : ThermalData :=
  mkThermalData (autoRangeMin_ st) (autoRangeMax_ st) (minValue_ st) (maxValue_ st)
    (diff_ st) (scale_ st) (n_zero_value_drop_frame_ st) (shelf_ st)
    t (image_data_ st) (events_ st).

Definition set_image (st : ThermalData) (im : list Z) : ThermalData :=
  mkThermalData (autoRangeMin_ st) (autoRangeMax_ st) (minValue_ st) (maxValue_ st)
    (diff_ st) (scale_ st) (n_zero_value_drop_frame_ st) (shelf_ st)
    (temperature_data_ st) im (events_ st).

Definition emit (st : ThermalData) (e : event) : ThermalData :=
  mkThermalData (autoRangeMin_ st) (autoRangeMax_ st) (minValue_ st) (maxValue_ st)
    (diff_ st) (scale_ st) (n_zero_value_drop_frame_ st) (shelf_ st)
    (temperature_data_ st) (image_data_ st) (events_ st ++ [e]).

(** The member initialisers, for a configured range, given auto-range
    flags and a given content of the (otherwise uninitialised) segment
    buffers; [initial] is the node as shipped. *)
Definition initial_with (rmin rmax : Z) (amin amax : bool) (sh : list (list Z))
    : ThermalData :=
  let diff := f32_of_int (rmax - rmin) in
  mkThermalData amin amax rmin rmax
    diff (f32_div (f32_of_int 255) diff) 0 sh
    (replicate (Z.to_nat (myImageWidth_ * myImageHeight_)) (S754_zero false))
    (replicate (Z.to_nat (myImageWidth_ * myImageHeight_ * 3)) 0)
    [].

Definition initial : bool -> bool -> list (list Z) -> ThermalData :=
  initial_with rangeMin_ rangeMax_.

(** ** Loops *)

Inductive flow : Type := Next | Break.

(** [for (int i = start; ...; i++)] running at most [n] times, with
    [continue] ([Next]) and [break]. *)
Fixpoint for_loop {S : Type} (n : nat) (i : Z)
    (body : Z -> S -> option (flow * S)) (s : S) : option S :=
  match n with
  | O => Some s
  | Datatypes.S n' =>
      match body i s with
      | None => None
      | Some (Break, s') => Some s'
      | Some (Next, s') => for_loop n' (i + 1) body s'
      end
  end.

(** [for (int i = lo; i < hi; i++)]. *)
Definition for_range {S : Type} (lo hi : Z)
    (body : Z -> S -> option (flow * S)) (s : S) : option S :=
  for_loop (Z.to_nat (hi - lo)) lo body s.

(** The big-endian sample at position [i] of segment [iSegment]:
    [(shelf_[iSegment - 1][i * 2] << 8) + shelf_[iSegment - 1][i * 2 + 1]]. *)
Definition sample (st : ThermalData) (iSegment i : Z) : option Z :=
  seg ← at_ (shelf_ st) (iSegment - 1);
  hi ← at_ seg (i * 2);
  lo ← at_ seg (i * 2 + 1);
  Some (wrap16 (Z.shiftl hi 8 + lo)).

(** ** The auto-ranging pass of [process_data] *)

(** Body of the inner scanning loop. *)
Definition scan_body (iSegment i : Z) (st : ThermalData) : option (flow * ThermalData) :=
  if cmod i 82 <? 2 then Some (Next, st)
  else
    value ← sample st iSegment i;
    if value =? 0 then Some (Next, st)
    else
      let st1 := if autoRangeMax_ st && (value >? maxValue_ st)
                 then set_maxValue st value else st in
      let st2 := if autoRangeMin_ st1 && (value <? minValue_ st1)
                 then set_minValue st1 value else st1 in
      Some (Next, st2).

Definition scan_segment (iSegment : Z) (st : ThermalData) : option (flow * ThermalData) :=
  st' ← for_range 0 4920 (scan_body iSegment) st;
  Some (Next, st').

(** The seeds written before the scan. *)
Definition seed (st : ThermalData) : ThermalData :=
  let st1 := if autoRangeMin_ st then set_maxValue st 65535 else st in
  if autoRangeMax_ st1 then set_minValue st1 0 else st1.

(** [diff_ = maxValue_ - minValue_; scale_ = 255 / diff_;] *)
Definition rescale (st : ThermalData) : ThermalData :=
  let st1 := set_diff st (f32_of_int (maxValue_ st - minValue_ st)) in
  set_scale st1 (f32_div (f32_of_int 255) (diff_ st1)).

Definition auto_range (st : ThermalData) : option ThermalData :=
  if autoRangeMin_ st || autoRangeMax_ st then
    st' ← for_range 1 5 scan_segment (seed st);
    Some (rescale st')
  else Some st.

(** ** The decoding pass of [process_data] *)

(** [int ofs = 3 * value + k; if (size <= ofs) ofs = size - 1;] *)
Definition palette_offset (value k : Z) : Z :=
  let selectedColormapSize_ := Z.of_nat (length colormap_ironblack_) in
  let ofs := 3 * value + k in
  if selectedColormapSize_ <=? ofs then selectedColormapSize_ - 1 else ofs.

(** [float temperature = (valueFrameBuffer / 100.0) - 273.0;] the
    arithmetic is done in [double], the result stored in a [float]. *)
Definition temperature_of (valueFrameBuffer : Z) : spec_float :=
  f32_of_f64 (f64_sub (f64_div (f64_of_int valueFrameBuffer) (f64_of_int 100))
                      (f64_of_int 273)).

Definition column_of (i : Z) : Z :=
  cmod i 82 - 2 + cdiv myImageWidth_ 2 * cdiv (cmod i (82 * 2)) 82.

Definition row_of (iSegment i : Z) : Z :=
  let ofsRow := 30 * (iSegment - 1) in
  cdiv (cdiv i 82) 2 + ofsRow.

Section Decoding.

(** Converting a [float] outside the range of [uint16_t] (or a NaN) to
    [uint16_t] is undefined; what the platform yields there is left open. *)
Variable undefined_u16 : spec_float -> Z.

Definition u16_of_float (x : spec_float) : Z :=
  match trunc x with
  | Some z => if (0 <=? z) && (z <=? 65535) then z else wrap16 (undefined_u16 x)
  | None => wrap16 (undefined_u16 x)
  end.

(** The clamped intensity [value] computed for a non-zero sample. *)
Definition intensity (st : ThermalData) (valueFrameBuffer : Z) : Z :=
  if negb (autoRangeMax_ st) && (valueFrameBuffer >? maxValue_ st) then
    maxValue_ st
  else if negb (autoRangeMin_ st) && (valueFrameBuffer <=? minValue_ st) then
    minValue_ st
  else
    u16_of_float (f32_mul (f32_of_int (valueFrameBuffer - minValue_ st)) (scale_ st)).

(** The four stores of one pixel. *)
Definition write_pixel (st : ThermalData) (row column value : Z)
    (temperature : spec_float) : option ThermalData :=
  let ofs_r := palette_offset value 0 in
  let ofs_g := palette_offset value 1 in
  let ofs_b := palette_offset value 2 in
  let cell := row * myImageWidth_ + column in
  cb ← at_ colormap_ironblack_ ofs_b;
  im0 ← set_at (image_data_ st) (cell * 3 + 0) (wrap8 cb);
  cg ← at_ colormap_ironblack_ ofs_g;
  im1 ← set_at im0 (cell * 3 + 1) (wrap8 cg);
  cr ← at_ colormap_ironblack_ ofs_r;
  im2 ← set_at im1 (cell * 3 + 2) (wrap8 cr);
  td ← set_at (temperature_data_ st) cell temperature;
  Some (set_temperature (set_image st im2) td).

(** Body of the inner decoding loop. *)
Definition decode_body (iSegment i : Z) (st : ThermalData) : option (flow * ThermalData) :=
  if cmod i 82 <? 2 then Some (Next, st)
  else
    valueFrameBuffer ← sample st iSegment i;
    if valueFrameBuffer =? 0 then
      Some (Break, set_drop st (wrap16 (n_zero_value_drop_frame_ st + 1)))
    else
      let value := intensity st valueFrameBuffer in
      let temperature := temperature_of valueFrameBuffer in
      let column := column_of i in
      let row := row_of iSegment i in
      if (row <? myImageHeight_) && (column <? myImageWidth_) then
        st' ← write_pixel st row column value temperature;
        Some (Next, st')
      else Some (Next, st).

Definition decode_segment (iSegment : Z) (st : ThermalData) : option (flow * ThermalData) :=
  st' ← for_range 0 4920 (decode_body iSegment) st;
  Some (Next, st').

Definition decode_pass (st : ThermalData) : option ThermalData :=
  for_range 1 5 decode_segment st.

(** The end of [process_data]: the drop counter is cleared and both
    buffers are published. *)
Definition publish (st : ThermalData) : ThermalData :=
  let st1 := if negb (n_zero_value_drop_frame_ st =? 0) then set_drop st 0 else st in
  emit st1 (EvPublish (temperature_data_ st1) (image_data_ st1)).

Definition process_data (st : ThermalData) : option ThermalData :=
  st1 ← auto_range st;
  st2 ← decode_pass st1;
  Some (publish st2).

(** ** The receive loop [temp_data] *)

(** One [recvfrom]: its return value and the bytes of the datagram. *)
Record datagram : Type := mkDatagram {
  received_bytes : Z;
  payload : list Z
}.

(** [recvfrom] stores at most [sizeof(shelf_[i])] bytes at the start of
    the buffer and leaves the rest of it as it was. *)
Definition store_datagram (buf : list Z) (d : datagram) : list Z :=
  let bytes := take (length buf) (payload d) in
  bytes ++ drop (length bytes) buf.

Inductive outcome : Type :=
| Shutdown        (* rclcpp::ok() became false *)
| ReceiveFailed   (* the early return of temp_data *)
| Blocked         (* recvfrom waits for a datagram that never comes *)
| Undefined.      (* process_data ran into undefined behaviour *)

(** The [for (int i = 0; i < 4; ++i)] loop over the segments; [inl] is
    the early [return]. *)
Fixpoint receive_frame (n : nat) (i : Z) (rx : list datagram) (st : ThermalData)
    : (outcome * ThermalData) + (list datagram * ThermalData) :=
  match n with
  | O => inr (rx, st)
  | S n' =>
      match rx with
      | [] => inl (Blocked, st)
      | d :: rx' =>
          if received_bytes d <? 0 then
            inl (ReceiveFailed, emit (emit st (EvLogError "Receive failed")) EvCloseSocket)
          else
            match at_ (shelf_ st) i with
            | None => inl (Undefined, st)
            | Some buf =>
                let sh := <[Z.to_nat i := store_datagram buf d]> (shelf_ st) in
                receive_frame n' (i + 1) rx' (set_shelf st sh)
            end
      end
  end.

(** [while (rclcpp::ok())]: [oks] is the number of times [ok()] answers
    true before the shutdown. *)
Fixpoint temp_data (oks : nat) (rx : list datagram) (st : ThermalData)
    : outcome * ThermalData :=
  match oks with
  | O => (Shutdown, st)
  | S oks' =>
      match receive_frame 4 0 rx st with
      | inl stop => stop
      | inr (rx', st') =>
          match process_data st' with
          | None => (Undefined, st')
          | Some st'' => temp_data oks' rx' st''
          end
      end
  end.


(** ** Well-formed states *)

(** The sizes the member declarations give the buffers, and the range of
    the two [uint16_t] bounds. *)
Definition state_ok (st : ThermalData) : bool :=
  (Z.of_nat (length (shelf_ st)) =? 4)
  && forallb (fun seg => Z.of_nat (length seg) =? 9840) (shelf_ st)
  && (Z.of_nat (length (temperature_data_ st)) =? 19200)
  && (Z.of_nat (length (image_data_ st)) =? 57600)
  && (0 <=? minValue_ st) && (minValue_ st <=? 65535)
  && (0 <=? maxValue_ st) && (maxValue_ st <=? 65535).

(** What neither pass of [process_data] touches. *)
Definition same_frame (st st' : ThermalData) : Prop :=
  autoRangeMin_ st' = autoRangeMin_ st /\
  autoRangeMax_ st' = autoRangeMax_ st /\
  shelf_ st' = shelf_ st /\
  events_ st' = events_ st.

Definition same_range (st st' : ThermalData) : Prop :=
  minValue_ st' = minValue_ st /\
  maxValue_ st' = maxValue_ st /\
  diff_ st' = diff_ st /\
  scale_ st' = scale_ st.

(** What the scan may do to the state: the two bounds only move outwards,
    and a bound whose flag is off does not move. *)
Definition scan_inv (st st' : ThermalData) : Prop :=
  state_ok st' = true /\ same_frame st st' /\
  temperature_data_ st' = temperature_data_ st /\
  image_data_ st' = image_data_ st /\
  n_zero_value_drop_frame_ st' = n_zero_value_drop_frame_ st /\
  diff_ st' = diff_ st /\ scale_ st' = scale_ st /\
  minValue_ st' <= minValue_ st /\ maxValue_ st <= maxValue_ st' /\
  (autoRangeMin_ st = false -> minValue_ st' = minValue_ st) /\
  (autoRangeMax_ st = false -> maxValue_ st' = maxValue_ st).

(** A frame whose every byte is [b]. *)
Definition constant_frame (b : Z) : list (list Z) :=
  replicate 4 (replicate (Z.to_nat 9840) b).

Definition no_undefined (_ : spec_float) : Z := 0.

(** Every byte of the four segments is zero. *)
Definition frame_all_zero (st : ThermalData) : bool :=
  forallb (forallb (Z.eqb 0)) (shelf_ st).

(** The frame [constant_frame 0] with the sample at position 2 of the
    first segment (grid cell (0, 0)) set to [v]. *)
Definition one_sample_frame (v : Z) : list (list Z) :=
  <[0%nat := <[5%nat := v mod 256]> (<[4%nat := v / 256]> (replicate (Z.to_nat 9840) 0))]>
    (constant_frame 0).

(** The frame [constant_frame 0] with the sample at position 84 of the
    first segment (the first sample of the second row) set to [v]. *)
Definition second_row_frame (v : Z) : list (list Z) :=
  <[0%nat := <[169%nat := v mod 256]> (<[168%nat := v / 256]> (replicate (Z.to_nat 9840) 0))]>
    (constant_frame 0).

(** The node as shipped, on an all-zero frame and on a frame with one
    sample of 32000 (47 degrees Celsius). *)
Definition st_zero : ThermalData := initial false false (constant_frame 0).
Definition st_hot : ThermalData := initial false false (one_sample_frame 32000).


Definition is_publish (e : event) : bool :=
  match e with EvPublish _ _ => true | _ => false end.

(** How many frames the node has published. *)
Definition publish_count (st : ThermalData) : nat :=
  length (List.filter is_publish (events_ st)).

(** A datagram shorter than a segment. *)
Definition short_datagram : datagram := mkDatagram 1 [0].

(** The decoding pass as the specification words it: a zero sample
    abandons the rest of its 82-position row only, and the rows after it
    in the same segment are still decoded. *)
Definition decode_row_spec (iSegment r : Z) (st : ThermalData) : option (flow * ThermalData) :=
  st' ← for_range (82 * r) (82 * r + 82) (decode_body iSegment) st;
  Some (Next, st').

Definition decode_segment_spec (iSegment : Z) (st : ThermalData) : option (flow * ThermalData) :=
  st' ← for_range 0 60 (decode_row_spec iSegment) st;
  Some (Next, st').

Definition decode_pass_spec (st : ThermalData) : option ThermalData :=
  for_range 1 5 decode_segment_spec st.

(** The accuracy of the stored temperature: the [float] is finite and
    within a relative error of 2^-23 (FLT_EPSILON) of v/100 - 273. *)
Definition temperature_exact (v : Z) : Q := (v # 100) - 273.

Definition temperature_close (v : Z) : bool :=
  let t := temperature_of v in
  is_finite t
  && Qle_bool (Qabs (to_Q t - temperature_exact v))
              ((1 # 8388608) * Qabs (temperature_exact v)).

(** [p] holds of [lo], [lo + 1], ..., [lo + n - 1]. *)
Fixpoint all_from (n : nat) (lo : Z) (p : Z -> bool) : bool :=
  match n with
  | O => true
  | S n' => p lo && all_from n' (lo + 1) p
  end.

(** ** Cells of the grid *)

(** The index in [temperature_data_] of the cell a position is written to. *)
Definition cell_of (iSegment i : Z) : Z :=
  row_of iSegment i * myImageWidth_ + column_of i.

(** The segment and the position that are written to cell [c]. *)
Definition segment_of_cell (c : Z) : Z := c / 160 / 30 + 1.

Definition position_of_cell (c : Z) : Z :=
  let row := c / 160 in
  let column := c mod 160 in
  164 * (row mod 30) + 82 * (column / 80) + column mod 80 + 2.

(** What the two output buffers hold for cell [c]: the temperature and
    the three image bytes, in the order they are stored. *)
Definition pixel_at (st : ThermalData) (c : Z) : option (spec_float * Z * Z * Z) :=
  t ← at_ (temperature_data_ st) c;
  b0 ← at_ (image_data_ st) (c * 3 + 0);
  b1 ← at_ (image_data_ st) (c * 3 + 1);
  b2 ← at_ (image_data_ st) (c * 3 + 2);
  Some (t, b0, b1, b2).

(** What [write_pixel] stores for a sample [v] under the range of [st]. *)
Definition pixel_for (st : ThermalData) (v : Z) : option (spec_float * Z * Z * Z) :=
  cb ← at_ colormap_ironblack_ (palette_offset (intensity st v) 2);
  cg ← at_ colormap_ironblack_ (palette_offset (intensity st v) 1);
  cr ← at_ colormap_ironblack_ (palette_offset (intensity st v) 0);
  Some (temperature_of v, wrap8 cb, wrap8 cg, wrap8 cr).

(** The first position from [i] on, among the next [n], that is not a
    header position and holds a zero sample; [i + n] when there is none. *)
Fixpoint first_zero_from (n : nat) (i : Z) (st : ThermalData) (iSegment : Z) : Z :=
  match n with
  | O => i
  | S n' =>
      if cmod i 82 <? 2 then first_zero_from n' (i + 1) st iSegment
      else
        match sample st iSegment i with
        | Some 0 => i
        | _ => first_zero_from n' (i + 1) st iSegment
        end
  end.

Definition first_zero (st : ThermalData) (iSegment : Z) : Z :=
  first_zero_from (Z.to_nat 4920) 0 st iSegment.

(** How many of the [n] segments from [iSegment] on hold a zero sample. *)
Fixpoint zero_segments (n : nat) (iSegment : Z) (st : ThermalData) : Z :=
  match n with
  | O => 0
  | S n' =>
      (if first_zero st iSegment <? 4920 then 1 else 0)
      + zero_segments n' (iSegment + 1) st
  end.

(** The node as shipped on a frame whose every sample is 30069. *)
Definition st_warm : ThermalData := initial false false (constant_frame 117).

(** ** What the scan has established *)

(** Every non-zero sample before position [k] of segment [iSegment] (in
    the order of the scan) lies within the bounds whose flag is on. *)
Definition scanned (st : ThermalData) (iSegment k : Z) : Prop :=
  forall s i v,
    1 <= s <= 4 -> 0 <= i < 4920 -> 2 <= cmod i 82 ->
    s < iSegment \/ (s = iSegment /\ i < k) ->
    sample st s i = Some v -> v <> 0 ->
    (autoRangeMax_ st = true -> v <= maxValue_ st) /\
    (autoRangeMin_ st = true -> minValue_ st <= v).

(** Each bound of [st'] is the one of [st] or one of the samples. *)
Definition attained (st st' : ThermalData) : Prop :=
  (maxValue_ st' = maxValue_ st \/
   exists s i, 1 <= s <= 4 /\ 0 <= i < 4920 /\ 2 <= cmod i 82 /\
               sample st s i = Some (maxValue_ st')) /\
  (minValue_ st' = minValue_ st \/
   exists s i, 1 <= s <= 4 /\ 0 <= i < 4920 /\ 2 <= cmod i 82 /\
               sample st s i = Some (minValue_ st')).

(** ** The shipped range *)

(** The node as shipped, before any frame. *)
Definition shipped : ThermalData := initial false false [].

(** For a sample [v] and the next one, under the shipped range: the two
    intensities are in order and within 0..255. *)
Definition intensity_step_ok (v : Z) : bool :=
  let x := intensity shipped v in
  let y := intensity shipped (v + 1) in
  (0 <=? x) && (x <=? y) && (y <=? 255).

(** The entries of the 256 triplets are bytes. *)
Definition palette_bytes_ok : bool :=
  forallb (fun c => (0 <=? c) && (c <=? 255)) (take 768 colormap_ironblack_).

(** ** Datagrams that carry a whole segment *)

(** A good read of a datagram of 9840 bytes or more. *)
Definition full_datagram (d : datagram) : Prop :=
  0 <= received_bytes d /\
  9840 <= Z.of_nat (length (payload d)) /\
  Forall (fun b => 0 <= b <= 255) (payload d).

(** None of its samples is zero. *)
Definition no_zero_sample (d : datagram) : Prop :=
  forall i hi lo,
    0 <= i < 4920 -> 2 <= i mod 82 ->
    at_ (payload d) (i * 2) = Some hi -> at_ (payload d) (i * 2 + 1) = Some lo ->
    256 * hi + lo <> 0.

(** A segment whose every byte is [b], as a datagram. *)
Definition constant_datagram (b : Z) : datagram :=
  mkDatagram 9840 (replicate (Z.to_nat 9840) b).

(** The same with one byte more than a segment holds. *)
Definition long_datagram (b : Z) : datagram :=
  mkDatagram 9840 (replicate (Z.to_nat 9841) b).

(** The node as shipped, with auto-max on, on a frame whose every sample
    is 30069. *)
Definition st_auto_warm : ThermalData := initial false true (constant_frame 117).

(** ** States that differ in header bytes only *)

(** [a] and [b] agree on everything but the bytes of the header
    positions of their segments. *)
Definition same_data (a b : ThermalData) : Prop :=
  autoRangeMin_ b = autoRangeMin_ a /\ autoRangeMax_ b = autoRangeMax_ a /\
  minValue_ b = minValue_ a /\ maxValue_ b = maxValue_ a /\
  diff_ b = diff_ a /\ scale_ b = scale_ a /\
  n_zero_value_drop_frame_ b = n_zero_value_drop_frame_ a /\
  temperature_data_ b = temperature_data_ a /\
  image_data_ b = image_data_ a /\
  events_ b = events_ a /\
  forall s i, 1 <= s <= 4 -> 0 <= i < 4920 -> 2 <= cmod i 82 ->
              sample b s i = sample a s i.

(** Byte [pos] of segment [iSegment] overwritten with [x]. *)
Definition poke (st : ThermalData) (iSegment pos x : Z) : ThermalData :=
  match shelf_ st !! Z.to_nat (iSegment - 1) with
  | Some seg =>
      set_shelf st (<[Z.to_nat (iSegment - 1) := <[Z.to_nat pos := x]> seg]> (shelf_ st))
  | None => st
  end.

(** The all-zero frame of the node as shipped, with the first header byte
    of its first packet set: every sample is zero, not every byte. *)
Definition st_header : ThermalData := poke st_zero 1 0 1.

(** Two results that are both there and related, or both missing. *)
Definition both {A : Type} (R : A -> A -> Prop) (x y : option A) : Prop :=
  match x, y with
  | Some a, Some b => R a b
  | None, None => True
  | _, _ => False
  end.

(** Closes a conjunction of facts that are all among the hypotheses. *)
Ltac same_fields :=
  repeat match goal with |- _ /\ _ => split end;
  match goal with H : _ |- _ => exact H end.


(** * Properties *)

(** ** Loops *)

Lemma for_loop_total {S : Type} (P : S -> Prop) (body : Z -> S -> option (flow * S)) :
  forall (n : nat) (i : Z) (s : S),
    P s ->
    (forall j s0, i <= j < i + Z.of_nat n -> P s0 ->
       exists f s1, body j s0 = Some (f, s1) /\ P s1) ->
    exists s', for_loop n i body s = Some s' /\ P s'.
Proof.
  induction n as [|n IH]; intros i s Hs Hbody; simpl.
  - now exists s.
  - destruct (Hbody i s) as (f & s1 & Hb & Hs1); [lia | assumption |].
    rewrite Hb. destruct f.
    + apply IH; [assumption|]. intros j s0 Hj. apply Hbody. lia.
    + now exists s1.
Qed.

(** A loop entered on an iteration that breaks does that iteration only. *)
Lemma for_loop_break {S : Type} (body : Z -> S -> option (flow * S)) :
  forall (n : nat) (i : Z) (s s' : S),
    body i s = Some (Break, s') ->
    for_loop (Datatypes.S n) i body s = Some s'.
Proof. intros n i s s' Hb. simpl. now rewrite Hb. Qed.

Lemma for_loop_next {S : Type} (body : Z -> S -> option (flow * S)) :
  forall (n : nat) (i : Z) (s s' : S),
    body i s = Some (Next, s') ->
    for_loop (Datatypes.S n) i body s = for_loop n (i + 1) body s'.
Proof. intros n i s s' Hb. simpl. now rewrite Hb. Qed.

Lemma for_loop_skip {S : Type} (body : Z -> S -> option (flow * S)) (s : S) :
  forall (n : nat) (i : Z),
    (forall j, i <= j < i + Z.of_nat n -> body j s = Some (Next, s)) ->
    for_loop n i body s = Some s.
Proof.
  induction n as [|n IH]; intros i Hb; [reflexivity|].
  simpl. rewrite Hb by lia. apply IH. intros j Hj. apply Hb. lia.
Qed.

Lemma for_range_total {S : Type} (P : S -> Prop) (body : Z -> S -> option (flow * S)) :
  forall (lo hi : Z) (s : S),
    P s ->
    (forall j s0, lo <= j < hi -> P s0 ->
       exists f s1, body j s0 = Some (f, s1) /\ P s1) ->
    exists s', for_range lo hi body s = Some s' /\ P s'.
Proof.
  intros lo hi s Hs Hbody. unfold for_range.
  apply for_loop_total; [assumption|].
  intros j s0 Hj. apply Hbody. lia.
Qed.

(** ** Machine arithmetic *)

Lemma wrap16_range (z : Z) : 0 <= wrap16 z <= 65535.
Proof. unfold wrap16. pose proof (Z.mod_pos_bound z 65536). lia. Qed.

Lemma wrap16_add (z k : Z) : wrap16 (wrap16 z + k) = wrap16 (z + k).
Proof. unfold wrap16. now rewrite Zplus_mod_idemp_l. Qed.

Lemma at_Some {A : Type} (l : list A) (i : Z) :
  0 <= i < Z.of_nat (length l) -> exists x, at_ l i = Some x.
Proof.
  intros Hi. unfold at_.
  destruct (Z.ltb_spec i 0); [lia|].
  destruct (lookup_lt_is_Some_2 l (Z.to_nat i)) as [x Hx]; [lia|].
  now exists x.
Qed.

Lemma set_at_Some {A : Type} (l : list A) (i : Z) (x : A) :
  0 <= i < Z.of_nat (length l) ->
  set_at l i x = Some (<[Z.to_nat i := x]> l).
Proof.
  intros Hi. unfold set_at.
  destruct (Z.leb_spec 0 i); [|lia].
  destruct (Z.ltb_spec i (Z.of_nat (length l))); [reflexivity|lia].
Qed.

Lemma cmod_mod (i m : Z) : 0 <= i -> 0 < m -> cmod i m = i mod m.
Proof. intros. unfold cmod. apply Z.rem_mod_nonneg; lia. Qed.

Lemma cdiv_div (i m : Z) : 0 <= i -> 0 < m -> cdiv i m = i / m.
Proof. intros. unfold cdiv. apply Z.quot_div_nonneg; lia. Qed.

(** ** Well-formed states *)

Lemma state_ok_spec (st : ThermalData) :
  state_ok st = true ->
  Z.of_nat (length (shelf_ st)) = 4 /\
  (forall k seg, shelf_ st !! k = Some seg -> Z.of_nat (length seg) = 9840) /\
  Z.of_nat (length (temperature_data_ st)) = 19200 /\
  Z.of_nat (length (image_data_ st)) = 57600 /\
  0 <= minValue_ st <= 65535 /\ 0 <= maxValue_ st <= 65535.
Proof.
  unfold state_ok. rewrite !andb_true_iff.
  intros [[[[[[[H1 H2] H3] H4] H5] H6] H7] H8].
  apply Z.eqb_eq in H1, H3, H4.
  apply Z.leb_le in H5, H6, H7, H8.
  repeat split; try assumption.
  intros k seg Hk. rewrite forallb_forall in H2.
  apply Z.eqb_eq, H2. apply list_elem_of_In. eapply list_elem_of_lookup_2, Hk.
Qed.

Lemma state_ok_intro (st : ThermalData) :
  Z.of_nat (length (shelf_ st)) = 4 ->
  (forall k seg, shelf_ st !! k = Some seg -> Z.of_nat (length seg) = 9840) ->
  Z.of_nat (length (temperature_data_ st)) = 19200 ->
  Z.of_nat (length (image_data_ st)) = 57600 ->
  0 <= minValue_ st <= 65535 -> 0 <= maxValue_ st <= 65535 ->
  state_ok st = true.
Proof.
  intros H1 H2 H3 H4 H5 H6. unfold state_ok. rewrite !andb_true_iff.
  repeat split; try (apply Z.eqb_eq; assumption); try (apply Z.leb_le; lia).
  apply forallb_forall. intros seg Hin. apply Z.eqb_eq.
  apply list_elem_of_In, list_elem_of_lookup_1 in Hin as [k Hk]. eapply H2, Hk.
Qed.

Lemma sample_defined (st : ThermalData) (iSegment i : Z) :
  state_ok st = true -> 1 <= iSegment <= 4 -> 0 <= i < 4920 ->
  exists v, sample st iSegment i = Some v /\ 0 <= v <= 65535.
Proof.
  intros Hok Hs Hi. apply state_ok_spec in Hok as (Hlen & Hseg & _).
  unfold sample.
  destruct (at_Some (shelf_ st) (iSegment - 1)) as [seg Hsg]; [lia|].
  rewrite Hsg. simpl.
  assert (Hl : Z.of_nat (length seg) = 9840).
  { unfold at_ in Hsg. destruct (iSegment - 1 <? 0); [discriminate|]. eapply Hseg, Hsg. }
  destruct (at_Some seg (i * 2)) as [hi Hhi]; [lia|].
  destruct (at_Some seg (i * 2 + 1)) as [lo Hlo]; [lia|].
  rewrite Hhi, Hlo. simpl. eexists. split; [reflexivity | apply wrap16_range].
Qed.

(** ** Positions *)

Lemma position_formula (iSegment i : Z) :
  0 <= i ->
  column_of i = i mod 82 - 2 + 80 * ((i mod 164) / 82) /\
  row_of iSegment i = i / 82 / 2 + 30 * (iSegment - 1).
Proof.
  intros Hi. unfold column_of, row_of.
  change (82 * 2) with 164. change (cdiv myImageWidth_ 2) with 80.
  rewrite !cmod_mod by lia.
  rewrite (cdiv_div (i mod 164)) by (pose proof (Z.mod_pos_bound i 164); lia).
  rewrite (cdiv_div i 82) by lia.
  rewrite (cdiv_div (i / 82) 2) by (try apply Z.div_pos; lia).
  split; reflexivity.
Qed.

Lemma position_bounds (iSegment i : Z) :
  1 <= iSegment <= 4 -> 0 <= i < 4920 -> 2 <= cmod i 82 ->
  0 <= column_of i < 160 /\ 0 <= row_of iSegment i < 120.
Proof.
  intros Hs Hi Hh. rewrite cmod_mod in Hh by lia.
  destruct (position_formula iSegment i) as [-> ->]; [lia|].
  Z.div_mod_to_equations. lia.
Qed.

(** ** The palette *)

Lemma colormap_size : Z.of_nat (length colormap_ironblack_) = 769.
Proof. reflexivity. Qed.

Lemma palette_offset_range (value k : Z) :
  0 <= value -> 0 <= k -> 0 <= palette_offset value k <= 768.
Proof.
  intros Hv Hk. unfold palette_offset. rewrite colormap_size.
  destruct (Z.leb_spec 769 (3 * value + k)); lia.
Qed.

Lemma palette_read (value k : Z) :
  0 <= value -> 0 <= k ->
  exists c, at_ colormap_ironblack_ (palette_offset value k) = Some c.
Proof.
  intros Hv Hk. apply at_Some. rewrite colormap_size.
  pose proof (palette_offset_range value k Hv Hk). lia.
Qed.

(** ** One decoding step *)

Lemma u16_of_float_range (x : spec_float) : 0 <= u16_of_float x <= 65535.
Proof.
  unfold u16_of_float. destruct (trunc x) as [z|]; [|apply wrap16_range].
  destruct (Z.leb_spec 0 z); simpl; [|apply wrap16_range].
  destruct (Z.leb_spec z 65535); [lia | apply wrap16_range].
Qed.

Lemma intensity_range (st : ThermalData) (v : Z) :
  state_ok st = true -> 0 <= intensity st v <= 65535.
Proof.
  intros Hok. apply state_ok_spec in Hok as (_ & _ & _ & _ & Hmin & Hmax).
  unfold intensity.
  destruct (negb (autoRangeMax_ st) && (v >? maxValue_ st)); [lia|].
  destruct (negb (autoRangeMin_ st) && (v <=? minValue_ st)); [lia|].
  apply u16_of_float_range.
Qed.

(** The stores of [write_pixel], for a cell of the grid. *)
Lemma write_pixel_spec (st : ThermalData) (row column value : Z) (t : spec_float) :
  state_ok st = true ->
  0 <= row < 120 -> 0 <= column < 160 -> 0 <= value ->
  exists cb cg cr,
    at_ colormap_ironblack_ (palette_offset value 2) = Some cb /\
    at_ colormap_ironblack_ (palette_offset value 1) = Some cg /\
    at_ colormap_ironblack_ (palette_offset value 0) = Some cr /\
    let cell := row * 160 + column in
    write_pixel st row column value t =
      Some (set_temperature
              (set_image st
                 (<[Z.to_nat (cell * 3 + 2) := wrap8 cr]>
                    (<[Z.to_nat (cell * 3 + 1) := wrap8 cg]>
                       (<[Z.to_nat (cell * 3 + 0) := wrap8 cb]> (image_data_ st)))))
              (<[Z.to_nat cell := t]> (temperature_data_ st))).
Proof.
  intros Hok Hr Hc Hv.
  apply state_ok_spec in Hok as (_ & _ & Ht & Him & _ & _).
  destruct (palette_read value 2) as [cb Hb]; [lia | lia |].
  destruct (palette_read value 1) as [cg Hg]; [lia | lia |].
  destruct (palette_read value 0) as [cr Hcr]; [lia | lia |].
  exists cb, cg, cr. repeat split; try assumption.
  intros cell. unfold write_pixel. fold myImageWidth_.
  change (row * myImageWidth_ + column) with cell.
  assert (Hcell : 0 <= cell < 19200) by (unfold cell; lia).
  rewrite Hb. simpl.
  rewrite (set_at_Some (image_data_ st)) by lia. simpl. rewrite Hg. simpl.
  rewrite (set_at_Some (<[_ := _]> (image_data_ st))) by (rewrite length_insert; lia).
  simpl. rewrite Hcr. simpl.
  rewrite (set_at_Some (<[_ := _]> (<[_ := _]> (image_data_ st))))
    by (rewrite !length_insert; lia).
  simpl. rewrite (set_at_Some (temperature_data_ st)) by lia. reflexivity.
Qed.

Lemma same_frame_refl (st : ThermalData) : same_frame st st.
Proof. repeat split. Qed.

Lemma same_range_refl (st : ThermalData) : same_range st st.
Proof. repeat split. Qed.

Lemma same_frame_trans (a b c : ThermalData) :
  same_frame a b -> same_frame b c -> same_frame a c.
Proof. unfold same_frame. intuition congruence. Qed.

Lemma same_range_trans (a b c : ThermalData) :
  same_range a b -> same_range b c -> same_range a c.
Proof. unfold same_range. intuition congruence. Qed.

Lemma decode_body_header (iSegment i : Z) (st : ThermalData) :
  cmod i 82 < 2 -> decode_body iSegment i st = Some (Next, st).
Proof.
  intros Hh. unfold decode_body.
  destruct (Z.ltb_spec (cmod i 82) 2); [reflexivity | lia].
Qed.

Lemma decode_body_zero (iSegment i : Z) (st : ThermalData) :
  2 <= cmod i 82 -> sample st iSegment i = Some 0 ->
  decode_body iSegment i st =
    Some (Break, set_drop st (wrap16 (n_zero_value_drop_frame_ st + 1))).
Proof.
  intros Hh Hs. unfold decode_body.
  destruct (Z.ltb_spec (cmod i 82) 2); [lia|].
  rewrite Hs. reflexivity.
Qed.

Lemma decode_body_pixel (iSegment i v : Z) (st : ThermalData) :
  1 <= iSegment <= 4 -> 0 <= i < 4920 -> 2 <= cmod i 82 ->
  sample st iSegment i = Some v -> v <> 0 ->
  decode_body iSegment i st =
    st' ← write_pixel st (row_of iSegment i) (column_of i)
                       (intensity st v) (temperature_of v);
    Some (Next, st').
Proof.
  intros Hs Hi Hh Hv Hnz. unfold decode_body.
  destruct (Z.ltb_spec (cmod i 82) 2); [lia|].
  rewrite Hv. simpl.
  destruct (Z.eqb_spec v 0); [contradiction|].
  destruct (position_bounds iSegment i Hs Hi Hh) as [Hc Hr].
  unfold myImageHeight_, myImageWidth_ at 1.
  destruct (Z.ltb_spec (row_of iSegment i) 120); [|lia].
  destruct (Z.ltb_spec (column_of i) 160); [|lia].
  reflexivity.
Qed.

(** Every step of the decoding loop is defined, and touches only the drop
    counter and the two output buffers. *)
Lemma decode_body_total (iSegment i : Z) (st : ThermalData) :
  state_ok st = true -> 1 <= iSegment <= 4 -> 0 <= i < 4920 ->
  exists f st',
    decode_body iSegment i st = Some (f, st') /\
    state_ok st' = true /\ same_frame st st' /\ same_range st st'.
Proof.
  intros Hok Hs Hi.
  destruct (Z.lt_ge_cases (cmod i 82) 2) as [Hh|Hh].
  { exists Next, st. rewrite decode_body_header by assumption.
    repeat split; assumption. }
  destruct (sample_defined st iSegment i Hok Hs Hi) as (v & Hv & Hvr).
  destruct (Z.eq_dec v 0) as [->|Hnz].
  { eexists Break, _. rewrite decode_body_zero by assumption.
    repeat split. exact Hok. }
  destruct (position_bounds iSegment i Hs Hi Hh) as [Hc Hr].
  pose proof (intensity_range st v Hok) as Hint.
  destruct (write_pixel_spec st (row_of iSegment i) (column_of i)
              (intensity st v) (temperature_of v) Hok Hr Hc)
    as (cb & cg & cr & _ & _ & _ & Hw); [lia|].
  rewrite (decode_body_pixel iSegment i v st) by assumption.
  simpl in Hw. rewrite Hw. simpl. eexists Next, _. split; [reflexivity|].
  split; [|repeat split].
  apply state_ok_spec in Hok as (H1 & H2 & H3 & H4 & H5 & H6).
  apply state_ok_intro; simpl; rewrite ?length_insert; assumption.
Qed.

Lemma decode_segment_total (iSegment : Z) (st : ThermalData) :
  state_ok st = true -> 1 <= iSegment <= 4 ->
  exists st',
    decode_segment iSegment st = Some (Next, st') /\
    state_ok st' = true /\ same_frame st st' /\ same_range st st'.
Proof.
  intros Hok Hs. unfold decode_segment.
  destruct (for_range_total
              (fun s0 => state_ok s0 = true /\ same_frame st s0 /\ same_range st s0)
              (decode_body iSegment) 0 4920 st) as (st' & Hrun & Hinv).
  - repeat split; assumption.
  - intros j s0 Hj (Hok0 & Hf0 & Hr0).
    destruct (decode_body_total iSegment j s0 Hok0 Hs Hj) as (f & s1 & Hb & Hok1 & Hf1 & Hr1).
    exists f, s1. split; [assumption|]. split; [assumption|].
    split; [eapply same_frame_trans | eapply same_range_trans]; eassumption.
  - exists st'. rewrite Hrun. split; [reflexivity | assumption].
Qed.

Lemma decode_pass_total (st : ThermalData) :
  state_ok st = true ->
  exists st',
    decode_pass st = Some st' /\
    state_ok st' = true /\ same_frame st st' /\ same_range st st'.
Proof.
  intros Hok. unfold decode_pass.
  apply (for_range_total
           (fun s0 => state_ok s0 = true /\ same_frame st s0 /\ same_range st s0)).
  - repeat split; assumption.
  - intros j s0 Hj (Hok0 & Hf0 & Hr0).
    destruct (decode_segment_total j s0 Hok0) as (s1 & Hb & Hok1 & Hf1 & Hr1); [lia|].
    exists Next, s1. split; [assumption|]. split; [assumption|].
    split; [eapply same_frame_trans | eapply same_range_trans]; eassumption.
Qed.

(** ** The auto-ranging pass *)

Lemma scan_inv_refl (st : ThermalData) : state_ok st = true -> scan_inv st st.
Proof. intros Hok. unfold scan_inv, same_frame. repeat split; try assumption; lia. Qed.

Lemma scan_inv_trans (a b c : ThermalData) :
  scan_inv a b -> scan_inv b c -> scan_inv a c.
Proof.
  unfold scan_inv, same_frame.
  intros (_ & (Ha1 & Ha2 & Ha3 & Ha4) & Hb1 & Hb2 & Hb3 & Hb4 & Hb5 & Hb6 & Hb7 & Hb8 & Hb9)
         (Hok & (Hc1 & Hc2 & Hc3 & Hc4) & Hd1 & Hd2 & Hd3 & Hd4 & Hd5 & Hd6 & Hd7 & Hd8 & Hd9).
  rewrite Ha1 in Hd8. rewrite Ha2 in Hd9.
  repeat split; try assumption; try congruence; try lia.
  - intros Hf. rewrite Hd8, Hb8 by assumption. reflexivity.
  - intros Hf. rewrite Hd9, Hb9 by assumption. reflexivity.
Qed.

Lemma scan_body_total (iSegment i : Z) (st : ThermalData) :
  state_ok st = true -> 1 <= iSegment <= 4 -> 0 <= i < 4920 ->
  exists st', scan_body iSegment i st = Some (Next, st') /\ scan_inv st st'.
Proof.
  intros Hok Hs Hi. unfold scan_body.
  destruct (cmod i 82 <? 2); [exists st; split; [reflexivity | now apply scan_inv_refl]|].
  destruct (sample_defined st iSegment i Hok Hs Hi) as (v & Hv & Hvr).
  rewrite Hv. simpl.
  destruct (v =? 0); [exists st; split; [reflexivity | now apply scan_inv_refl]|].
  eexists. split; [reflexivity|].
  pose proof (state_ok_spec st Hok) as (H1 & H2 & H3 & H4 & H5 & H6).
  destruct (autoRangeMax_ st) eqn:Emax, (autoRangeMin_ st) eqn:Emin; simpl;
    rewrite ?Emin, ?Emax; simpl;
    repeat match goal with
           | |- context [?a >? ?b] => destruct (Z.gtb_spec a b); simpl; rewrite ?Emin, ?Emax; simpl
           | |- context [?a <? ?b] => destruct (Z.ltb_spec a b); simpl; rewrite ?Emin, ?Emax; simpl
           end;
    (split; [apply state_ok_intro; simpl; (assumption || lia)|]);
    unfold same_frame; simpl; rewrite ?Emin, ?Emax;
    repeat split; try reflexivity; try lia; try discriminate.
Qed.

Lemma scan_total (st : ThermalData) :
  state_ok st = true ->
  exists st', for_range 1 5 scan_segment st = Some st' /\ scan_inv st st'.
Proof.
  intros Hok. apply (for_range_total (scan_inv st)); [now apply scan_inv_refl|].
  intros s s0 Hs Hinv0. unfold scan_segment.
  destruct (for_range_total (scan_inv s0) (scan_body s) 0 4920 s0)
    as (s1 & Hrun & Hinv1).
  - apply scan_inv_refl, Hinv0.
  - intros j s2 Hj Hinv2.
    destruct (scan_body_total s j s2) as (s3 & Hb & Hinv3); [apply Hinv2 | lia | lia |].
    exists Next, s3. split; [assumption | eapply scan_inv_trans; eassumption].
  - exists Next, s1. rewrite Hrun. split; [reflexivity|].
    eapply scan_inv_trans; eassumption.
Qed.

Lemma seed_ok (st : ThermalData) :
  state_ok st = true ->
  state_ok (seed st) = true /\ same_frame st (seed st) /\
  temperature_data_ (seed st) = temperature_data_ st /\
  image_data_ (seed st) = image_data_ st /\
  n_zero_value_drop_frame_ (seed st) = n_zero_value_drop_frame_ st /\
  maxValue_ (seed st) = (if autoRangeMin_ st then 65535 else maxValue_ st) /\
  minValue_ (seed st) = (if autoRangeMax_ st then 0 else minValue_ st).
Proof.
  intros Hok. pose proof (state_ok_spec st Hok) as (H1 & H2 & H3 & H4 & H5 & H6).
  unfold seed, same_frame.
  destruct (autoRangeMin_ st) eqn:Emin, (autoRangeMax_ st) eqn:Emax; simpl;
    rewrite ?Emin, ?Emax; simpl;
    (split; [apply state_ok_intro; simpl; (assumption || lia)|]);
    rewrite ?Emin, ?Emax; repeat split; reflexivity.
Qed.

(** The pass is defined on every well-formed state.  With a flag on, the
    bounds it leaves are the ones the seeds and the scan produce, and
    [diff_] and [scale_] are recomputed from them whatever they are. *)
Lemma auto_range_total (st : ThermalData) :
  state_ok st = true ->
  exists st',
    auto_range st = Some st' /\
    state_ok st' = true /\ same_frame st st' /\
    temperature_data_ st' = temperature_data_ st /\
    image_data_ st' = image_data_ st /\
    n_zero_value_drop_frame_ st' = n_zero_value_drop_frame_ st /\
    (autoRangeMin_ st || autoRangeMax_ st = false -> st' = st) /\
    (autoRangeMin_ st || autoRangeMax_ st = true ->
       diff_ st' = f32_of_int (maxValue_ st' - minValue_ st') /\
       scale_ st' = f32_div (f32_of_int 255) (diff_ st')) /\
    (autoRangeMin_ st = true -> maxValue_ st' = 65535) /\
    (autoRangeMax_ st = true -> minValue_ st' = 0) /\
    (autoRangeMin_ st = false -> maxValue_ st <= maxValue_ st') /\
    (autoRangeMax_ st = false -> minValue_ st' <= minValue_ st).
Proof.
  intros Hok. unfold auto_range.
  destruct (autoRangeMin_ st || autoRangeMax_ st) eqn:Eflags.
  - destruct (seed_ok st Hok) as (Hok1 & Hf1 & Ht1 & Hi1 & Hn1 & Hmax1 & Hmin1).
    destruct (scan_total (seed st) Hok1)
      as (st2 & Hrun & Hok2 & Hf2 & Ht2 & Hi2 & Hn2 & _ & _ & Hmin2 & Hmax2 & Hkmin & Hkmax).
    rewrite Hrun. simpl. eexists. split; [reflexivity|].
    pose proof (state_ok_spec st2 Hok2) as (H1 & H2 & H3 & H4 & H5 & H6).
    split; [apply state_ok_intro; simpl; assumption|].
    split; [eapply same_frame_trans; [exact Hf1 | exact Hf2]|].
    simpl. repeat split; try congruence.
    + intros Emin. rewrite Emin in Hmax1. lia.
    + intros Emax. rewrite Emax in Hmin1. lia.
    + intros Emin. rewrite Emin in Hmax1. lia.
    + intros Emax. rewrite Emax in Hmin1. lia.
  - exists st. repeat split; try assumption; try discriminate; try lia.
    + intros Emin. rewrite Emin in Eflags. discriminate.
    + intros Emax. rewrite Emax, orb_true_r in Eflags. discriminate.
Qed.

Lemma publish_spec (st : ThermalData) :
  n_zero_value_drop_frame_ (publish st) = 0 /\
  same_range st (publish st) /\
  temperature_data_ (publish st) = temperature_data_ st /\
  image_data_ (publish st) = image_data_ st /\
  shelf_ (publish st) = shelf_ st /\
  events_ (publish st) =
    events_ st ++ [EvPublish (temperature_data_ st) (image_data_ st)] /\
  (state_ok st = true -> state_ok (publish st) = true).
Proof.
  unfold publish.
  destruct (Z.eqb_spec (n_zero_value_drop_frame_ st) 0) as [E|E]; simpl;
    repeat split; try assumption; try reflexivity;
    unfold state_ok; simpl; intros Hok; exact Hok.
Qed.

(** [process_data] is defined on every well-formed state: no read or
    write of a run leaves its buffer. *)
Lemma process_data_total (st : ThermalData) :
  state_ok st = true ->
  exists st1 st2,
    auto_range st = Some st1 /\ decode_pass st1 = Some st2 /\
    process_data st = Some (publish st2) /\
    state_ok (publish st2) = true /\
    same_range st1 st2 /\
    (autoRangeMin_ st || autoRangeMax_ st = false -> st1 = st) /\
    same_frame st st2.
Proof.
  intros Hok.
  destruct (auto_range_total st Hok) as (st1 & Ha & Hok1 & Hf1 & _ & _ & _ & Hoff & _).
  destruct (decode_pass_total st1 Hok1) as (st2 & Hd & Hok2 & Hf2 & Hr2).
  exists st1, st2. unfold process_data. rewrite Ha. simpl. rewrite Hd. simpl.
  split; [reflexivity|]. split; [reflexivity|]. split; [reflexivity|].
  split; [now apply publish_spec|]. split; [exact Hr2|]. split; [exact Hoff|].
  eapply same_frame_trans; eassumption.
Qed.

Lemma temp_data_step (oks : nat) (rx : list datagram) (st : ThermalData) :
  temp_data (S oks) rx st =
    match receive_frame 4 0 rx st with
    | inl stop => stop
    | inr (rx', st') =>
        match process_data st' with
        | None => (Undefined, st')
        | Some st'' => temp_data oks rx' st''
        end
    end.
Proof. reflexivity. Qed.

(** ** All-zero frames *)

Lemma at_elem {A : Type} (l : list A) (i : Z) (x : A) :
  at_ l i = Some x -> In x l.
Proof.
  unfold at_. destruct (i <? 0); [discriminate|].
  intros Hx. apply list_elem_of_In. eapply list_elem_of_lookup_2, Hx.
Qed.

Lemma sample_zero (st : ThermalData) (iSegment i : Z) :
  state_ok st = true -> frame_all_zero st = true ->
  1 <= iSegment <= 4 -> 0 <= i < 4920 ->
  sample st iSegment i = Some 0.
Proof.
  intros Hok Hz Hs Hi. apply state_ok_spec in Hok as (Hlen & Hseg & _).
  unfold sample.
  destruct (at_Some (shelf_ st) (iSegment - 1)) as [seg Hsg]; [lia|].
  rewrite Hsg. simpl.
  assert (Hl : Z.of_nat (length seg) = 9840).
  { unfold at_ in Hsg. destruct (iSegment - 1 <? 0); [discriminate|]. eapply Hseg, Hsg. }
  assert (Hzs : forall b, In b seg -> b = 0).
  { unfold frame_all_zero in Hz. rewrite forallb_forall in Hz.
    specialize (Hz seg (at_elem _ _ _ Hsg)). rewrite forallb_forall in Hz.
    intros b Hb. symmetry. apply Z.eqb_eq, Hz, Hb. }
  destruct (at_Some seg (i * 2)) as [hi Hhi]; [lia|].
  destruct (at_Some seg (i * 2 + 1)) as [lo Hlo]; [lia|].
  rewrite Hhi, Hlo. simpl.
  rewrite (Hzs hi (at_elem _ _ _ Hhi)), (Hzs lo (at_elem _ _ _ Hlo)). reflexivity.
Qed.


(** ** The decoding pass on zero samples *)

Lemma decode_segment_first_zero (iSegment : Z) (st : ThermalData) :
  sample st iSegment 2 = Some 0 ->
  decode_segment iSegment st =
    Some (Next, set_drop st (wrap16 (n_zero_value_drop_frame_ st + 1))).
Proof.
  intros Hz. unfold decode_segment, for_range.
  replace (Z.to_nat (4920 - 0)) with (S (S (S (Z.to_nat 4917)))) by lia.
  rewrite (for_loop_next _ _ 0 st st) by (apply decode_body_header; reflexivity).
  change (0 + 1) with 1.
  rewrite (for_loop_next _ _ 1 st st) by (apply decode_body_header; reflexivity).
  change (1 + 1) with 2.
  rewrite (for_loop_break _ _ 2 st _ (decode_body_zero iSegment 2 st ltac:(discriminate) Hz)).
  reflexivity.
Qed.

Lemma decode_pass_first_zero (st : ThermalData) :
  (forall iSegment, 1 <= iSegment <= 4 -> sample st iSegment 2 = Some 0) ->
  decode_pass st = Some (set_drop st (wrap16 (n_zero_value_drop_frame_ st + 4))).
Proof.
  intros Hz.
  assert (Hstep : forall s k,
             1 <= s <= 4 ->
             decode_segment s (set_drop st k) = Some (Next, set_drop st (wrap16 (k + 1)))).
  { intros s k Hs. apply (decode_segment_first_zero s (set_drop st k)). exact (Hz s Hs). }
  assert (H1 : decode_segment 1 st =
               Some (Next, set_drop st (wrap16 (n_zero_value_drop_frame_ st + 1))))
    by (apply decode_segment_first_zero, Hz; lia).
  assert (R2 : 1 <= 2 <= 4) by lia.
  assert (R3 : 1 <= 3 <= 4) by lia.
  assert (R4 : 1 <= 4 <= 4) by lia.
  unfold decode_pass, for_range.
  change (Z.to_nat (5 - 1)) with 4%nat.
  rewrite (for_loop_next _ _ 1 _ _ H1). change (1 + 1) with 2.
  rewrite (for_loop_next _ _ 2 _ _ (Hstep 2 _ R2)). change (2 + 1) with 3.
  rewrite (for_loop_next _ _ 3 _ _ (Hstep 3 _ R3)). change (3 + 1) with 4.
  rewrite (for_loop_next _ _ 4 _ _ (Hstep 4 _ R4)).
  simpl for_loop.
  rewrite (wrap16_add (n_zero_value_drop_frame_ st + 1) 1),
          (wrap16_add (n_zero_value_drop_frame_ st + 1 + 1) 1),
          (wrap16_add (n_zero_value_drop_frame_ st + 1 + 1 + 1) 1).
  replace (n_zero_value_drop_frame_ st + 1 + 1 + 1 + 1)
    with (n_zero_value_drop_frame_ st + 4) by lia.
  reflexivity.
Qed.

(** ** Placement of the samples *)

(** C6. A position [h] of segment [iSegment] whose index modulo 82 is
    below 2 is a header position: neither pass looks at it and the state
    is left as it was.  Any other position [i], with a non-zero sample
    [v], is written to column [i mod 82 - 2 + 80 * ((i mod 164) / 82)] of row
    [i / 82 / 2 + 30 * (iSegment - 1)]: the temperature goes to cell
    [row * 160 + column] of the temperature grid and the three palette
    bytes to the three bytes of that cell in the image. *)
Theorem destination_cell (st : ThermalData) (iSegment h i v : Z) :
  state_ok st = true ->
  1 <= iSegment <= 4 ->
  0 <= h < 4920 -> h mod 82 < 2 ->
  0 <= i < 4920 -> 2 <= i mod 82 ->
  sample st iSegment i = Some v -> v <> 0 ->
  (decode_body iSegment h st = Some (Next, st) /\
   scan_body iSegment h st = Some (Next, st)) /\
  let column := i mod 82 - 2 + 80 * ((i mod 164) / 82) in
  let row := i / 82 / 2 + 30 * (iSegment - 1) in
  column_of i = column /\ row_of iSegment i = row /\
  exists st' cb cg cr,
    decode_body iSegment i st = Some (Next, st') /\
    temperature_data_ st' =
      <[Z.to_nat (row * 160 + column) := temperature_of v]> (temperature_data_ st) /\
    at_ colormap_ironblack_ (palette_offset (intensity st v) 2) = Some cb /\
    at_ colormap_ironblack_ (palette_offset (intensity st v) 1) = Some cg /\
    at_ colormap_ironblack_ (palette_offset (intensity st v) 0) = Some cr /\
    image_data_ st' =
      <[Z.to_nat ((row * 160 + column) * 3 + 2) := wrap8 cr]>
        (<[Z.to_nat ((row * 160 + column) * 3 + 1) := wrap8 cg]>
           (<[Z.to_nat ((row * 160 + column) * 3 + 0) := wrap8 cb]> (image_data_ st))).
Proof.
  intros Hok Hs Hhr Hhh Hi Hh Hv Hnz. split.
  - rewrite <- (cmod_mod h 82) in Hhh by lia. split.
    + now apply decode_body_header.
    + unfold scan_body. destruct (Z.ltb_spec (cmod h 82) 2); [reflexivity | lia].
  - intros column row.
    destruct (position_formula iSegment i) as [Hc Hr]; [lia|].
    split; [exact Hc|]. split; [exact Hr|].
    rewrite <- (cmod_mod i 82) in Hh by lia.
    destruct (position_bounds iSegment i Hs Hi Hh) as [Hcb Hrb].
    pose proof (intensity_range st v Hok) as Hint.
    destruct (write_pixel_spec st (row_of iSegment i) (column_of i)
                (intensity st v) (temperature_of v) Hok Hrb Hcb)
      as (cb & cg & cr & Hb & Hg & Hrd & Hw); [lia|].
    simpl in Hw. rewrite Hc, Hr in Hw. fold column in Hw. fold row in Hw.
    eexists _, cb, cg, cr.
    rewrite (decode_body_pixel iSegment i v st) by assumption.
    rewrite Hc, Hr. fold column. fold row. rewrite Hw. simpl.
    repeat split; assumption.
Qed.

(** ** Buffer bounds *)

(** C10. Every position that is not a header position lands inside the
    160 x 120 grid, so the test that guards the stores always succeeds,
    and the indices used on [shelf_], [temperature_data_] and
    [image_data_] are inside these buffers: [process_data] runs to its end
    without an access out of bounds. *)
Theorem accesses_within_bounds (st : ThermalData) (iSegment i : Z) :
  state_ok st = true ->
  1 <= iSegment <= 4 -> 0 <= i < 4920 -> 2 <= cmod i 82 ->
  let column := column_of i in
  let row := row_of iSegment i in
  (0 <= column < 160 /\ 0 <= row < 120 /\
   (row <? myImageHeight_) && (column <? myImageWidth_) = true /\
   0 <= i * 2 /\ i * 2 + 1 <= 9839 /\
   0 <= row * myImageWidth_ + column < 19200 /\
   0 <= (row * myImageWidth_ + column) * 3 + 0 /\
   (row * myImageWidth_ + column) * 3 + 2 < 57600) /\
  exists st', process_data st = Some st' /\ state_ok st' = true.
Proof.
  intros Hok Hs Hi Hh column row. split.
  - destruct (position_bounds iSegment i Hs Hi Hh) as [Hc Hr].
    fold column in Hc. fold row in Hr. unfold myImageHeight_, myImageWidth_.
    destruct (Z.ltb_spec row 120); [|lia].
    destruct (Z.ltb_spec column 160); [|lia].
    repeat split; try reflexivity; lia.
  - destruct (process_data_total st Hok) as (st1 & st2 & _ & _ & Hp & Hok' & _).
    exists (publish st2). split; assumption.
Qed.

(** ** Fixed range *)

(** C9. With both auto-range flags off the scanning pass does not run,
    and whatever the frame holds, [process_data] leaves [minValue_],
    [maxValue_], [diff_] and [scale_] as they were. *)
Theorem fixed_range_unchanged (st : ThermalData) :
  state_ok st = true ->
  autoRangeMin_ st = false ->
  autoRangeMax_ st = false ->
  auto_range st = Some st /\
  exists st',
    process_data st = Some st' /\
    minValue_ st' = minValue_ st /\ maxValue_ st' = maxValue_ st /\
    diff_ st' = diff_ st /\ scale_ st' = scale_ st.
Proof.
  intros Hok Hmin Hmax.
  destruct (process_data_total st Hok) as (st1 & st2 & Ha & Hd & Hp & _ & Hr & Hoff & _).
  assert (E : st1 = st) by (apply Hoff; rewrite Hmin, Hmax; reflexivity).
  subst st1. split; [exact Ha|].
  exists (publish st2). split; [exact Hp|].
  destruct (publish_spec st2) as (_ & Hr2 & _).
  destruct (same_range_trans _ _ _ Hr Hr2) as (H1 & H2 & H3 & H4).
  repeat split; assumption.
Qed.

(** ** The stored temperature *)

Lemma all_from_spec (p : Z -> bool) :
  forall (n : nat) (lo : Z),
    all_from n lo p = true ->
    forall v, lo <= v < lo + Z.of_nat n -> p v = true.
Proof.
  induction n as [|n IH]; intros lo Hall v Hv; [lia|].
  simpl in Hall. apply andb_true_iff in Hall as [Hlo Hrest].
  destruct (Z.eq_dec v lo) as [->|Hne]; [assumption|].
  apply (IH (lo + 1)); [assumption | lia].
Qed.

(** The accuracy test, run on each of the 65535 non-zero samples. *)
Lemma temperature_close_all : all_from (Z.to_nat 65535) 1 temperature_close = true.
Proof. vm_compute. reflexivity. Qed.

Lemma temperature_accuracy (v : Z) :
  1 <= v <= 65535 ->
  is_finite (temperature_of v) = true /\
  (Qabs (to_Q (temperature_of v) - temperature_exact v)
   <= (1 # 8388608) * Qabs (temperature_exact v))%Q.
Proof.
  intros Hv.
  pose proof (all_from_spec temperature_close _ _ temperature_close_all v) as Hc.
  unfold temperature_close in Hc.
  apply andb_true_iff in Hc; [|lia].
  destruct Hc as [Hfin Hle]. split; [exact Hfin|].
  apply Qle_bool_iff, Hle.
Qed.

(** C8. The temperature stored for a non-zero sample [v] is the [float]
    nearest to the [double] value of [v / 100.0 - 273.0]; it is finite and
    differs from the exact value v/100 - 273 by at most 2^-23 of it. *)
Theorem stored_temperature (st : ThermalData) (iSegment i v : Z) :
  state_ok st = true ->
  1 <= iSegment <= 4 ->
  0 <= i < 4920 ->
  2 <= i mod 82 ->
  sample st iSegment i = Some v ->
  v <> 0 ->
  exists st' t,
    decode_body iSegment i st = Some (Next, st') /\
    temperature_data_ st'
      !! Z.to_nat (row_of iSegment i * 160 + column_of i) = Some t /\
    t = temperature_of v /\
    is_finite t = true /\
    (Qabs (to_Q t - ((v # 100) - 273)) <= (1 # 8388608) * Qabs ((v # 100) - 273))%Q.
Proof.
  intros Hok Hs Hi Hh Hv Hnz.
  destruct (sample_defined st iSegment i Hok Hs Hi) as (v' & Hv' & Hrange).
  assert (v' = v) by congruence. subst v'.
  rewrite <- (cmod_mod i 82) in Hh by lia.
  destruct (position_bounds iSegment i Hs Hi Hh) as [Hcb Hrb].
  pose proof (intensity_range st v Hok) as Hint.
  destruct (write_pixel_spec st (row_of iSegment i) (column_of i)
              (intensity st v) (temperature_of v) Hok Hrb Hcb)
    as (cb & cg & cr & _ & _ & _ & Hw); [lia|].
  simpl in Hw.
  destruct (temperature_accuracy v) as [Hfin Hacc]; [lia|].
  eexists _, (temperature_of v).
  rewrite (decode_body_pixel iSegment i v st) by assumption.
  rewrite Hw. simpl. split; [reflexivity|].
  split; [|repeat split; assumption].
  apply list_lookup_insert_eq.
  apply state_ok_spec in Hok as (_ & _ & Ht & _). lia.
Qed.

(** ** The receive loop *)

Lemma store_datagram_length (buf : list Z) (d : datagram) :
  length (store_datagram buf d) = length buf.
Proof.
  unfold store_datagram. rewrite length_app, length_drop, length_take. lia.
Qed.

Lemma set_shelf_ok (st : ThermalData) (k : nat) (buf : list Z) (d : datagram) :
  state_ok st = true -> shelf_ st !! k = Some buf ->
  state_ok (set_shelf st (<[k := store_datagram buf d]> (shelf_ st))) = true.
Proof.
  intros Hok Hk. pose proof (state_ok_spec st Hok) as (H1 & H2 & H3 & H4 & H5 & H6).
  apply state_ok_intro; simpl; try assumption.
  - rewrite length_insert. assumption.
  - intros j seg Hj. apply list_lookup_insert_Some in Hj as [(_ & <- & _)|(_ & Hj)].
    + rewrite store_datagram_length. eapply H2, Hk.
    + eapply H2, Hj.
Qed.

(** Four reads that do not return a negative count fill the four
    segments, whatever the counts are. *)
Lemma receive_frame_ok :
  forall (rxa : list datagram) (n : nat) (i : Z) (rx : list datagram) (st : ThermalData),
    length rxa = n ->
    Forall (fun d => 0 <= received_bytes d) rxa ->
    0 <= i -> i + Z.of_nat n <= 4 ->
    state_ok st = true ->
    exists st',
      receive_frame n i (rxa ++ rx) st = inr (rx, st') /\
      state_ok st' = true /\ events_ st' = events_ st.
Proof.
  induction rxa as [|d rxa IH]; intros n i rx st Hn Hall Hi Hle Hok; subst n.
  - exists st. repeat split. assumption.
  - simpl length in *. simpl.
    apply Forall_cons in Hall as [Hd Hall].
    destruct (Z.ltb_spec (received_bytes d) 0); [lia|].
    pose proof (state_ok_spec st Hok) as (H1 & _).
    destruct (at_Some (shelf_ st) i) as [buf Hbuf]; [lia|].
    rewrite Hbuf.
    assert (Hk : shelf_ st !! Z.to_nat i = Some buf).
    { unfold at_ in Hbuf. destruct (i <? 0); [discriminate | exact Hbuf]. }
    destruct (IH (length rxa) (i + 1) rx
                (set_shelf st (<[Z.to_nat i := store_datagram buf d]> (shelf_ st))))
      as (st' & Hrun & Hok' & Hev); try assumption; try reflexivity; try lia.
    + now apply set_shelf_ok.
    + exists st'. repeat split; assumption.
Qed.

(** A read that returns a negative count, after fewer than four good
    ones, ends the loop. *)
Lemma receive_frame_fail :
  forall (rx1 : list datagram) (n : nat) (i : Z) (d : datagram)
         (rx2 : list datagram) (st : ThermalData),
    (length rx1 < n)%nat ->
    Forall (fun d => 0 <= received_bytes d) rx1 ->
    received_bytes d < 0 ->
    0 <= i -> i + Z.of_nat (length rx1) < 4 ->
    state_ok st = true ->
    exists st',
      receive_frame n i (rx1 ++ d :: rx2) st =
        inl (ReceiveFailed, emit (emit st' (EvLogError "Receive failed")) EvCloseSocket) /\
      events_ st' = events_ st.
Proof.
  induction rx1 as [|d1 rx1 IH]; intros n i d rx2 st Hn Hall Hd Hi Hle Hok;
    (destruct n as [|n]; [simpl in Hn; lia|]); simpl.
  - destruct (Z.ltb_spec (received_bytes d) 0); [|lia].
    exists st. split; reflexivity.
  - simpl length in *. apply Forall_cons in Hall as [Hd1 Hall].
    destruct (Z.ltb_spec (received_bytes d1) 0); [lia|].
    pose proof (state_ok_spec st Hok) as (H1 & _).
    destruct (at_Some (shelf_ st) i) as [buf Hbuf]; [lia|].
    rewrite Hbuf.
    assert (Hk : shelf_ st !! Z.to_nat i = Some buf).
    { unfold at_ in Hbuf. destruct (i <? 0); [discriminate | exact Hbuf]. }
    destruct (IH n (i + 1) d rx2
                (set_shelf st (<[Z.to_nat i := store_datagram buf d1]> (shelf_ st))))
      as (st' & Hrun & Hev); try assumption; try lia.
    + now apply set_shelf_ok.
    + exists st'. split; assumption.
Qed.

Lemma publish_count_app (st : ThermalData) (es : list event) (st' : ThermalData) :
  events_ st' = events_ st ++ es ->
  publish_count st' = (publish_count st + length (List.filter is_publish es))%nat.
Proof.
  intros E. unfold publish_count. rewrite E, List.filter_app, length_app. reflexivity.
Qed.

(** C4 (amended). A read that returns a negative count is fatal: the
    error is logged, the socket is closed and [temp_data] returns without
    decoding or publishing the frame in progress, and without reading
    again.  A read that returns a count that is not negative is accepted
    whatever the count is: after four of them the frame is decoded and
    published, and the loop goes on. *)
Theorem negative_read_is_fatal (oks : nat) (st : ThermalData) :
  state_ok st = true ->
  (forall rx1 d rx2,
     (length rx1 < 4)%nat ->
     Forall (fun x => 0 <= received_bytes x) rx1 ->
     received_bytes d < 0 ->
     exists st',
       temp_data (S oks) (rx1 ++ d :: rx2) st = (ReceiveFailed, st') /\
       events_ st' = events_ st ++ [EvLogError "Receive failed"; EvCloseSocket] /\
       publish_count st' = publish_count st) /\
  (forall rxa rx,
     length rxa = 4%nat ->
     Forall (fun x => 0 <= received_bytes x) rxa ->
     exists st1 st2,
       receive_frame 4 0 (rxa ++ rx) st = inr (rx, st1) /\
       process_data st1 = Some st2 /\
       temp_data (S oks) (rxa ++ rx) st = temp_data oks rx st2 /\
       publish_count st2 = S (publish_count st)).
Proof.
  intros Hok. split.
  - intros rx1 d rx2 Hlen Hall Hd.
    destruct (receive_frame_fail rx1 4 0 d rx2 st) as (st' & Hrun & Hev);
      try assumption; try lia.
    eexists. rewrite temp_data_step, Hrun. split; [reflexivity|].
    assert (E : events_ (emit (emit st' (EvLogError "Receive failed")) EvCloseSocket)
                = events_ st ++ [EvLogError "Receive failed"; EvCloseSocket]).
    { simpl. rewrite Hev, <- app_assoc. reflexivity. }
    split; [exact E|].
    rewrite (publish_count_app st _ _ E). simpl. lia.
  - intros rxa rx Hlen Hall.
    destruct (receive_frame_ok rxa 4 0 rx st) as (st1 & Hrun & Hok1 & Hev1);
      try assumption; try lia.
    destruct (process_data_total st1 Hok1)
      as (sa & sb & _ & _ & Hp & _ & _ & _ & (_ & _ & _ & Hevb)).
    exists st1, (publish sb). rewrite temp_data_step, Hrun, Hp.
    repeat split; try reflexivity.
    destruct (publish_spec sb) as (_ & _ & _ & _ & _ & Hevp & _).
    rewrite Hevb, Hev1 in Hevp.
    rewrite (publish_count_app st _ _ Hevp). simpl. lia.
Qed.

(** ** The auto-ranging seeds *)

Lemma sample_constant_frame (st : ThermalData) (b iSegment i : Z) :
  shelf_ st = constant_frame b ->
  1 <= iSegment <= 4 -> 0 <= i < 4920 ->
  sample st iSegment i = Some (wrap16 (Z.shiftl b 8 + b)).
Proof.
  intros Hsh Hs Hi. unfold sample.
  remember (replicate (Z.to_nat 9840) b) as seg eqn:Eseg.
  assert (H1 : at_ (shelf_ st) (iSegment - 1) = Some seg).
  { unfold at_. destruct (Z.ltb_spec (iSegment - 1) 0); [lia|].
    rewrite Hsh. unfold constant_frame. rewrite <- Eseg.
    apply lookup_replicate_2. lia. }
  assert (H2 : forall j, 0 <= j < 9840 -> at_ seg j = Some b).
  { intros j Hj. unfold at_. destruct (Z.ltb_spec j 0); [lia|].
    rewrite Eseg. apply lookup_replicate_2. lia. }
  rewrite H1. simpl. rewrite !H2 by lia. reflexivity.
Qed.

(** C1 (the code at the failing input).  In a frame where every sample
    is 30069 and both flags are on, the pass writes 65535 to [maxValue_]
    and 0 to [minValue_] before the scan, and no sample can move either:
    the pass ends with the range [0, 65535], not with the largest and the
    smallest sample.  With auto-max alone the seed goes to [minValue_],
    and [maxValue_] keeps the 31500 it had. *)
Theorem seeds_swapped :
  let st := initial true true (constant_frame 117) in
  (forall iSegment i, 1 <= iSegment <= 4 -> 0 <= i < 4920 ->
     sample st iSegment i = Some 30069) /\
  maxValue_ (seed st) = 65535 /\ minValue_ (seed st) = 0 /\
  (exists st', auto_range st = Some st' /\
               maxValue_ st' = 65535 /\ minValue_ st' = 0) /\
  (exists st', auto_range (initial false true (constant_frame 117)) = Some st' /\
               minValue_ st' = 0 /\ 31500 <= maxValue_ st').
Proof.
  intros st. split; [|split; [reflexivity|split; [reflexivity|split]]].
  - intros s i Hs Hi. apply (sample_constant_frame st 117); (reflexivity || assumption).
  - assert (Hok : state_ok st = true) by (vm_compute; reflexivity).
    destruct (auto_range_total st Hok)
      as (st' & Ha & _ & _ & _ & _ & _ & _ & _ & Hmax & Hmin & _).
    exists st'. split; [exact Ha|]. split; [apply Hmax | apply Hmin]; reflexivity.
  - assert (Hok : state_ok (initial false true (constant_frame 117)) = true)
      by (vm_compute; reflexivity).
    destruct (auto_range_total _ Hok)
      as (st' & Ha & _ & _ & _ & _ & _ & _ & _ & _ & Hmin & Hmax & _).
    exists st'. split; [exact Ha|]. split; [apply Hmin; reflexivity|].
    apply (Hmax eq_refl).
Qed.

(** ** The clamped intensity *)

(** C2 (the code on the clamped branches).  With auto-max off, a sample
    above the maximum gets the maximum itself as its intensity, and with
    auto-min off a sample at or below the minimum gets the minimum
    itself: the raw bound, not the palette index 255 or 0. *)
Theorem clamp_stores_the_bound (st : ThermalData) (v w : Z) :
  (autoRangeMax_ st = false -> maxValue_ st < v ->
     intensity st v = maxValue_ st) /\
  (autoRangeMin_ st = false -> w <= minValue_ st -> w <= maxValue_ st ->
     intensity st w = minValue_ st).
Proof.
  unfold intensity. split.
  - intros -> Hv. simpl.
    destruct (Z.gtb_spec v (maxValue_ st)); [reflexivity | lia].
  - intros -> Hw Hle.
    destruct (Z.gtb_spec w (maxValue_ st)); [lia|].
    rewrite andb_false_r. simpl.
    destruct (Z.leb_spec w (minValue_ st)); [reflexivity | lia].
Qed.

(** ** The end of the palette *)

(** C5 (the code at the end of the table).  The table has 769 entries,
    the last one the terminator -1.  Intensity 255 reads the entries 765
    to 767, which are 255, 255 and 24.  Any intensity from 256 on has all
    three offsets at 768, where the three of them read the terminator,
    stored in the image as the byte 255. *)
Theorem overrun_reads_terminator (value k : Z) :
  256 <= value -> 0 <= k <= 2 ->
  palette_offset value k = 768 /\
  at_ colormap_ironblack_ (palette_offset value k) = Some (-1) /\
  wrap8 (-1) = 255 /\
  (palette_offset 255 0, palette_offset 255 1, palette_offset 255 2) = (765, 766, 767) /\
  (at_ colormap_ironblack_ 765, at_ colormap_ironblack_ 766, at_ colormap_ironblack_ 767)
    = (Some 255, Some 255, Some 24).
Proof.
  intros Hv Hk.
  assert (E : palette_offset value k = 768).
  { unfold palette_offset. rewrite colormap_size.
    destruct (Z.leb_spec 769 (3 * value + k)); lia. }
  rewrite E. repeat split; reflexivity.
Qed.

(** ** The scale *)


(** * Further properties *)

(** ** The grid is covered once *)

Lemma cell_of_formula (iSegment i : Z) :
  0 <= i ->
  cell_of iSegment i =
    (i / 82 / 2 + 30 * (iSegment - 1)) * 160
    + (i mod 82 - 2 + 80 * ((i mod 164) / 82)).
Proof.
  intros Hi. unfold cell_of, myImageWidth_.
  destruct (position_formula iSegment i Hi) as [-> ->]. reflexivity.
Qed.

Lemma cell_positions_distinct (s1 i1 s2 i2 : Z) :
  1 <= s1 <= 4 -> 0 <= i1 < 4920 -> 2 <= i1 mod 82 ->
  1 <= s2 <= 4 -> 0 <= i2 < 4920 -> 2 <= i2 mod 82 ->
  cell_of s1 i1 = cell_of s2 i2 ->
  s1 = s2 /\ i1 = i2.
Proof.
  intros Hs1 Hi1 Hh1 Hs2 Hi2 Hh2.
  rewrite !cell_of_formula by lia.
  Z.div_mod_to_equations. lia.
Qed.

Lemma cell_has_position (c : Z) :
  0 <= c < 19200 ->
  1 <= segment_of_cell c <= 4 /\ 0 <= position_of_cell c < 4920 /\
  2 <= position_of_cell c mod 82 /\
  cell_of (segment_of_cell c) (position_of_cell c) = c.
Proof.
  intros Hc. unfold segment_of_cell, position_of_cell.
  rewrite cell_of_formula by (Z.div_mod_to_equations; lia).
  Z.div_mod_to_equations. lia.
Qed.

(** X1. Two positions that are written to the same cell are the same
    position of the same segment: within a frame no cell is written
    twice. *)
Theorem cell_of_injective (s1 i1 s2 i2 : Z) :
  1 <= s1 <= 4 -> 0 <= i1 < 4920 -> 2 <= i1 mod 82 ->
  1 <= s2 <= 4 -> 0 <= i2 < 4920 -> 2 <= i2 mod 82 ->
  cell_of s1 i1 = cell_of s2 i2 ->
  s1 = s2 /\ i1 = i2.
Proof.
  intros Hs1 Hi1 Hh1 Hs2 Hi2 Hh2 Hc.
  destruct (Z.eq_dec s1 s2) as [Hs|Hs].
  - split; [exact Hs|]. subst s2.
    rewrite !cell_of_formula in Hc by lia.
    Z.div_mod_to_equations. lia.
  - exfalso. rewrite !cell_of_formula in Hc by lia.
    Z.div_mod_to_equations. lia.
Qed.

(** X2. Every cell of the 160 x 120 grid is the destination of a position
    that is not a header position, [position_of_cell c] of segment
    [segment_of_cell c]. *)
Theorem cell_of_surjective (c : Z) :
  0 <= c < 19200 ->
  let s := segment_of_cell c in
  let i := position_of_cell c in
  1 <= s <= 4 /\ 0 <= i < 4920 /\ 2 <= i mod 82 /\ cell_of s i = c.
Proof.
  intros Hc s i. subst s i.
  assert (Hseg : 1 <= segment_of_cell c <= 4)
    by (unfold segment_of_cell; Z.div_mod_to_equations; lia).
  assert (Hpos : 0 <= position_of_cell c < 4920 /\ 2 <= position_of_cell c mod 82)
    by (unfold position_of_cell; Z.div_mod_to_equations; lia).
  split; [exact Hseg|]. split; [apply Hpos|]. split; [apply Hpos|].
  rewrite cell_of_formula by lia.
  unfold segment_of_cell, position_of_cell. Z.div_mod_to_equations. lia.
Qed.

(** ** The pixels of a decoded frame *)

Lemma at_insert_eq {A : Type} (l : list A) (i : Z) (x : A) :
  0 <= i < Z.of_nat (length l) -> at_ (<[Z.to_nat i := x]> l) i = Some x.
Proof.
  intros Hi. unfold at_. destruct (Z.ltb_spec i 0); [lia|].
  apply list_lookup_insert_eq. lia.
Qed.

Lemma at_insert_ne {A : Type} (l : list A) (i j : Z) (x : A) :
  0 <= i -> 0 <= j -> i <> j -> at_ (<[Z.to_nat i := x]> l) j = at_ l j.
Proof.
  intros Hi Hj Hne. unfold at_. destruct (Z.ltb_spec j 0); [lia|].
  apply list_lookup_insert_ne. lia.
Qed.

Lemma sample_same_frame (st st' : ThermalData) (iSegment i : Z) :
  same_frame st st' -> sample st' iSegment i = sample st iSegment i.
Proof. intros (_ & _ & Hsh & _). unfold sample. rewrite Hsh. reflexivity. Qed.

Lemma intensity_same (st st' : ThermalData) (v : Z) :
  same_frame st st' -> same_range st st' -> intensity st' v = intensity st v.
Proof.
  intros (Hmin & Hmax & _) (Hmn & Hmx & _ & Hsc). unfold intensity.
  rewrite Hmin, Hmax, Hmn, Hmx, Hsc. reflexivity.
Qed.

Lemma pixel_for_same (st st' : ThermalData) (v : Z) :
  same_frame st st' -> same_range st st' -> pixel_for st' v = pixel_for st v.
Proof.
  intros Hf Hr. unfold pixel_for. rewrite (intensity_same st st' v Hf Hr). reflexivity.
Qed.

Lemma first_zero_from_same (st st' : ThermalData) (iSegment : Z) :
  same_frame st st' ->
  forall n i, first_zero_from n i st' iSegment = first_zero_from n i st iSegment.
Proof.
  intros Hf. induction n as [|n IH]; intros i; [reflexivity|].
  simpl. rewrite (sample_same_frame st st' iSegment i Hf), !IH. reflexivity.
Qed.

Lemma first_zero_from_range (st : ThermalData) (iSegment : Z) :
  forall n i, i <= first_zero_from n i st iSegment <= i + Z.of_nat n.
Proof.
  induction n as [|n IH]; intros i; simpl first_zero_from; [lia|].
  pose proof (IH (i + 1)).
  destruct (cmod i 82 <? 2); [lia|].
  destruct (sample st iSegment i) as [[| |]|]; lia.
Qed.

(** One pixel written: its cell holds the new values, every other cell
    holds what it held. *)
Lemma write_pixel_at (st : ThermalData) (row column value : Z) (t : spec_float) :
  state_ok st = true ->
  0 <= row < 120 -> 0 <= column < 160 -> 0 <= value ->
  exists st' cb cg cr,
    write_pixel st row column value t = Some st' /\
    state_ok st' = true /\ same_frame st st' /\ same_range st st' /\
    n_zero_value_drop_frame_ st' = n_zero_value_drop_frame_ st /\
    at_ colormap_ironblack_ (palette_offset value 2) = Some cb /\
    at_ colormap_ironblack_ (palette_offset value 1) = Some cg /\
    at_ colormap_ironblack_ (palette_offset value 0) = Some cr /\
    pixel_at st' (row * 160 + column) = Some (t, wrap8 cb, wrap8 cg, wrap8 cr) /\
    forall c, 0 <= c -> c <> row * 160 + column -> pixel_at st' c = pixel_at st c.
Proof.
  intros Hok Hr Hc Hv.
  destruct (write_pixel_spec st row column value t Hok Hr Hc Hv)
    as (cb & cg & cr & Hb & Hg & Hrd & Hw).
  simpl in Hw.
  pose proof (state_ok_spec st Hok) as (H1 & H2 & H3 & H4 & H5 & H6).
  set (c0 := row * 160 + column) in *.
  assert (Hc0 : 0 <= c0 < 19200) by (unfold c0; lia).
  eexists _, cb, cg, cr. split; [exact Hw|].
  split; [apply state_ok_intro; simpl; rewrite ?length_insert; assumption|].
  split; [repeat split|]. split; [repeat split|]. split; [reflexivity|].
  split; [exact Hb|]. split; [exact Hg|]. split; [exact Hrd|].
  split.
  - unfold pixel_at. cbn [temperature_data_ image_data_ set_temperature set_image].
    rewrite (at_insert_eq (temperature_data_ st) c0) by lia.
    rewrite (at_insert_ne _ (c0 * 3 + 2) (c0 * 3 + 0)) by lia.
    rewrite (at_insert_ne _ (c0 * 3 + 1) (c0 * 3 + 0)) by lia.
    rewrite (at_insert_eq (image_data_ st) (c0 * 3 + 0)) by lia.
    rewrite (at_insert_ne _ (c0 * 3 + 2) (c0 * 3 + 1)) by lia.
    rewrite (at_insert_eq _ (c0 * 3 + 1)) by (rewrite length_insert; lia).
    rewrite (at_insert_eq _ (c0 * 3 + 2)) by (rewrite !length_insert; lia).
    reflexivity.
  - intros c Hc' Hne. unfold pixel_at.
    cbn [temperature_data_ image_data_ set_temperature set_image].
    rewrite (at_insert_ne _ c0 c) by lia.
    rewrite !(at_insert_ne _ (c0 * 3 + 2)) by lia.
    rewrite !(at_insert_ne _ (c0 * 3 + 1)) by lia.
    rewrite !(at_insert_ne _ (c0 * 3 + 0)) by lia.
    reflexivity.
Qed.

Lemma first_zero_from_header (st : ThermalData) (iSegment i : Z) (n : nat) :
  cmod i 82 < 2 ->
  first_zero_from (S n) i st iSegment = first_zero_from n (i + 1) st iSegment.
Proof.
  intros Hh. simpl. destruct (Z.ltb_spec (cmod i 82) 2); [reflexivity | lia].
Qed.

Lemma first_zero_from_zero (st : ThermalData) (iSegment i : Z) (n : nat) :
  2 <= cmod i 82 -> sample st iSegment i = Some 0 ->
  first_zero_from (S n) i st iSegment = i.
Proof.
  intros Hh Hz. simpl. destruct (Z.ltb_spec (cmod i 82) 2); [lia|].
  rewrite Hz. reflexivity.
Qed.

Lemma first_zero_from_sample (st : ThermalData) (iSegment i v : Z) (n : nat) :
  2 <= cmod i 82 -> sample st iSegment i = Some v -> v <> 0 ->
  first_zero_from (S n) i st iSegment = first_zero_from n (i + 1) st iSegment.
Proof.
  intros Hh Hv Hnz. simpl. destruct (Z.ltb_spec (cmod i 82) 2); [lia|].
  rewrite Hv. destruct v; [contradiction | reflexivity | reflexivity].
Qed.

(** The loop over the positions of one segment, entered at position [i]
    with [n] positions to go: it stops at the first zero sample, has
    written the pixels of the positions before it, and has left every
    other cell alone. *)
Lemma decode_loop_spec (iSegment : Z) :
  1 <= iSegment <= 4 ->
  forall (n : nat) (i : Z) (st0 : ThermalData),
    state_ok st0 = true -> 0 <= i -> i + Z.of_nat n <= 4920 ->
    exists st1,
      for_loop n i (decode_body iSegment) st0 = Some st1 /\
      state_ok st1 = true /\ same_frame st0 st1 /\ same_range st0 st1 /\
      n_zero_value_drop_frame_ st1 =
        (if first_zero_from n i st0 iSegment <? i + Z.of_nat n
         then wrap16 (n_zero_value_drop_frame_ st0 + 1)
         else n_zero_value_drop_frame_ st0) /\
      (forall j v,
         i <= j < first_zero_from n i st0 iSegment -> 2 <= cmod j 82 ->
         sample st0 iSegment j = Some v ->
         pixel_at st1 (cell_of iSegment j) = pixel_for st0 v) /\
      (forall c, 0 <= c ->
         (forall j, i <= j < first_zero_from n i st0 iSegment -> 2 <= cmod j 82 ->
                    cell_of iSegment j <> c) ->
         pixel_at st1 c = pixel_at st0 c).
Proof.
  intros Hs. induction n as [|n IH]; intros i st0 Hok Hi Hle.
  - exists st0. simpl. split; [reflexivity|]. split; [exact Hok|].
    split; [apply same_frame_refl|]. split; [apply same_range_refl|].
    split; [destruct (Z.ltb_spec i (i + Z.of_nat 0)); [lia | reflexivity]|].
    split; [intros; lia | reflexivity].
  - assert (Hir : 0 <= i < 4920) by lia.
    destruct (Z.lt_ge_cases (cmod i 82) 2) as [Hh|Hh].
    { (* a header position *)
      rewrite (for_loop_next _ n i st0 st0 (decode_body_header iSegment i st0 Hh)).
      rewrite (first_zero_from_header st0 iSegment i n Hh).
      destruct (IH (i + 1) st0 Hok) as (st1 & Hrun & Hok1 & Hf & Hr & Hn & Hpix & Hrest);
        [lia | lia |].
      exists st1. split; [exact Hrun|]. split; [exact Hok1|].
      split; [exact Hf|]. split; [exact Hr|].
      split; [rewrite Hn; replace (i + 1 + Z.of_nat n) with (i + Z.of_nat (S n)) by lia;
              reflexivity|].
      split.
      - intros j v Hj Hjh Hv. apply Hpix; try assumption.
        destruct (Z.eq_dec j i) as [->|]; lia.
      - intros c Hc Hne. apply Hrest; [exact Hc|].
        intros j Hj Hjh. apply Hne; [lia | exact Hjh]. }
    destruct (sample_defined st0 iSegment i Hok Hs Hir) as (v & Hv & Hvr).
    destruct (Z.eq_dec v 0) as [->|Hnz].
    { (* a zero sample *)
      rewrite (for_loop_break _ n i st0 _ (decode_body_zero iSegment i st0 Hh Hv)).
      rewrite (first_zero_from_zero st0 iSegment i n Hh Hv).
      eexists. split; [reflexivity|]. split; [exact Hok|].
      split; [repeat split|]. split; [repeat split|].
      split; [destruct (Z.ltb_spec i (i + Z.of_nat (S n))); [reflexivity | lia]|].
      split; [intros; lia | reflexivity]. }
    (* a sample that is written *)
    destruct (position_bounds iSegment i Hs Hir Hh) as [Hcb Hrb].
    pose proof (intensity_range st0 v Hok) as Hint.
    destruct (write_pixel_at st0 (row_of iSegment i) (column_of i)
                (intensity st0 v) (temperature_of v) Hok Hrb Hcb)
      as (sa & cb & cg & cr & Hw & Hoka & Hfa & Hra & Hna & Hb & Hg & Hrd & Hpa & Hresta);
      [lia|].
    assert (Hbody : decode_body iSegment i st0 = Some (Next, sa)).
    { rewrite (decode_body_pixel iSegment i v st0) by assumption.
      rewrite Hw. reflexivity. }
    rewrite (for_loop_next _ n i st0 sa Hbody).
    rewrite (first_zero_from_sample st0 iSegment i v n Hh Hv Hnz).
    destruct (IH (i + 1) sa Hoka) as (st1 & Hrun & Hok1 & Hf & Hr & Hn & Hpix & Hrest);
      [lia | lia |].
    rewrite (first_zero_from_same st0 sa iSegment Hfa) in Hn, Hpix, Hrest.
    set (z := first_zero_from n (i + 1) st0 iSegment) in *.
    assert (Hcell : cell_of iSegment i = row_of iSegment i * 160 + column_of i)
      by reflexivity.
    exists st1. split; [exact Hrun|]. split; [exact Hok1|].
    split; [eapply same_frame_trans; eassumption|].
    split; [eapply same_range_trans; eassumption|].
    split; [rewrite Hn, Hna;
            replace (i + 1 + Z.of_nat n) with (i + Z.of_nat (S n)) by lia; reflexivity|].
    split.
    + intros j w Hj Hjh Hw'.
      destruct (Z.eq_dec j i) as [->|Hji].
      * assert (w = v) by congruence. subst w.
        rewrite Hrest.
        -- rewrite Hcell, Hpa. unfold pixel_for. rewrite Hb, Hg, Hrd. reflexivity.
        -- rewrite Hcell. lia.
        -- intros k Hk Hkh E.
           pose proof (first_zero_from_range st0 iSegment n (i + 1)) as Hz.
           fold z in Hz.
           rewrite cmod_mod in Hkh, Hh by lia.
           destruct (cell_positions_distinct iSegment k iSegment i) as [_ Hki];
             try assumption; lia.
      * rewrite (Hpix j w); [apply pixel_for_same; assumption | lia | exact Hjh |].
        rewrite (sample_same_frame st0 sa iSegment j Hfa). exact Hw'.
    + intros c Hc Hne.
      rewrite Hrest; [|exact Hc|].
      * apply Hresta; [exact Hc|]. rewrite <- Hcell.
        intros E. apply (Hne i); [|exact Hh|symmetry; exact E].
        pose proof (first_zero_from_range st0 iSegment n (i + 1)) as Hz.
        fold z in Hz. lia.
      * intros j Hj Hjh. apply Hne; [lia | exact Hjh].
Qed.

Lemma first_zero_from_spec (st : ThermalData) (iSegment : Z) :
  forall n i,
    (forall j, i <= j < first_zero_from n i st iSegment -> 2 <= cmod j 82 ->
               sample st iSegment j <> Some 0) /\
    (first_zero_from n i st iSegment < i + Z.of_nat n ->
     2 <= cmod (first_zero_from n i st iSegment) 82 /\
     sample st iSegment (first_zero_from n i st iSegment) = Some 0).
Proof.
  induction n as [|n IH]; intros i.
  - simpl. split; intros; lia.
  - destruct (IH (i + 1)) as [IH1 IH2].
    destruct (Z.lt_ge_cases (cmod i 82) 2) as [Hh|Hh].
    { rewrite (first_zero_from_header st iSegment i n Hh). split.
      - intros j Hj Hjh. destruct (Z.eq_dec j i) as [->|]; [lia|]. apply IH1; [lia | exact Hjh].
      - intros Hlt. apply IH2. lia. }
    destruct (sample st iSegment i) as [v|] eqn:Hv.
    + destruct (Z.eq_dec v 0) as [->|Hnz].
      * rewrite (first_zero_from_zero st iSegment i n Hh Hv). split; [intros; lia|].
        intros _. split; assumption.
      * rewrite (first_zero_from_sample st iSegment i v n Hh Hv Hnz). split.
        -- intros j Hj Hjh. destruct (Z.eq_dec j i) as [->|].
           ++ rewrite Hv. congruence.
           ++ apply IH1; [lia | exact Hjh].
        -- intros Hlt. apply IH2. lia.
    + assert (E : first_zero_from (S n) i st iSegment
                  = first_zero_from n (i + 1) st iSegment).
      { simpl. destruct (Z.ltb_spec (cmod i 82) 2); [lia|]. rewrite Hv. reflexivity. }
      rewrite E. split.
      * intros j Hj Hjh. destruct (Z.eq_dec j i) as [->|].
        -- rewrite Hv. discriminate.
        -- apply IH1; [lia | exact Hjh].
      * intros Hlt. apply IH2. lia.
Qed.

Lemma first_zero_range (st : ThermalData) (iSegment : Z) :
  0 <= first_zero st iSegment <= 4920.
Proof.
  unfold first_zero.
  pose proof (first_zero_from_range st iSegment (Z.to_nat 4920) 0). lia.
Qed.

Lemma first_zero_same (st st' : ThermalData) (iSegment : Z) :
  same_frame st st' -> first_zero st' iSegment = first_zero st iSegment.
Proof. intros Hf. apply first_zero_from_same, Hf. Qed.

Lemma zero_segments_same (st st' : ThermalData) :
  same_frame st st' ->
  forall n s, zero_segments n s st' = zero_segments n s st.
Proof.
  intros Hf. induction n as [|n IH]; intros s; [reflexivity|].
  simpl. rewrite (first_zero_same st st' s Hf), IH. reflexivity.
Qed.

Lemma zero_segments_range (st : ThermalData) :
  forall n s, 0 <= zero_segments n s st <= Z.of_nat n.
Proof.
  induction n as [|n IH]; intros s; simpl zero_segments; [lia|].
  pose proof (IH (s + 1)). destruct (first_zero st s <? 4920); lia.
Qed.

(** One segment decoded. *)
Lemma decode_segment_pixels (iSegment : Z) (st0 : ThermalData) :
  1 <= iSegment <= 4 -> state_ok st0 = true ->
  exists st1,
    decode_segment iSegment st0 = Some (Next, st1) /\
    state_ok st1 = true /\ same_frame st0 st1 /\ same_range st0 st1 /\
    n_zero_value_drop_frame_ st1 =
      (if first_zero st0 iSegment <? 4920
       then wrap16 (n_zero_value_drop_frame_ st0 + 1)
       else n_zero_value_drop_frame_ st0) /\
    (forall j v,
       0 <= j < first_zero st0 iSegment -> 2 <= cmod j 82 ->
       sample st0 iSegment j = Some v ->
       pixel_at st1 (cell_of iSegment j) = pixel_for st0 v) /\
    (forall c, 0 <= c ->
       (forall j, 0 <= j < first_zero st0 iSegment -> 2 <= cmod j 82 ->
                  cell_of iSegment j <> c) ->
       pixel_at st1 c = pixel_at st0 c).
Proof.
  intros Hs Hok.
  destruct (decode_loop_spec iSegment Hs (Z.to_nat 4920) 0 st0 Hok)
    as (st1 & Hrun & Hok1 & Hf & Hr & Hn & Hpix & Hrest); [lia | lia |].
  exists st1. unfold decode_segment, for_range, first_zero.
  change (Z.to_nat (4920 - 0)) with (Z.to_nat 4920). rewrite Hrun.
  split; [reflexivity|]. split; [exact Hok1|]. split; [exact Hf|]. split; [exact Hr|].
  replace (0 + Z.of_nat (Z.to_nat 4920)) with 4920 in Hn by lia.
  split; [exact Hn|]. split; assumption.
Qed.

(** The segments from [s0] on, [n] of them. *)
Lemma decode_segments_pixels :
  forall (n : nat) (s0 : Z) (st0 : ThermalData),
    1 <= s0 -> s0 + Z.of_nat n <= 5 -> state_ok st0 = true ->
    exists st1,
      for_loop n s0 decode_segment st0 = Some st1 /\
      state_ok st1 = true /\ same_frame st0 st1 /\ same_range st0 st1 /\
      n_zero_value_drop_frame_ st1 =
        (if zero_segments n s0 st0 =? 0 then n_zero_value_drop_frame_ st0
         else wrap16 (n_zero_value_drop_frame_ st0 + zero_segments n s0 st0)) /\
      (forall s j v,
         s0 <= s < s0 + Z.of_nat n ->
         0 <= j < first_zero st0 s -> 2 <= cmod j 82 ->
         sample st0 s j = Some v ->
         pixel_at st1 (cell_of s j) = pixel_for st0 v) /\
      (forall c, 0 <= c ->
         (forall s j, s0 <= s < s0 + Z.of_nat n ->
                      0 <= j < first_zero st0 s -> 2 <= cmod j 82 ->
                      cell_of s j <> c) ->
         pixel_at st1 c = pixel_at st0 c).
Proof.
  induction n as [|n IH]; intros s0 st0 Hs0 Hle Hok.
  - exists st0. simpl. split; [reflexivity|]. split; [exact Hok|].
    split; [apply same_frame_refl|]. split; [apply same_range_refl|].
    split; [reflexivity|]. split; [intros; lia | reflexivity].
  - destruct (decode_segment_pixels s0 st0) as (sa & Hseg & Hoka & Hfa & Hra & Hna & Hpa & Hresta);
      [lia | exact Hok |].
    destruct (IH (s0 + 1) sa) as (st1 & Hrun & Hok1 & Hf & Hr & Hn & Hpix & Hrest);
      [lia | lia | exact Hoka |].
    rewrite (zero_segments_same st0 sa Hfa) in Hn.
    exists st1. rewrite (for_loop_next _ n s0 st0 sa Hseg).
    split; [exact Hrun|]. split; [exact Hok1|].
    split; [eapply same_frame_trans; eassumption|].
    split; [eapply same_range_trans; eassumption|].
    split; [|split].
    + simpl zero_segments. rewrite Hn, Hna.
      pose proof (zero_segments_range st0 n (s0 + 1)) as Hk.
      destruct (first_zero st0 s0 <? 4920);
        destruct (Z.eqb_spec (zero_segments n (s0 + 1) st0) 0) as [E|E].
      * rewrite E. reflexivity.
      * rewrite wrap16_add.
        destruct (Z.eqb_spec (1 + zero_segments n (s0 + 1) st0) 0); [lia|].
        f_equal. lia.
      * rewrite E. reflexivity.
      * destruct (Z.eqb_spec (0 + zero_segments n (s0 + 1) st0) 0); [lia|].
        reflexivity.
    + intros s j v Hsr Hj Hjh Hv.
      pose proof (first_zero_range st0 s) as Hz.
      destruct (Z.eq_dec s s0) as [->|Hne].
      * rewrite Hrest.
        -- apply Hpa; assumption.
        -- unfold cell_of.
           assert (Hb : 0 <= column_of j < 160 /\ 0 <= row_of s0 j < 120)
             by (apply position_bounds; lia).
           unfold myImageWidth_. lia.
        -- intros s' j' Hs' Hj' Hjh' E.
           pose proof (first_zero_range st0 s') as Hz'.
           rewrite (first_zero_same st0 sa s' Hfa) in Hj'.
           rewrite cmod_mod in Hjh, Hjh' by lia.
           destruct (cell_positions_distinct s' j' s0 j) as [Hss _]; try assumption; lia.
      * rewrite (Hpix s j v); [apply pixel_for_same; assumption | lia | | exact Hjh |].
        -- rewrite (first_zero_same st0 sa s Hfa). exact Hj.
        -- rewrite (sample_same_frame st0 sa s j Hfa). exact Hv.
    + intros c Hc Hne.
      rewrite Hrest; [|exact Hc|].
      * apply Hresta; [exact Hc|]. intros j Hj Hjh. apply Hne; [lia | exact Hj | exact Hjh].
      * intros s j Hsr Hj Hjh. rewrite (first_zero_same st0 sa s Hfa) in Hj.
        apply Hne; [lia | exact Hj | exact Hjh].
Qed.

Lemma pixel_at_same_buffers (st st' : ThermalData) (c : Z) :
  temperature_data_ st' = temperature_data_ st ->
  image_data_ st' = image_data_ st ->
  pixel_at st' c = pixel_at st c.
Proof. intros Ht Him. unfold pixel_at. rewrite Ht, Him. reflexivity. Qed.

Lemma cell_of_range (iSegment i : Z) :
  1 <= iSegment <= 4 -> 0 <= i < 4920 -> 2 <= cmod i 82 ->
  0 <= cell_of iSegment i < 19200.
Proof.
  intros Hs Hi Hh. destruct (position_bounds iSegment i Hs Hi Hh) as [Hc Hr].
  unfold cell_of, myImageWidth_. lia.
Qed.

(** The whole decoding pass, cell by cell. *)
Lemma decode_pass_pixels (st : ThermalData) :
  state_ok st = true ->
  exists st',
    decode_pass st = Some st' /\
    state_ok st' = true /\ same_frame st st' /\ same_range st st' /\
    n_zero_value_drop_frame_ st' =
      (if zero_segments 4 1 st =? 0 then n_zero_value_drop_frame_ st
       else wrap16 (n_zero_value_drop_frame_ st + zero_segments 4 1 st)) /\
    forall s i v,
      1 <= s <= 4 -> 0 <= i < 4920 -> 2 <= cmod i 82 ->
      sample st s i = Some v ->
      pixel_at st' (cell_of s i) =
        (if i <? first_zero st s then pixel_for st v else pixel_at st (cell_of s i)).
Proof.
  intros Hok.
  destruct (decode_segments_pixels 4 1 st) as (st' & Hrun & Hok' & Hf & Hr & Hn & Hpix & Hrest);
    [lia | simpl; lia | exact Hok |].
  exists st'. split; [exact Hrun|]. split; [exact Hok'|].
  split; [exact Hf|]. split; [exact Hr|]. split; [exact Hn|].
  intros s i v Hs Hi Hh Hv.
  destruct (Z.ltb_spec i (first_zero st s)) as [Hlt|Hge].
  - apply (Hpix s i v); try assumption; simpl; lia.
  - apply Hrest; [apply cell_of_range; assumption|].
    intros s' j Hs' Hj Hjh E.
    pose proof (first_zero_range st s') as Hz.
    rewrite cmod_mod in Hh, Hjh by lia.
    destruct (cell_positions_distinct s' j s i) as [Hss Hji]; try assumption; try lia.
    subst s' j. lia.
Qed.

Lemma first_zero_iff (st : ThermalData) (iSegment i : Z) :
  0 <= i < 4920 ->
  (i < first_zero st iSegment <->
   forall j, 0 <= j <= i -> 2 <= cmod j 82 -> sample st iSegment j <> Some 0).
Proof.
  intros Hi. unfold first_zero.
  destruct (first_zero_from_spec st iSegment (Z.to_nat 4920) 0) as [Hbefore Hat].
  pose proof (first_zero_from_range st iSegment (Z.to_nat 4920) 0) as Hz.
  split.
  - intros Hlt j Hj Hjh. apply Hbefore; [lia | exact Hjh].
  - intros Hall.
    destruct (Z.lt_ge_cases i (first_zero_from (Z.to_nat 4920) 0 st iSegment))
      as [Hlt|Hge]; [exact Hlt|].
    destruct Hat as [Hzh Hzz]; [lia|].
    exfalso. eapply Hall; [|exact Hzh|exact Hzz]. lia.
Qed.

(** C3 (amended). A zero sample increments the drop counter and abandons
    the whole remainder of its segment: however many positions [n] are
    left after position [i], none of them is decoded, and the only effect
    is the counter.  In the frame that [process_data] leaves, the cells of
    the positions from [i] on in that segment hold what they held before,
    while every position with no zero sample at or before it in its own
    segment, in whichever segment, has been decoded: decoding goes on
    with the next segment.  When every sample of the frame is zero the
    counter is incremented once per segment, four times in all, and
    nothing else changes; [process_data] clears the counter before it
    returns. *)
Theorem zero_sample_abandons_segment
    (st : ThermalData) (iSegment i : Z) (n : nat) :
  2 <= cmod i 82 ->
  sample st iSegment i = Some 0 ->
  for_loop (S n) i (decode_body iSegment) st =
    Some (set_drop st (wrap16 (n_zero_value_drop_frame_ st + 1))) /\
  (state_ok st = true -> 1 <= iSegment <= 4 -> 0 <= i < 4920 ->
   exists st1 st2,
     auto_range st = Some st1 /\ decode_pass st1 = Some st2 /\
     process_data st = Some (publish st2) /\
     (forall j, i <= j < 4920 -> 2 <= cmod j 82 ->
        pixel_at (publish st2) (cell_of iSegment j) = pixel_at st (cell_of iSegment j)) /\
     (forall s j v,
        1 <= s <= 4 -> 0 <= j < 4920 -> 2 <= cmod j 82 ->
        sample st s j = Some v ->
        (forall k, 0 <= k <= j -> 2 <= cmod k 82 -> sample st s k <> Some 0) ->
        pixel_at (publish st2) (cell_of s j) = pixel_for st1 v) /\
     ((forall s j, 1 <= s <= 4 -> 0 <= j < 4920 -> 2 <= cmod j 82 ->
                   sample st s j = Some 0) ->
      st2 = set_drop st1 (wrap16 (n_zero_value_drop_frame_ st + 4))) /\
     n_zero_value_drop_frame_ (publish st2) = 0).
Proof.
  intros Hh Hz. split.
  { apply for_loop_break, decode_body_zero; assumption. }
  intros Hok Hs Hi.
  destruct (auto_range_total st Hok) as (st1 & Ha & Hok1 & Hf1 & Ht1 & Hi1 & Hn1 & _).
  destruct (decode_pass_pixels st1 Hok1) as (st2 & Hd & Hok2 & Hf2 & Hr2 & _ & Hpix).
  destruct (publish_spec st2) as (Hclear & _ & Htp & Hip & _).
  exists st1, st2. split; [exact Ha|]. split; [exact Hd|].
  split; [unfold process_data; rewrite Ha; simpl; rewrite Hd; reflexivity|].
  split; [|split; [|split; [|exact Hclear]]].
  - intros j Hj Hjh.
    destruct (sample_defined st iSegment j Hok Hs ltac:(lia)) as (v & Hv & _).
    rewrite (pixel_at_same_buffers st2 (publish st2) _ Htp Hip).
    rewrite (Hpix iSegment j v Hs ltac:(lia) Hjh)
      by (rewrite (sample_same_frame st st1 iSegment j Hf1); exact Hv).
    rewrite (first_zero_same st st1 iSegment Hf1).
    rewrite (pixel_at_same_buffers st st1 _ Ht1 Hi1).
    destruct (Z.ltb_spec j (first_zero st iSegment)) as [Hlt|_]; [|reflexivity].
    exfalso.
    destruct (first_zero_iff st iSegment j ltac:(lia)) as [Hiff _].
    apply (Hiff Hlt i); [lia | exact Hh | exact Hz].
  - intros s j v Hsr Hj Hjh Hv Hnone.
    rewrite (pixel_at_same_buffers st2 (publish st2) _ Htp Hip).
    rewrite (Hpix s j v Hsr Hj Hjh)
      by (rewrite (sample_same_frame st st1 s j Hf1); exact Hv).
    rewrite (first_zero_same st st1 s Hf1).
    destruct (Z.ltb_spec j (first_zero st s)) as [_|Hge]; [reflexivity|].
    exfalso. assert (Hlt : j < first_zero st s); [|lia].
    destruct (first_zero_iff st s j Hj) as [_ Hiff]. apply Hiff, Hnone.
  - intros Hall.
    assert (E : decode_pass st1 =
                Some (set_drop st1 (wrap16 (n_zero_value_drop_frame_ st1 + 4)))).
    { apply decode_pass_first_zero. intros s Hsr.
      rewrite (sample_same_frame st st1 s 2 Hf1).
      apply Hall; [exact Hsr | lia | discriminate]. }
    rewrite Hd, Hn1 in E. injection E as E. exact E.
Qed.

(** X3. What [process_data] leaves in the two buffers for the cell of a
    position [i]: when no sample before it in its segment, nor its own,
    is zero, the pixel computed from its sample [v] under the range the
    auto-ranging pass has set; when one of them is zero, what the cell
    held before the frame. *)
Theorem process_data_pixel (st : ThermalData) (iSegment i v : Z) :
  state_ok st = true ->
  1 <= iSegment <= 4 -> 0 <= i < 4920 -> 2 <= i mod 82 ->
  sample st iSegment i = Some v ->
  exists st1 st',
    auto_range st = Some st1 /\
    process_data st = Some st' /\
    ((forall j, 0 <= j <= i -> 2 <= j mod 82 -> sample st iSegment j <> Some 0) ->
     pixel_at st' (cell_of iSegment i) = pixel_for st1 v) /\
    ((exists j, 0 <= j <= i /\ 2 <= j mod 82 /\ sample st iSegment j = Some 0) ->
     pixel_at st' (cell_of iSegment i) = pixel_at st (cell_of iSegment i)).
Proof.
  intros Hok Hs Hi Hh Hv.
  destruct (auto_range_total st Hok) as (st1 & Ha & Hok1 & Hf1 & Ht1 & Hi1 & _).
  destruct (decode_pass_pixels st1 Hok1) as (st2 & Hd & Hok2 & Hf2 & Hr2 & _ & Hpix).
  exists st1, (publish st2).
  split; [exact Ha|].
  split; [unfold process_data; rewrite Ha; simpl; rewrite Hd; reflexivity|].
  destruct (publish_spec st2) as (_ & _ & Htp & Hip & _).
  rewrite (pixel_at_same_buffers st2 (publish st2) _ Htp Hip).
  rewrite <- (cmod_mod i 82) in Hh by lia.
  rewrite (Hpix iSegment i v Hs Hi Hh)
    by (rewrite (sample_same_frame st st1 iSegment i Hf1); exact Hv).
  rewrite (first_zero_same st st1 iSegment Hf1).
  rewrite (pixel_at_same_buffers st st1 _ Ht1 Hi1).
  pose proof (first_zero_iff st iSegment i Hi) as Hiff.
  split.
  - intros Hall.
    destruct (Z.ltb_spec i (first_zero st iSegment)) as [_|Hge]; [reflexivity|].
    exfalso. assert (Hlt : i < first_zero st iSegment); [|lia].
    destruct Hiff as [_ Hiff]. apply Hiff. intros j Hj Hjh. apply Hall; [lia|]. rewrite <- cmod_mod by lia. exact Hjh.
  - intros (j & Hj & Hjh & Hz).
    destruct (Z.ltb_spec i (first_zero st iSegment)) as [Hlt|_]; [|reflexivity].
    exfalso. destruct Hiff as [Hiff _]. apply (Hiff Hlt j); [lia | | exact Hz].
    rewrite cmod_mod by lia. exact Hjh.
Qed.

(** X4. The drop counter after the decoding loops: it has been incremented
    once for each of the four segments that holds a zero sample at a
    position that is not a header position, and is untouched when there
    is none. *)
Theorem drop_counter_counts_segments (st : ThermalData) :
  state_ok st = true ->
  exists st',
    decode_pass st = Some st' /\
    0 <= zero_segments 4 1 st <= 4 /\
    n_zero_value_drop_frame_ st' =
      (if zero_segments 4 1 st =? 0 then n_zero_value_drop_frame_ st
       else wrap16 (n_zero_value_drop_frame_ st + zero_segments 4 1 st)) /\
    zero_segments 4 1 st =
      (if first_zero st 1 <? 4920 then 1 else 0)
      + (if first_zero st 2 <? 4920 then 1 else 0)
      + (if first_zero st 3 <? 4920 then 1 else 0)
      + (if first_zero st 4 <? 4920 then 1 else 0) /\
    forall s, 1 <= s <= 4 ->
      (first_zero st s < 4920 <->
       exists j, 0 <= j < 4920 /\ 2 <= j mod 82 /\ sample st s j = Some 0).
Proof.
  intros Hok.
  destruct (decode_pass_pixels st Hok) as (st' & Hd & _ & _ & _ & Hn & _).
  exists st'. split; [exact Hd|].
  split; [pose proof (zero_segments_range st 4 1); simpl Z.of_nat in *; lia|].
  split; [exact Hn|].
  split; [cbn [zero_segments]; change (1 + 1) with 2; change (2 + 1) with 3;
          change (3 + 1) with 4; lia|].
  intros s Hs. unfold first_zero.
  destruct (first_zero_from_spec st s (Z.to_nat 4920) 0) as [Hbefore Hat].
  pose proof (first_zero_from_range st s (Z.to_nat 4920) 0) as Hz.
  split.
  - intros Hlt. destruct Hat as [Hzh Hzz]; [lia|].
    eexists. split; [|split; [|exact Hzz]]; [lia|].
    rewrite <- cmod_mod by lia. exact Hzh.
  - intros (j & Hj & Hjh & Hzj).
    destruct (Z.lt_ge_cases (first_zero_from (Z.to_nat 4920) 0 st s) 4920) as [Hlt|Hge];
      [exact Hlt|].
    exfalso. apply (Hbefore j); [lia | | exact Hzj].
    rewrite cmod_mod by lia. exact Hjh.
Qed.

(** X5. When no sample of the frame is zero, [process_data] overwrites
    every cell of the grid: cell [c] holds the pixel of the sample at
    [position_of_cell c] of segment [segment_of_cell c], and nothing of
    the frame before is left. *)
Theorem full_frame_overwrites_grid (st : ThermalData) (c : Z) :
  state_ok st = true ->
  (forall s i, 1 <= s <= 4 -> 0 <= i < 4920 -> 2 <= i mod 82 ->
               sample st s i <> Some 0) ->
  0 <= c < 19200 ->
  exists st1 st' v,
    auto_range st = Some st1 /\
    process_data st = Some st' /\
    sample st (segment_of_cell c) (position_of_cell c) = Some v /\
    pixel_at st' c = pixel_for st1 v /\
    n_zero_value_drop_frame_ st' = 0.
Proof.
  intros Hok Hnz Hc.
  destruct (cell_has_position c Hc) as (Hs & Hi & Hh & Hcell).
  destruct (sample_defined st _ _ Hok Hs Hi) as (v & Hv & _).
  destruct (auto_range_total st Hok) as (st1 & Ha & Hok1 & Hf1 & Ht1 & Hi1 & _).
  destruct (decode_pass_pixels st1 Hok1) as (st2 & Hd & Hok2 & Hf2 & Hr2 & _ & Hpix).
  exists st1, (publish st2), v.
  split; [exact Ha|].
  split; [unfold process_data; rewrite Ha; simpl; rewrite Hd; reflexivity|].
  split; [exact Hv|].
  destruct (publish_spec st2) as (Hn0 & _ & Htp & Hip & _).
  split; [|exact Hn0].
  rewrite (pixel_at_same_buffers st2 (publish st2) _ Htp Hip).
  rewrite <- Hcell at 1.
  rewrite (Hpix _ _ v Hs Hi)
    by (try (rewrite cmod_mod by lia; exact Hh);
        rewrite (sample_same_frame st st1 _ _ Hf1); exact Hv).
  rewrite (first_zero_same st st1 _ Hf1).
  destruct (Z.ltb_spec (position_of_cell c) (first_zero st (segment_of_cell c)))
    as [_|Hge]; [reflexivity|].
  exfalso.
  assert (Hlt : position_of_cell c < first_zero st (segment_of_cell c)); [|lia].
  destruct (first_zero_iff st (segment_of_cell c) (position_of_cell c) Hi) as [_ Hiff].
  apply Hiff.
  intros j Hj Hjh. apply Hnz; [exact Hs | lia |].
  rewrite <- cmod_mod by lia. exact Hjh.
Qed.

(** ** What the auto-ranging pass computes *)

Lemma for_loop_total_idx {T : Type} (P : Z -> T -> Prop)
    (body : Z -> T -> option (flow * T)) :
  forall (n : nat) (i : Z) (s : T),
    P i s ->
    (forall j s0, i <= j < i + Z.of_nat n -> P j s0 ->
       exists s1, body j s0 = Some (Next, s1) /\ P (j + 1) s1) ->
    exists s', for_loop n i body s = Some s' /\ P (i + Z.of_nat n) s'.
Proof.
  induction n as [|n IH]; intros i s Hs Hbody.
  - exists s. split; [reflexivity|]. replace (i + Z.of_nat 0) with i by lia. exact Hs.
  - destruct (Hbody i s) as (s1 & Hb & Hs1); [lia | exact Hs |].
    rewrite (for_loop_next _ n i s s1 Hb).
    destruct (IH (i + 1) s1 Hs1) as (s' & Hrun & Hs').
    + intros j s0 Hj. apply Hbody. lia.
    + exists s'. split; [exact Hrun|].
      replace (i + Z.of_nat (S n)) with (i + 1 + Z.of_nat n) by lia. exact Hs'.
Qed.

Lemma attained_refl (st : ThermalData) : attained st st.
Proof. split; left; reflexivity. Qed.

Lemma attained_trans (a b c : ThermalData) :
  same_frame a b -> attained a b -> attained b c -> attained a c.
Proof.
  intros Hf [Hmax1 Hmin1] [Hmax2 Hmin2]. split.
  - destruct Hmax2 as [E|(s & i & Hs & Hi & Hh & Hv)].
    + rewrite E. exact Hmax1.
    + right. exists s, i. rewrite <- (sample_same_frame a b s i Hf). auto.
  - destruct Hmin2 as [E|(s & i & Hs & Hi & Hh & Hv)].
    + rewrite E. exact Hmin1.
    + right. exists s, i. rewrite <- (sample_same_frame a b s i Hf). auto.
Qed.

(** The bounds established so far survive a step that only moves the
    bounds outwards. *)
Lemma scanned_mono (st st' : ThermalData) (iSegment k : Z) :
  scan_inv st st' -> scanned st iSegment k -> scanned st' iSegment k.
Proof.
  intros (_ & Hf & _ & _ & _ & _ & _ & Hmin & Hmax & _) Hsc.
  pose proof Hf as (Hfmin & Hfmax & _).
  intros s i v Hs Hi Hh Hbefore Hv Hnz.
  rewrite (sample_same_frame st st' s i Hf) in Hv.
  destruct (Hsc s i v Hs Hi Hh Hbefore Hv Hnz) as [H1 H2].
  rewrite Hfmin, Hfmax. split; intros E; [specialize (H1 E) | specialize (H2 E)]; lia.
Qed.

(** One step of the scan, with what it does for the sample it looks at. *)
Lemma scan_body_bounds (iSegment i : Z) (st : ThermalData) :
  state_ok st = true -> 1 <= iSegment <= 4 -> 0 <= i < 4920 ->
  exists st',
    scan_body iSegment i st = Some (Next, st') /\ scan_inv st st' /\ attained st st' /\
    (forall v, 2 <= cmod i 82 -> sample st iSegment i = Some v -> v <> 0 ->
       (autoRangeMax_ st = true -> v <= maxValue_ st') /\
       (autoRangeMin_ st = true -> minValue_ st' <= v)).
Proof.
  intros Hok Hs Hi.
  destruct (scan_body_total iSegment i st Hok Hs Hi) as (st' & Hb & Hinv).
  exists st'. split; [exact Hb|]. split; [exact Hinv|].
  unfold scan_body in Hb.
  destruct (Z.ltb_spec (cmod i 82) 2) as [Hh|Hh].
  { injection Hb as <-. split; [apply attained_refl|]. intros; lia. }
  destruct (sample st iSegment i) as [v|] eqn:Hv; [|discriminate].
  simpl in Hb.
  destruct (Z.eqb_spec v 0) as [->|Hnz].
  { injection Hb as <-. split; [apply attained_refl|].
    intros v _ E. injection E as <-. contradiction. }
  assert (Hatt : forall w, w = v ->
            exists s j, 1 <= s <= 4 /\ 0 <= j < 4920 /\ 2 <= cmod j 82 /\
                        sample st s j = Some w).
  { intros w ->. exists iSegment, i. auto. }
  destruct (autoRangeMax_ st) eqn:Emax, (autoRangeMin_ st) eqn:Emin;
    simpl in Hb; rewrite ?Emin, ?Emax in Hb; simpl in Hb;
    repeat match type of Hb with
           | context [?a >? ?b] =>
               destruct (Z.gtb_spec a b); simpl in Hb; rewrite ?Emin, ?Emax in Hb;
               simpl in Hb
           | context [?a <? ?b] =>
               destruct (Z.ltb_spec a b); simpl in Hb; rewrite ?Emin, ?Emax in Hb;
               simpl in Hb
           end;
    injection Hb as <-;
    (split;
     [split; simpl; first [left; reflexivity | right; apply Hatt; reflexivity]
     |intros w _ E; injection E as <-; simpl; split; intros; (lia || discriminate)]).
Qed.

(** The scan of the four segments. *)
Lemma scan_bounds (st : ThermalData) :
  state_ok st = true ->
  exists st',
    for_range 1 5 scan_segment st = Some st' /\
    scan_inv st st' /\ attained st st' /\ scanned st' 5 0.
Proof.
  intros Hok. unfold for_range.
  destruct (for_loop_total_idx
              (fun s s0 => scan_inv st s0 /\ attained st s0 /\ scanned s0 s 0)
              scan_segment (Z.to_nat (5 - 1)) 1 st) as (st' & Hrun & Hinv & Hatt & Hsc).
  - split; [now apply scan_inv_refl|]. split; [apply attained_refl|].
    intros s i v Hs Hi Hh Hbefore. lia.
  - intros s s0 Hs (Hinv0 & Hatt0 & Hsc0). unfold scan_segment, for_range.
    destruct (for_loop_total_idx
                (fun k s1 => scan_inv s0 s1 /\ attained s0 s1 /\ scanned s1 s k)
                (scan_body s) (Z.to_nat (4920 - 0)) 0 s0)
      as (s1 & Hrun1 & Hinv1 & Hatt1 & Hsc1).
    + split; [apply scan_inv_refl, Hinv0|]. split; [apply attained_refl | exact Hsc0].
    + intros k s2 Hk (Hinv2 & Hatt2 & Hsc2).
      destruct (scan_body_bounds s k s2) as (s3 & Hb & Hinv3 & Hatt3 & Hnew);
        [apply Hinv2 | lia | lia |].
      exists s3. split; [exact Hb|].
      split; [eapply scan_inv_trans; eassumption|].
      split; [eapply attained_trans; [apply Hinv2 | exact Hatt2 | exact Hatt3]|].
      intros s' i v Hs' Hi Hh Hbefore Hv Hnz.
      pose proof Hinv3 as (_ & Hf3 & _).
      pose proof Hf3 as (Hfmin & Hfmax & _).
      destruct (Z.eq_dec s' s) as [->|Hne];
        [destruct (Z.eq_dec i k) as [->|Hik]|].
      * rewrite (sample_same_frame s2 s3 s k Hf3) in Hv.
        rewrite Hfmin, Hfmax. apply Hnew; assumption.
      * apply (scanned_mono s2 s3 s k Hinv3 Hsc2 s i v); try assumption.
        right. split; [reflexivity | lia].
      * apply (scanned_mono s2 s3 s k Hinv3 Hsc2 s' i v); try assumption.
        left. lia.
    + exists s1. rewrite Hrun1. split; [reflexivity|].
      split; [eapply scan_inv_trans; eassumption|].
      split; [eapply attained_trans; [apply Hinv0 | exact Hatt0 | exact Hatt1]|].
      intros s' i v Hs' Hi Hh Hbefore. apply Hsc1; try assumption.
      destruct (Z.eq_dec s' s) as [->|]; [right; split; [reflexivity | lia] | left; lia].
  - exists st'. split; [exact Hrun|]. split; [exact Hinv|]. split; [exact Hatt|].
    replace (1 + Z.of_nat (Z.to_nat (5 - 1))) with 5 in Hsc by lia. exact Hsc.
Qed.

(** The pass, with a flag on: the seeds, the scan and the rescaling. *)
Lemma auto_range_result (st : ThermalData) :
  state_ok st = true ->
  autoRangeMin_ st || autoRangeMax_ st = true ->
  exists st2,
    for_range 1 5 scan_segment (seed st) = Some st2 /\
    auto_range st = Some (rescale st2) /\
    state_ok st2 = true /\ same_frame st st2 /\
    scanned st2 5 0 /\ attained (seed st) st2 /\
    (autoRangeMin_ st = true -> maxValue_ st2 = 65535) /\
    (autoRangeMax_ st = true -> minValue_ st2 = 0).
Proof.
  intros Hok Hflags.
  destruct (seed_ok st Hok) as (Hok1 & Hf1 & _ & _ & _ & Hmax1 & Hmin1).
  destruct (scan_bounds (seed st) Hok1) as (st2 & Hrun & Hinv & Hatt & Hsc).
  pose proof Hinv as (Hok2 & Hf2 & _ & _ & _ & _ & _ & Hmin2 & Hmax2 & _).
  pose proof (state_ok_spec st2 Hok2) as (_ & _ & _ & _ & Hmn & Hmx).
  exists st2. split; [exact Hrun|].
  split; [unfold auto_range; rewrite Hflags, Hrun; reflexivity|].
  split; [exact Hok2|]. split; [eapply same_frame_trans; eassumption|].
  split; [exact Hsc|]. split; [exact Hatt|]. split.
  - intros E. rewrite E in Hmax1. lia.
  - intros E. rewrite E in Hmin1. lia.
Qed.

(** X6. What the pass leaves in the bounds.  With auto-max on, no sample
    of the frame is above [maxValue_], which is either the value it was
    given before the scan (65535 when auto-min is on too, its old value
    otherwise) or one of the samples.  With auto-min on, no non-zero
    sample is below [minValue_], which is either the value it was given
    before the scan (0 when auto-max is on too, its old value otherwise)
    or one of the samples. *)
Theorem auto_range_bounds (st : ThermalData) :
  state_ok st = true ->
  exists st',
    auto_range st = Some st' /\
    (autoRangeMax_ st = true ->
     (forall s i v, 1 <= s <= 4 -> 0 <= i < 4920 -> 2 <= i mod 82 ->
                    sample st s i = Some v -> v <= maxValue_ st') /\
     (maxValue_ st' = (if autoRangeMin_ st then 65535 else maxValue_ st) \/
      exists s i, 1 <= s <= 4 /\ 0 <= i < 4920 /\ 2 <= i mod 82 /\
                  sample st s i = Some (maxValue_ st'))) /\
    (autoRangeMin_ st = true ->
     (forall s i v, 1 <= s <= 4 -> 0 <= i < 4920 -> 2 <= i mod 82 ->
                    sample st s i = Some v -> v <> 0 -> minValue_ st' <= v) /\
     (minValue_ st' = (if autoRangeMax_ st then 0 else minValue_ st) \/
      exists s i, 1 <= s <= 4 /\ 0 <= i < 4920 /\ 2 <= i mod 82 /\
                  sample st s i = Some (minValue_ st'))).
Proof.
  intros Hok.
  destruct (autoRangeMin_ st || autoRangeMax_ st) eqn:Hflags.
  - destruct (auto_range_result st Hok Hflags)
      as (st2 & _ & Ha & Hok2 & Hf & Hsc & [Hamax Hamin] & _).
    destruct (seed_ok st Hok) as (_ & Hfs & _ & _ & _ & Hmax1 & Hmin1).
    pose proof Hf as (Hfmin & Hfmax & _).
    pose proof (state_ok_spec st2 Hok2) as (_ & _ & _ & _ & Hmn & Hmx).
    exists (rescale st2). split; [exact Ha|].
    change (maxValue_ (rescale st2)) with (maxValue_ st2).
    change (minValue_ (rescale st2)) with (minValue_ st2).
    split; intros E; split.
    + intros s i v Hs Hi Hh Hv.
      destruct (Z.eq_dec v 0) as [->|Hnz]; [lia|].
      rewrite <- cmod_mod in Hh by lia.
      rewrite <- (sample_same_frame st st2 s i Hf) in Hv.
      apply (Hsc s i v Hs Hi Hh); [left; lia | exact Hv | exact Hnz | congruence].
    + rewrite <- Hmax1.
      destruct Hamax as [Hl|(s & i & Hs & Hi & Hh & Hv)]; [left; exact Hl|].
      right. exists s, i. rewrite <- (cmod_mod i 82) by lia.
      rewrite <- (sample_same_frame st (seed st) s i Hfs). auto.
    + intros s i v Hs Hi Hh Hv Hnz.
      rewrite <- cmod_mod in Hh by lia.
      rewrite <- (sample_same_frame st st2 s i Hf) in Hv.
      apply (Hsc s i v Hs Hi Hh); [left; lia | exact Hv | exact Hnz | congruence].
    + rewrite <- Hmin1.
      destruct Hamin as [Hl|(s & i & Hs & Hi & Hh & Hv)]; [left; exact Hl|].
      right. exists s, i. rewrite <- (cmod_mod i 82) by lia.
      rewrite <- (sample_same_frame st (seed st) s i Hfs). auto.
  - exists st. split; [unfold auto_range; rewrite Hflags; reflexivity|].
    apply orb_false_iff in Hflags as [Emin Emax].
    split; intros E; congruence.
Qed.

Lemma seed_fixed (st : ThermalData) :
  (autoRangeMin_ st = true -> maxValue_ st = 65535) ->
  (autoRangeMax_ st = true -> minValue_ st = 0) ->
  seed st = st.
Proof.
  intros Hmax Hmin. destruct st as [amin amax mn mx d sc nz sh td im ev].
  unfold seed; simpl in *.
  destruct amin, amax; simpl;
    rewrite ?(Hmax eq_refl), ?(Hmin eq_refl); reflexivity.
Qed.

(** A scan that finds every sample within the bounds changes nothing. *)
Lemma scan_fixed (st : ThermalData) :
  state_ok st = true -> scanned st 5 0 ->
  for_range 1 5 scan_segment st = Some st.
Proof.
  intros Hok Hsc. unfold for_range. apply for_loop_skip.
  intros s Hs. unfold scan_segment, for_range.
  rewrite for_loop_skip; [reflexivity|].
  intros i Hi. unfold scan_body.
  destruct (Z.ltb_spec (cmod i 82) 2) as [Hh|Hh]; [reflexivity|].
  destruct (sample_defined st s i Hok) as (v & Hv & Hvr); [lia | lia |].
  rewrite Hv. simpl.
  destruct (Z.eqb_spec v 0) as [->|Hnz]; [reflexivity|].
  destruct (Hsc s i v) as [Hmax Hmin]; try assumption; try lia.
  destruct (autoRangeMax_ st) eqn:Emax; simpl.
  - destruct (Z.gtb_spec v (maxValue_ st)); [specialize (Hmax eq_refl); lia|].
    destruct (autoRangeMin_ st) eqn:Emin; simpl; [|reflexivity].
    destruct (Z.ltb_spec v (minValue_ st)); [specialize (Hmin eq_refl); lia | reflexivity].
  - destruct (autoRangeMin_ st) eqn:Emin; simpl; [|reflexivity].
    destruct (Z.ltb_spec v (minValue_ st)); [specialize (Hmin eq_refl); lia | reflexivity].
Qed.

(** X7. Running the auto-ranging pass a second time on the same frame
    changes nothing: the state it leaves is a fixed point of the pass. *)
Theorem auto_range_idempotent (st : ThermalData) :
  state_ok st = true ->
  exists st1, auto_range st = Some st1 /\ auto_range st1 = Some st1.
Proof.
  intros Hok.
  destruct (autoRangeMin_ st || autoRangeMax_ st) eqn:Hflags.
  - destruct (auto_range_result st Hok Hflags)
      as (st2 & _ & Ha & Hok2 & Hf & Hsc & _ & Hmax & Hmin).
    pose proof Hf as (Hfmin & Hfmax & _).
    exists (rescale st2). split; [exact Ha|].
    assert (Hok1 : state_ok (rescale st2) = true) by exact Hok2.
    assert (Hsc1 : scanned (rescale st2) 5 0) by exact Hsc.
    unfold auto_range.
    change (autoRangeMin_ (rescale st2)) with (autoRangeMin_ st2).
    change (autoRangeMax_ (rescale st2)) with (autoRangeMax_ st2).
    rewrite Hfmin, Hfmax, Hflags.
    rewrite (seed_fixed (rescale st2)).
    + rewrite (scan_fixed (rescale st2) Hok1 Hsc1). reflexivity.
    + intros E. apply Hmax. rewrite <- Hfmin. exact E.
    + intros E. apply Hmin. rewrite <- Hfmax. exact E.
  - exists st. unfold auto_range. rewrite Hflags. split; reflexivity.
Qed.

(** ** The shipped range *)

Lemma intensity_shipped (st : ThermalData) (v : Z) :
  autoRangeMin_ st = false -> autoRangeMax_ st = false ->
  minValue_ st = 27300 -> maxValue_ st = 31500 ->
  scale_ st = f32_div (f32_of_int 255) (f32_of_int 4200) ->
  intensity st v = intensity shipped v.
Proof.
  intros Hmin Hmax Hmn Hmx Hsc. unfold intensity.
  rewrite Hmin, Hmax, Hmn, Hmx, Hsc. reflexivity.
Qed.

Lemma intensity_steps : all_from (Z.to_nat 4199) 27301 intensity_step_ok = true.
Proof. vm_compute. reflexivity. Qed.

Lemma intensity_step (v : Z) :
  27300 < v < 31500 ->
  0 <= intensity shipped v <= intensity shipped (v + 1) /\
  intensity shipped (v + 1) <= 255.
Proof.
  intros Hv.
  pose proof (all_from_spec intensity_step_ok _ _ intensity_steps v) as Hc.
  unfold intensity_step_ok in Hc.
  rewrite !andb_true_iff, !Z.leb_le in Hc. lia.
Qed.

Lemma intensity_monotone (v : Z) (d : nat) :
  27300 < v -> v + Z.of_nat d <= 31500 ->
  intensity shipped v <= intensity shipped (v + Z.of_nat d).
Proof.
  induction d as [|d IH]; intros Hv Hle.
  - replace (v + Z.of_nat 0) with v by lia. lia.
  - replace (v + Z.of_nat (S d)) with (v + Z.of_nat d + 1) by lia.
    pose proof (intensity_step (v + Z.of_nat d)). lia.
Qed.

Lemma palette_bytes : palette_bytes_ok = true.
Proof. vm_compute. reflexivity. Qed.

Lemma palette_entry_byte (o : Z) :
  0 <= o < 768 ->
  exists c, at_ colormap_ironblack_ o = Some c /\ 0 <= c <= 255.
Proof.
  intros Ho. destruct (at_Some colormap_ironblack_ o) as [c Hc];
    [rewrite colormap_size; lia|].
  exists c. split; [exact Hc|].
  pose proof palette_bytes as Hall. unfold palette_bytes_ok in Hall.
  rewrite forallb_forall in Hall.
  assert (Hin : In c (take 768 colormap_ironblack_)).
  { apply list_elem_of_In. apply (list_elem_of_lookup_2 _ (Z.to_nat o)).
    rewrite lookup_take_lt by lia.
    unfold at_ in Hc. destruct (o <? 0); [discriminate | exact Hc]. }
  specialize (Hall c Hin). rewrite andb_true_iff, !Z.leb_le in Hall. exact Hall.
Qed.

(** X8. Under the shipped range (27300 to 31500, both flags off) a sample
    above the minimum and up to the maximum gets an intensity within
    0..255, and a larger sample never a smaller intensity.  Its three
    offsets are not clamped, the entries they select are bytes, and the
    image bytes are these entries: such a sample never reads the end of
    the table. *)
Theorem shipped_intensity (st : ThermalData) (v w k : Z) :
  autoRangeMin_ st = false -> autoRangeMax_ st = false ->
  minValue_ st = 27300 -> maxValue_ st = 31500 ->
  scale_ st = f32_div (f32_of_int 255) (f32_of_int 4200) ->
  27300 < v -> v <= w -> w <= 31500 ->
  0 <= k <= 2 ->
  0 <= intensity st v /\ intensity st v <= intensity st w /\ intensity st w <= 255 /\
  palette_offset (intensity st v) k = 3 * intensity st v + k /\
  exists c,
    at_ colormap_ironblack_ (palette_offset (intensity st v) k) = Some c /\
    0 <= c <= 255 /\ wrap8 c = c.
Proof.
  intros Hmin Hmax Hmn Hmx Hsc Hv Hvw Hw Hk.
  rewrite !(intensity_shipped st) by assumption.
  assert (Hrange : forall u, 27300 < u <= 31500 -> 0 <= intensity shipped u <= 255).
  { intros u Hu. destruct (Z.eq_dec u 31500) as [->|].
    - pose proof (intensity_step 31499). change (31499 + 1) with 31500 in *. lia.
    - pose proof (intensity_step u). lia. }
  pose proof (Hrange v ltac:(lia)) as Hv'.
  pose proof (Hrange w ltac:(lia)) as Hw'.
  assert (Hmono : intensity shipped v <= intensity shipped w).
  { pose proof (intensity_monotone v (Z.to_nat (w - v))) as Hm.
    replace (v + Z.of_nat (Z.to_nat (w - v))) with w in Hm by lia. apply Hm; lia. }
  assert (Hofs : palette_offset (intensity shipped v) k = 3 * intensity shipped v + k).
  { unfold palette_offset. rewrite colormap_size.
    destruct (Z.leb_spec 769 (3 * intensity shipped v + k)); [lia | reflexivity]. }
  split; [lia|]. split; [exact Hmono|]. split; [lia|]. split; [exact Hofs|].
  rewrite Hofs.
  destruct (palette_entry_byte (3 * intensity shipped v + k)) as (c & Hc & Hb); [lia|].
  exists c. split; [exact Hc|]. split; [exact Hb|].
  unfold wrap8. apply Z.mod_small. lia.
Qed.

(** ** The receive loop over many frames *)

(** Four good reads: one frame decoded and published, and the loop goes
    round. *)
Lemma temp_data_frame (oks : nat) (ga rx : list datagram) (st : ThermalData) :
  state_ok st = true ->
  length ga = 4%nat -> Forall (fun d => 0 <= received_bytes d) ga ->
  exists st',
    temp_data (S oks) (ga ++ rx) st = temp_data oks rx st' /\
    state_ok st' = true /\
    publish_count st' = S (publish_count st) /\
    n_zero_value_drop_frame_ st' = 0.
Proof.
  intros Hok Hlen Hall.
  destruct (receive_frame_ok ga 4 0 rx st) as (st1 & Hrun & Hok1 & Hev1);
    try assumption; try lia.
  destruct (process_data_total st1 Hok1)
    as (sa & sb & _ & _ & Hp & Hokp & _ & _ & (_ & _ & _ & Hevb)).
  exists (publish sb). rewrite temp_data_step, Hrun, Hp.
  split; [reflexivity|]. split; [exact Hokp|].
  destruct (publish_spec sb) as (Hn0 & _ & _ & _ & _ & Hevp & _).
  split; [|exact Hn0].
  rewrite Hevb, Hev1 in Hevp. rewrite (publish_count_app st _ _ Hevp). simpl. lia.
Qed.

(** X9. As long as the reads do not return a negative count, every four
    of them give one published frame: with [oks] turns of the loop and
    [4 * oks] such reads available, [temp_data] publishes [oks] frames and
    ends with the shutdown, the drop counter cleared. *)
Theorem temp_data_publishes_each_frame :
  forall (oks : nat) (rx rest : list datagram) (st : ThermalData),
    state_ok st = true ->
    Forall (fun d => 0 <= received_bytes d) rx ->
    length rx = (4 * oks)%nat ->
    exists st',
      temp_data oks (rx ++ rest) st = (Shutdown, st') /\
      publish_count st' = (publish_count st + oks)%nat /\
      state_ok st' = true /\
      ((0 < oks)%nat -> n_zero_value_drop_frame_ st' = 0).
Proof.
  induction oks as [|oks IH]; intros rx rest st Hok Hall Hlen.
  - exists st. simpl. repeat split; try assumption; lia.
  - rewrite <- (take_drop 4 rx), <- app_assoc.
    destruct (temp_data_frame oks (take 4 rx) (drop 4 rx ++ rest) st Hok)
      as (st1 & Hstep & Hok1 & Hpc1 & Hn1).
    { rewrite length_take. lia. }
    { apply Forall_take, Hall. }
    rewrite Hstep.
    destruct (IH (drop 4 rx) rest st1 Hok1) as (st' & Hrun & Hpc & Hok' & Hn').
    { apply Forall_drop, Hall. }
    { rewrite length_drop. lia. }
    exists st'. split; [exact Hrun|]. split; [lia|]. split; [exact Hok'|].
    intros _. destruct oks as [|oks'].
    + simpl in Hrun. injection Hrun as <-. exact Hn1.
    + apply Hn'. lia.
Qed.

(** X10. The first read that returns a negative count ends the loop for
    good: the frames completed before it, one for every four good reads,
    have been published; the reads of the frame in progress are dropped;
    the last things the node does are to log the error and to close the
    socket. *)
Theorem temp_data_stops_at_first_error :
  forall (oks : nat) (good : list datagram) (d : datagram) (rest : list datagram)
         (st : ThermalData),
    state_ok st = true ->
    Forall (fun x => 0 <= received_bytes x) good ->
    received_bytes d < 0 ->
    (length good < 4 * oks)%nat ->
    exists st' es,
      temp_data oks (good ++ d :: rest) st = (ReceiveFailed, st') /\
      Z.of_nat (publish_count st') =
        Z.of_nat (publish_count st) + Z.of_nat (length good) / 4 /\
      events_ st' = es ++ [EvLogError "Receive failed"; EvCloseSocket].
Proof.
  induction oks as [|oks IH]; intros good d rest st Hok Hall Hd Hlen; [lia|].
  destruct (Nat.lt_ge_cases (length good) 4) as [Hshort|Hlong].
  - destruct (receive_frame_fail good 4 0 d rest st) as (st1 & Hrun & Hev);
      try assumption; try lia.
    eexists _, (events_ st). rewrite temp_data_step, Hrun.
    split; [reflexivity|].
    assert (E : events_ (emit (emit st1 (EvLogError "Receive failed")) EvCloseSocket)
                = events_ st ++ [EvLogError "Receive failed"; EvCloseSocket]).
    { simpl. rewrite Hev, <- app_assoc. reflexivity. }
    split; [|exact E].
    rewrite (publish_count_app st _ _ E). simpl.
    rewrite Z.div_small by lia. lia.
  - rewrite <- (take_drop 4 good), <- app_assoc.
    destruct (temp_data_frame oks (take 4 good) (drop 4 good ++ d :: rest) st Hok)
      as (st1 & Hstep & Hok1 & Hpc1 & _).
    { rewrite length_take. lia. }
    { apply Forall_take, Hall. }
    rewrite Hstep.
    destruct (IH (drop 4 good) d rest st1 Hok1) as (st' & es & Hrun & Hpc & Hev).
    { apply Forall_drop, Hall. }
    { exact Hd. }
    { rewrite length_drop. lia. }
    exists st', es. split; [exact Hrun|]. split; [|exact Hev].
    rewrite Hpc, Hpc1, length_drop.
    rewrite length_app, length_take, length_drop.
    replace (Z.of_nat (4 `min` length good + (length good - 4)))
      with (Z.of_nat (length good - 4) + 1 * 4) by lia.
    rewrite Z.div_add by lia. lia.
Qed.

(** ** What a received frame holds *)

(** The reads as stores into the segment buffers, one by one. *)
Lemma receive_frame_shelf :
  forall (rxa : list datagram) (n : nat) (i : Z) (rx : list datagram) (st : ThermalData),
    length rxa = n ->
    Forall (fun d => 0 <= received_bytes d) rxa ->
    0 <= i -> i + Z.of_nat n <= 4 ->
    state_ok st = true ->
    exists st',
      receive_frame n i (rxa ++ rx) st = inr (rx, st') /\
      state_ok st' = true /\
      (forall k, (k < Z.to_nat i)%nat -> shelf_ st' !! k = shelf_ st !! k) /\
      (forall j d buf,
         0 <= j -> rxa !! Z.to_nat j = Some d ->
         shelf_ st !! Z.to_nat (i + j) = Some buf ->
         shelf_ st' !! Z.to_nat (i + j) = Some (store_datagram buf d)).
Proof.
  induction rxa as [|d0 rxa IH]; intros n i rx st Hn Hall Hi Hle Hok; subst n.
  - exists st. split; [reflexivity|]. split; [exact Hok|]. split; [reflexivity|].
    intros j d buf _ Hd. rewrite lookup_nil in Hd. discriminate.
  - simpl length in *. simpl receive_frame.
    apply Forall_cons in Hall as [Hd0 Hall].
    destruct (Z.ltb_spec (received_bytes d0) 0); [lia|].
    pose proof (state_ok_spec st Hok) as (H1 & _).
    destruct (at_Some (shelf_ st) i) as [buf0 Hbuf]; [lia|].
    rewrite Hbuf.
    assert (Hk : shelf_ st !! Z.to_nat i = Some buf0).
    { unfold at_ in Hbuf. destruct (i <? 0); [discriminate | exact Hbuf]. }
    set (st1 := set_shelf st (<[Z.to_nat i := store_datagram buf0 d0]> (shelf_ st))).
    destruct (IH (length rxa) (i + 1) rx st1)
      as (st' & Hrun & Hok' & Hbelow & Hat); try assumption; try reflexivity; try lia.
    { now apply set_shelf_ok. }
    exists st'. simpl app. split; [exact Hrun|]. split; [exact Hok'|]. split.
    + intros k Hk'. rewrite Hbelow by lia. unfold st1. simpl.
      apply list_lookup_insert_ne. lia.
    + intros j d buf Hj Hd Hb.
      destruct (Z.eq_dec j 0) as [->|Hj0].
      * simpl in Hd. injection Hd as <-.
        replace (i + 0) with i in * by lia.
        assert (buf = buf0) by congruence. subst buf.
        rewrite Hbelow by lia. unfold st1. simpl.
        apply list_lookup_insert_eq. lia.
      * replace (i + j) with (i + 1 + (j - 1)) in * by lia.
        apply Hat; [lia | |].
        -- replace (Z.to_nat j) with (S (Z.to_nat (j - 1))) in Hd by lia. exact Hd.
        -- unfold st1. simpl. rewrite list_lookup_insert_ne by lia. exact Hb.
Qed.

Lemma store_datagram_prefix (buf : list Z) (d : datagram) (k : nat) :
  (k < length buf)%nat -> (k < length (payload d))%nat ->
  store_datagram buf d !! k = payload d !! k.
Proof.
  intros Hb Hp. unfold store_datagram.
  rewrite lookup_app_l by (rewrite length_take; lia).
  apply lookup_take_lt. lia.
Qed.

Lemma store_datagram_suffix (buf : list Z) (d : datagram) (k : nat) :
  (length (payload d) <= k)%nat ->
  store_datagram buf d !! k = buf !! k.
Proof.
  intros Hp. unfold store_datagram.
  destruct (Nat.le_gt_cases (length buf) k) as [Hb|Hb].
  - rewrite (lookup_ge_None_2 buf k Hb). apply lookup_ge_None_2.
    rewrite length_app, length_drop, length_take. lia.
  - rewrite lookup_app_r by (rewrite length_take; lia).
    rewrite lookup_drop, length_take. f_equal. lia.
Qed.

(** X11. After four good reads, segment [j] holds the datagram of read
    [j] over what it held: a datagram of 9840 bytes or more replaces the
    segment by its first 9840 bytes; a shorter one replaces the start of
    the segment and leaves the rest of the previous frame behind it. *)
Theorem received_frame_is_stored
    (rxa rx : list datagram) (st : ThermalData) (j : Z) (d : datagram) (buf : list Z) :
  state_ok st = true ->
  length rxa = 4%nat ->
  Forall (fun x => 0 <= received_bytes x) rxa ->
  0 <= j < 4 ->
  rxa !! Z.to_nat j = Some d ->
  at_ (shelf_ st) j = Some buf ->
  exists st' seg,
    receive_frame 4 0 (rxa ++ rx) st = inr (rx, st') /\
    at_ (shelf_ st') j = Some seg /\
    Z.of_nat (length seg) = 9840 /\
    (9840 <= Z.of_nat (length (payload d)) ->
     seg = take (Z.to_nat 9840) (payload d)) /\
    (Z.of_nat (length (payload d)) <= 9840 ->
     seg = payload d ++ drop (length (payload d)) buf).
Proof.
  intros Hok Hlen Hall Hj Hd Hbuf.
  destruct (receive_frame_shelf rxa 4 0 rx st) as (st' & Hrun & Hok' & _ & Hat);
    try assumption; try lia.
  assert (Hb : shelf_ st !! Z.to_nat j = Some buf).
  { unfold at_ in Hbuf. destruct (j <? 0); [discriminate | exact Hbuf]. }
  pose proof (state_ok_spec st Hok) as (_ & Hseg & _).
  pose proof (Hseg _ _ Hb) as Hl.
  specialize (Hat j d buf ltac:(lia) Hd Hb). change (0 + j) with j in Hat.
  exists st', (store_datagram buf d). split; [exact Hrun|].
  split; [unfold at_; destruct (Z.ltb_spec j 0); [lia | exact Hat]|].
  split; [rewrite store_datagram_length; exact Hl|].
  unfold store_datagram. split.
  - intros Hfull. replace (length buf) with (Z.to_nat 9840) by lia.
    rewrite drop_ge by (rewrite length_take; lia). apply app_nil_r.
  - intros Hshort. rewrite take_ge by lia. reflexivity.
Qed.

(** The sample read from a segment that a datagram has been stored in. *)
Lemma sample_of_stored (st : ThermalData) (iSegment i hi lo : Z)
    (buf : list Z) (d : datagram) :
  1 <= iSegment <= 4 -> 0 <= i < 4920 ->
  Z.of_nat (length buf) = 9840 ->
  shelf_ st !! Z.to_nat (iSegment - 1) = Some (store_datagram buf d) ->
  at_ (payload d) (i * 2) = Some hi -> at_ (payload d) (i * 2 + 1) = Some lo ->
  0 <= hi <= 255 -> 0 <= lo <= 255 ->
  sample st iSegment i = Some (256 * hi + lo).
Proof.
  intros Hs Hi Hl Hseg Hhi Hlo Hhr Hlr.
  assert (Hseg' : at_ (shelf_ st) (iSegment - 1) = Some (store_datagram buf d)).
  { unfold at_. destruct (Z.ltb_spec (iSegment - 1) 0); [lia | exact Hseg]. }
  unfold sample. rewrite Hseg'. simpl.
  unfold at_ in Hhi, Hlo |- *.
  destruct (Z.ltb_spec (i * 2) 0); [lia|].
  destruct (Z.ltb_spec (i * 2 + 1) 0); [lia|].
  pose proof (lookup_lt_Some _ _ _ Hhi). pose proof (lookup_lt_Some _ _ _ Hlo).
  rewrite !store_datagram_prefix by lia.
  rewrite Hhi, Hlo. simpl. f_equal.
  rewrite Z.shiftl_mul_pow2 by lia. unfold wrap16.
  change (2 ^ 8) with 256. rewrite Z.mod_small by lia. lia.
Qed.

(** X12. The sample decoded at position [i] of a segment just received:
    when the datagram reaches that far, the big-endian value
    [256 * hi + lo] of its bytes [2 i] and [2 i + 1]; when the datagram
    ends before byte [2 i], the sample the previous frame had there. *)
Theorem received_sample
    (rxa rx : list datagram) (st : ThermalData) (iSegment i : Z) (d : datagram) :
  state_ok st = true ->
  length rxa = 4%nat ->
  Forall (fun x => 0 <= received_bytes x) rxa ->
  1 <= iSegment <= 4 -> 0 <= i < 4920 ->
  rxa !! Z.to_nat (iSegment - 1) = Some d ->
  exists st',
    receive_frame 4 0 (rxa ++ rx) st = inr (rx, st') /\
    (forall hi lo,
       at_ (payload d) (i * 2) = Some hi -> at_ (payload d) (i * 2 + 1) = Some lo ->
       0 <= hi <= 255 -> 0 <= lo <= 255 ->
       sample st' iSegment i = Some (256 * hi + lo)) /\
    (Z.of_nat (length (payload d)) <= i * 2 ->
     sample st' iSegment i = sample st iSegment i).
Proof.
  intros Hok Hlen Hall Hs Hi Hd.
  destruct (receive_frame_shelf rxa 4 0 rx st) as (st' & Hrun & Hok' & _ & Hat);
    try assumption; try lia.
  pose proof (state_ok_spec st Hok) as (Hsh & Hseg & _).
  destruct (at_Some (shelf_ st) (iSegment - 1)) as [buf Hbuf]; [lia|].
  assert (Hb : shelf_ st !! Z.to_nat (iSegment - 1) = Some buf).
  { unfold at_ in Hbuf. destruct (iSegment - 1 <? 0); [discriminate | exact Hbuf]. }
  pose proof (Hseg _ _ Hb) as Hl.
  specialize (Hat (iSegment - 1) d buf ltac:(lia) Hd Hb).
  change (0 + (iSegment - 1)) with (iSegment - 1) in Hat.
  assert (Hseg' : at_ (shelf_ st') (iSegment - 1) = Some (store_datagram buf d)).
  { unfold at_. destruct (Z.ltb_spec (iSegment - 1) 0); [lia | exact Hat]. }
  exists st'. split; [exact Hrun|]. split.
  - intros hi lo Hhi Hlo Hhr Hlr.
    apply (sample_of_stored st' iSegment i hi lo buf d); assumption.
  - intros Hend. unfold sample. rewrite Hseg', Hbuf. simpl.
    unfold at_.
    destruct (Z.ltb_spec (i * 2) 0); [lia|].
    destruct (Z.ltb_spec (i * 2 + 1) 0); [lia|].
    rewrite !store_datagram_suffix by lia. reflexivity.
Qed.

(** ** Processing a frame twice *)

Lemma rescale_fixed (st : ThermalData) :
  diff_ st = f32_of_int (maxValue_ st - minValue_ st) ->
  scale_ st = f32_div (f32_of_int 255) (diff_ st) ->
  rescale st = st.
Proof.
  destruct st as [amin amax mn mx d sc nz sh td im ev]. simpl.
  intros Hd Hs. unfold rescale, set_scale, set_diff. simpl.
  rewrite <- Hd, <- Hs. reflexivity.
Qed.

(** A state the pass has nothing to do on. *)
Lemma auto_range_fixed (st : ThermalData) :
  state_ok st = true ->
  (autoRangeMin_ st || autoRangeMax_ st = true ->
   scanned st 5 0 /\
   (autoRangeMin_ st = true -> maxValue_ st = 65535) /\
   (autoRangeMax_ st = true -> minValue_ st = 0) /\
   diff_ st = f32_of_int (maxValue_ st - minValue_ st) /\
   scale_ st = f32_div (f32_of_int 255) (diff_ st)) ->
  auto_range st = Some st.
Proof.
  intros Hok Hfix. unfold auto_range.
  destruct (autoRangeMin_ st || autoRangeMax_ st); [|reflexivity].
  destruct (Hfix eq_refl) as (Hsc & Hmax & Hmin & Hd & Hs).
  rewrite (seed_fixed st Hmax Hmin), (scan_fixed st Hok Hsc). simpl.
  rewrite (rescale_fixed st Hd Hs). reflexivity.
Qed.

Lemma scanned_same (st st' : ThermalData) (iSegment k : Z) :
  same_frame st st' -> same_range st st' ->
  scanned st iSegment k -> scanned st' iSegment k.
Proof.
  intros Hf (Hmn & Hmx & _) Hsc. pose proof Hf as (Hfmin & Hfmax & _).
  intros s i v Hs Hi Hh Hbefore Hv Hnz.
  rewrite (sample_same_frame st st' s i Hf) in Hv.
  rewrite Hfmin, Hfmax, Hmn, Hmx. apply (Hsc s i v); assumption.
Qed.

Lemma pixel_at_defined (st : ThermalData) (c : Z) :
  state_ok st = true -> 0 <= c < 19200 ->
  exists t b0 b1 b2,
    at_ (temperature_data_ st) c = Some t /\
    at_ (image_data_ st) (c * 3 + 0) = Some b0 /\
    at_ (image_data_ st) (c * 3 + 1) = Some b1 /\
    at_ (image_data_ st) (c * 3 + 2) = Some b2 /\
    pixel_at st c = Some (t, b0, b1, b2).
Proof.
  intros Hok Hc. pose proof (state_ok_spec st Hok) as (_ & _ & Ht & Him & _).
  destruct (at_Some (temperature_data_ st) c) as [t Et]; [lia|].
  destruct (at_Some (image_data_ st) (c * 3 + 0)) as [b0 E0]; [lia|].
  destruct (at_Some (image_data_ st) (c * 3 + 1)) as [b1 E1]; [lia|].
  destruct (at_Some (image_data_ st) (c * 3 + 2)) as [b2 E2]; [lia|].
  exists t, b0, b1, b2. unfold pixel_at. rewrite Et, E0, E1, E2. repeat split.
Qed.

(** Two states whose pixels agree on every cell have the same buffers. *)
Lemma buffers_eq (a b : ThermalData) :
  state_ok a = true -> state_ok b = true ->
  (forall c, 0 <= c < 19200 -> pixel_at a c = pixel_at b c) ->
  temperature_data_ a = temperature_data_ b /\ image_data_ a = image_data_ b.
Proof.
  intros Ha Hb Hpix.
  pose proof (state_ok_spec a Ha) as (_ & _ & Hta & Hia & _).
  pose proof (state_ok_spec b Hb) as (_ & _ & Htb & Hib & _).
  split; apply list_eq; intros m.
  - destruct (Z.lt_ge_cases (Z.of_nat m) 19200) as [Hm|Hm].
    + destruct (pixel_at_defined a (Z.of_nat m) Ha) as (t & b0 & b1 & b2 & Et & _ & _ & _ & Ep);
        [lia|].
      destruct (pixel_at_defined b (Z.of_nat m) Hb) as (t' & c0 & c1 & c2 & Et' & _ & _ & _ & Ep');
        [lia|].
      rewrite (Hpix (Z.of_nat m)) in Ep by lia. rewrite Ep' in Ep. injection Ep as <- _ _ _.
      unfold at_ in Et, Et'. destruct (Z.of_nat m <? 0); [discriminate|].
      rewrite Nat2Z.id in Et, Et'. congruence.
    + rewrite !lookup_ge_None_2 by lia. reflexivity.
  - destruct (Z.lt_ge_cases (Z.of_nat m) 57600) as [Hm|Hm].
    + set (c := Z.of_nat m / 3).
      destruct (pixel_at_defined a c Ha) as (t & b0 & b1 & b2 & _ & E0 & E1 & E2 & Ep);
        [unfold c; Z.div_mod_to_equations; lia|].
      destruct (pixel_at_defined b c Hb) as (t' & c0 & c1 & c2 & _ & F0 & F1 & F2 & Ep');
        [unfold c; Z.div_mod_to_equations; lia|].
      rewrite (Hpix c) in Ep by (unfold c; Z.div_mod_to_equations; lia).
      rewrite Ep' in Ep. injection Ep as _ <- <- <-.
      assert (Hk : Z.of_nat m = c * 3 + 0 \/ Z.of_nat m = c * 3 + 1 \/ Z.of_nat m = c * 3 + 2)
        by (unfold c; Z.div_mod_to_equations; lia).
      assert (Hlk : forall l : list Z, l !! m = at_ l (Z.of_nat m)).
      { intros l. unfold at_. destruct (Z.ltb_spec (Z.of_nat m) 0); [lia|].
        rewrite Nat2Z.id. reflexivity. }
      rewrite !Hlk. destruct Hk as [-> | [-> | ->]]; congruence.
    + rewrite !lookup_ge_None_2 by lia. reflexivity.
Qed.

(** X13. Processing an unchanged frame a second time changes neither the
    range nor a single value of the two buffers: the second publication
    carries the same grid and the same image bytes as the first. *)
Theorem process_data_twice (st : ThermalData) :
  state_ok st = true ->
  exists st1 st2,
    process_data st = Some st1 /\
    process_data st1 = Some st2 /\
    same_range st1 st2 /\
    temperature_data_ st2 = temperature_data_ st1 /\
    image_data_ st2 = image_data_ st1 /\
    events_ st2 =
      events_ st ++ [EvPublish (temperature_data_ st1) (image_data_ st1);
                     EvPublish (temperature_data_ st1) (image_data_ st1)].
Proof.
  intros Hok.
  (* the first run *)
  assert (Hres : exists a1,
             auto_range st = Some a1 /\ state_ok a1 = true /\ same_frame st a1 /\
             auto_range a1 = Some a1 /\
             (autoRangeMin_ a1 || autoRangeMax_ a1 = true ->
              scanned a1 5 0 /\
              (autoRangeMin_ a1 = true -> maxValue_ a1 = 65535) /\
              (autoRangeMax_ a1 = true -> minValue_ a1 = 0) /\
              diff_ a1 = f32_of_int (maxValue_ a1 - minValue_ a1) /\
              scale_ a1 = f32_div (f32_of_int 255) (diff_ a1))).
  { destruct (autoRangeMin_ st || autoRangeMax_ st) eqn:Hflags.
    - destruct (auto_range_result st Hok Hflags)
        as (s2 & _ & Ha & Hok2 & Hf & Hsc & _ & Hmax & Hmin).
      pose proof Hf as (Hfmin & Hfmax & _).
      assert (Hfix : autoRangeMin_ (rescale s2) || autoRangeMax_ (rescale s2) = true ->
                     scanned (rescale s2) 5 0 /\
                     (autoRangeMin_ (rescale s2) = true -> maxValue_ (rescale s2) = 65535) /\
                     (autoRangeMax_ (rescale s2) = true -> minValue_ (rescale s2) = 0) /\
                     diff_ (rescale s2)
                       = f32_of_int (maxValue_ (rescale s2) - minValue_ (rescale s2)) /\
                     scale_ (rescale s2) = f32_div (f32_of_int 255) (diff_ (rescale s2))).
      { intros _. split; [exact Hsc|]. split; [|split; [|split; reflexivity]].
        - intros E. apply Hmax. rewrite <- Hfmin. exact E.
        - intros E. apply Hmin. rewrite <- Hfmax. exact E. }
      exists (rescale s2). split; [exact Ha|]. split; [exact Hok2|].
      split; [exact Hf|]. split; [|exact Hfix].
      apply auto_range_fixed; [exact Hok2 | exact Hfix].
    - exists st. unfold auto_range. rewrite Hflags.
      split; [reflexivity|]. split; [exact Hok|]. split; [apply same_frame_refl|].
      split; [reflexivity|]. intros E. discriminate. }
  destruct Hres as (a1 & Ha1 & Hoka1 & Hfa1 & _ & Hfix1).
  destruct (decode_pass_pixels a1 Hoka1) as (d1 & Hd1 & Hokd1 & Hfd1 & Hrd1 & _ & Hpix1).
  destruct (publish_spec d1) as (_ & Hrp1 & Htp1 & Hip1 & Hsp1 & Hevp1 & Hokp1).
  set (st1 := publish d1) in *.
  assert (Hp1 : process_data st = Some st1)
    by (unfold process_data; rewrite Ha1; simpl; rewrite Hd1; reflexivity).
  assert (Hf1 : same_frame a1 d1) by exact Hfd1.
  assert (Hok1 : state_ok st1 = true) by (apply Hokp1, Hokd1).
  (* the state after the first run is a fixed point of the pass *)
  assert (Hflags1 : autoRangeMin_ st1 = autoRangeMin_ a1 /\
                    autoRangeMax_ st1 = autoRangeMax_ a1 /\
                    shelf_ st1 = shelf_ a1).
  { destruct Hfd1 as (E1 & E2 & E3 & _). unfold st1, publish.
    destruct (negb (n_zero_value_drop_frame_ d1 =? 0)); simpl; auto. }
  destruct Hflags1 as (Efmin & Efmax & Esh).
  assert (Hrange1 : same_range a1 st1) by (eapply same_range_trans; eassumption).
  assert (Hsample1 : forall s i, sample st1 s i = sample a1 s i)
    by (intros; unfold sample; rewrite Esh; reflexivity).
  assert (Ha2 : auto_range st1 = Some st1).
  { apply auto_range_fixed; [exact Hok1|].
    rewrite Efmin, Efmax. intros E. destruct (Hfix1 E) as (Hsc & Hmax & Hmin & Hdf & Hscl).
    destruct Hrange1 as (Emn & Emx & Ed & Es). rewrite Emn, Emx, Ed, Es.
    split; [|auto].
    intros s i v Hs Hi Hh Hbefore Hv Hnz. rewrite Hsample1 in Hv.
    rewrite Efmin, Efmax, Emn, Emx. apply (Hsc s i v); assumption. }
  (* the second run *)
  destruct (decode_pass_pixels st1 Hok1) as (d2 & Hd2 & Hokd2 & Hfd2 & Hrd2 & _ & Hpix2).
  destruct (publish_spec d2) as (_ & Hrp2 & Htp2 & Hip2 & _ & Hevp2 & Hokp2).
  assert (Hp2 : process_data st1 = Some (publish d2))
    by (unfold process_data; rewrite Ha2; simpl; rewrite Hd2; reflexivity).
  assert (Hbuf : temperature_data_ d2 = temperature_data_ st1 /\
                 image_data_ d2 = image_data_ st1).
  { apply buffers_eq; [exact Hokd2 | exact Hok1 |].
    intros c Hc.
    destruct (cell_has_position c Hc) as (Hs & Hi & Hh & Hcell).
    rewrite <- (cmod_mod _ 82) in Hh by lia.
    destruct (sample_defined a1 _ _ Hoka1 Hs Hi) as (v & Hv & _).
    rewrite <- Hcell.
    rewrite (Hpix2 _ _ v Hs Hi Hh) by (rewrite Hsample1; exact Hv).
    assert (Efz : first_zero st1 (segment_of_cell c) = first_zero a1 (segment_of_cell c)).
    { unfold first_zero. generalize (Z.to_nat 4920) 0.
      induction n as [|n IHn]; intros i0; [reflexivity|].
      simpl. rewrite Hsample1, !IHn. reflexivity. }
    rewrite Efz.
    destruct (Z.ltb_spec (position_of_cell c) (first_zero a1 (segment_of_cell c)))
      as [Hlt|Hge]; [|reflexivity].
    rewrite (pixel_at_same_buffers d1 st1 _ Htp1 Hip1).
    rewrite (Hpix1 _ _ v Hs Hi Hh Hv).
    destruct (Z.ltb_spec (position_of_cell c) (first_zero a1 (segment_of_cell c)));
      [|lia].
    unfold pixel_for, intensity.
    destruct Hrange1 as (Emn & Emx & _ & Es).
    rewrite Efmin, Efmax, Emn, Emx, Es. reflexivity. }
  destruct Hbuf as [Ht2 Hi2].
  exists st1, (publish d2).
  split; [exact Hp1|]. split; [exact Hp2|].
  split; [eapply same_range_trans; eassumption|].
  split; [rewrite Htp2; exact Ht2|]. split; [rewrite Hip2; exact Hi2|].
  rewrite Hevp2. destruct Hfd2 as (_ & _ & _ & ->).
  rewrite Ht2, Hi2. fold st1 in Hevp1. rewrite Hevp1.
  destruct Hfd1 as (_ & _ & _ & ->). destruct Hfa1 as (_ & _ & _ & ->).
  rewrite <- Htp1, <- Hip1. fold st1. rewrite <- app_assoc. reflexivity.
Qed.

(** ** The order of the temperatures *)

Lemma temperature_exact_next (v : Z) :
  (temperature_exact (v + 1) == temperature_exact v + (1 # 100))%Q.
Proof. unfold temperature_exact, Qeq, Qminus, Qplus, Qopp; simpl. lia. Qed.

Lemma temperature_exact_bound (v : Z) :
  1 <= v <= 65535 -> (Qabs (temperature_exact v) <= 383)%Q.
Proof.
  intros Hv. apply Qabs_Qle_condition.
  split; unfold temperature_exact, Qle, Qminus, Qplus, Qopp; simpl; lia.
Qed.

(** Two values a hundredth apart, each known to 2^-23 of itself, are in
    order. *)
Lemma close_values_in_order (a0 a1 e0 e1 : Q) :
  (e1 == e0 + (1 # 100))%Q ->
  (Qabs e0 <= 383)%Q -> (Qabs e1 <= 383)%Q ->
  (Qabs (a0 - e0) <= (1 # 8388608) * Qabs e0)%Q ->
  (Qabs (a1 - e1) <= (1 # 8388608) * Qabs e1)%Q ->
  (a0 < a1)%Q.
Proof.
  intros He H0 H1 Ha0 Ha1.
  apply Qabs_Qle_condition in Ha0, Ha1.
  set (d0 := Qabs e0) in *. set (d1 := Qabs e1) in *.
  lra.
Qed.

Lemma temperature_next (v : Z) :
  1 <= v < 65535 ->
  (to_Q (temperature_of v) < to_Q (temperature_of (v + 1)))%Q.
Proof.
  intros Hv.
  destruct (temperature_accuracy v) as [_ H0]; [lia|].
  destruct (temperature_accuracy (v + 1)) as [_ H1]; [lia|].
  apply (close_values_in_order _ _ (temperature_exact v) (temperature_exact (v + 1)));
    try assumption.
  - apply temperature_exact_next.
  - apply temperature_exact_bound. lia.
  - apply temperature_exact_bound. lia.
Qed.

(** X14. The stored temperature is strictly increasing in the raw
    sample: of two non-zero samples the larger one gets the higher
    temperature, so no two samples share a temperature. *)
Theorem temperature_increasing (v w : Z) :
  1 <= v -> v < w -> w <= 65535 ->
  (to_Q (temperature_of v) < to_Q (temperature_of w))%Q /\
  temperature_of v <> temperature_of w.
Proof.
  intros Hv Hvw Hw.
  assert (Hlt : forall d : nat,
             v + 1 + Z.of_nat d <= 65535 ->
             (to_Q (temperature_of v) < to_Q (temperature_of (v + 1 + Z.of_nat d)))%Q).
  { induction d as [|d IH]; intros Hd.
    - replace (v + 1 + Z.of_nat 0) with (v + 1) by lia. apply temperature_next. lia.
    - apply Qlt_trans with (to_Q (temperature_of (v + 1 + Z.of_nat d))).
      + apply IH. lia.
      + replace (v + 1 + Z.of_nat (S d)) with (v + 1 + Z.of_nat d + 1) by lia.
        apply temperature_next. lia. }
  specialize (Hlt (Z.to_nat (w - v - 1))).
  replace (v + 1 + Z.of_nat (Z.to_nat (w - v - 1))) with w in Hlt by lia.
  split; [apply Hlt; lia|].
  intros E. rewrite E in Hlt. apply (Qlt_irrefl (to_Q (temperature_of w))), Hlt. lia.
Qed.

(** ** From the datagrams to the published grid *)

Lemma pixel_for_defined (st : ThermalData) (v : Z) :
  state_ok st = true ->
  exists b g r, pixel_for st v = Some (temperature_of v, b, g, r).
Proof.
  intros Hok. pose proof (intensity_range st v Hok) as Hint.
  destruct (palette_read (intensity st v) 2) as [cb Hb]; [lia | lia |].
  destruct (palette_read (intensity st v) 1) as [cg Hg]; [lia | lia |].
  destruct (palette_read (intensity st v) 0) as [cr Hr]; [lia | lia |].
  exists (wrap8 cb), (wrap8 cg), (wrap8 cr). unfold pixel_for.
  rewrite Hb, Hg, Hr. reflexivity.
Qed.

Lemma payload_byte (d : datagram) (k b : Z) :
  Forall (fun x => 0 <= x <= 255) (payload d) ->
  at_ (payload d) k = Some b -> 0 <= b <= 255.
Proof.
  intros Hall Hb. rewrite Forall_forall in Hall. apply Hall.
  apply list_elem_of_In. eapply at_elem, Hb.
Qed.

(** X15. One frame from the socket to the publisher.  Four good reads of
    9840 bytes or more each, with no zero sample in them, give one published
    message, and in it cell [c] of the temperature grid is the
    temperature of the big-endian sample found at bytes
    [2 * position_of_cell c] and the next one of the datagram of segment
    [segment_of_cell c]: nothing of what the node held before shows. *)
Theorem frame_end_to_end
    (rxa rest : list datagram) (st : ThermalData) (c : Z) :
  state_ok st = true ->
  length rxa = 4%nat ->
  Forall full_datagram rxa ->
  Forall no_zero_sample rxa ->
  0 <= c < 19200 ->
  exists d hi lo st' T I,
    rxa !! Z.to_nat (segment_of_cell c - 1) = Some d /\
    at_ (payload d) (position_of_cell c * 2) = Some hi /\
    at_ (payload d) (position_of_cell c * 2 + 1) = Some lo /\
    temp_data 1 (rxa ++ rest) st = (Shutdown, st') /\
    events_ st' = events_ st ++ [EvPublish T I] /\
    at_ T c = Some (temperature_of (256 * hi + lo)).
Proof.
  intros Hok Hlen Hfull Hnz Hc.
  assert (Hgood : Forall (fun x => 0 <= received_bytes x) rxa).
  { eapply Forall_impl; [exact Hfull|]. intros x (Hx & _). exact Hx. }
  destruct (receive_frame_shelf rxa 4 0 rest st) as (st1 & Hrun & Hok1 & _ & Hat);
    try assumption; try lia.
  destruct (receive_frame_ok rxa 4 0 rest st) as (st1' & Hrun' & _ & Hev1);
    try assumption; try lia.
  assert (st1' = st1) by congruence. subst st1'.
  pose proof (state_ok_spec st Hok) as (Hsh & Hseg & _).
  (* the samples of the received frame *)
  assert (Hsample : forall s i,
             1 <= s <= 4 -> 0 <= i < 4920 ->
             exists d hi lo,
               rxa !! Z.to_nat (s - 1) = Some d /\
               at_ (payload d) (i * 2) = Some hi /\
               at_ (payload d) (i * 2 + 1) = Some lo /\
               sample st1 s i = Some (256 * hi + lo) /\
               (2 <= i mod 82 -> 256 * hi + lo <> 0)).
  { intros s i Hs Hi.
    destruct (lookup_lt_is_Some_2 rxa (Z.to_nat (s - 1))) as [d Hd]; [lia|].
    destruct (lookup_lt_is_Some_2 (shelf_ st) (Z.to_nat (s - 1))) as [buf Hb]; [lia|].
    rewrite Forall_forall in Hfull, Hnz.
    assert (Hin : d ∈ rxa) by (eapply list_elem_of_lookup_2, Hd).
    destruct (Hfull d Hin) as (_ & Hl & Hbytes).
    destruct (at_Some (payload d) (i * 2)) as [hi Hhi]; [lia|].
    destruct (at_Some (payload d) (i * 2 + 1)) as [lo Hlo]; [lia|].
    exists d, hi, lo. split; [exact Hd|]. split; [exact Hhi|]. split; [exact Hlo|].
    split.
    - apply (sample_of_stored st1 s i hi lo buf d); try assumption.
      + eapply Hseg, Hb.
      + specialize (Hat (s - 1) d buf ltac:(lia) Hd Hb).
        change (0 + (s - 1)) with (s - 1) in Hat. exact Hat.
      + eapply payload_byte; eassumption.
      + eapply payload_byte; eassumption.
    - intros Hh. apply (Hnz d Hin i hi lo); assumption. }
  (* the frame is decoded in full *)
  destruct (cell_has_position c Hc) as (Hs & Hi & Hh & Hcell).
  destruct (Hsample _ _ Hs Hi) as (d & hi & lo & Hd & Hhi & Hlo & Hv & _).
  destruct (auto_range_total st1 Hok1) as (a1 & Ha & Hoka & Hfa & _).
  destruct (decode_pass_pixels a1 Hoka) as (d1 & Hd1 & Hokd & Hfd & _ & _ & Hpix).
  destruct (publish_spec d1) as (_ & _ & _ & _ & _ & Hevp & _).
  assert (Hp : process_data st1 = Some (publish d1))
    by (unfold process_data; rewrite Ha; simpl; rewrite Hd1; reflexivity).
  exists d, hi, lo, (publish d1), (temperature_data_ d1), (image_data_ d1).
  split; [exact Hd|]. split; [exact Hhi|]. split; [exact Hlo|].
  split; [rewrite temp_data_step, Hrun, Hp; reflexivity|].
  split.
  { rewrite Hevp. destruct Hfd as (_ & _ & _ & ->). destruct Hfa as (_ & _ & _ & ->).
    rewrite Hev1. reflexivity. }
  assert (Hlt : position_of_cell c < first_zero a1 (segment_of_cell c)).
  { destruct (first_zero_iff a1 (segment_of_cell c) (position_of_cell c) Hi) as [_ Hiff].
    apply Hiff. intros j Hj Hjh.
    rewrite (sample_same_frame st1 a1 _ _ Hfa).
    destruct (Hsample (segment_of_cell c) j Hs) as (d' & hi' & lo' & _ & _ & _ & Hv' & Hnz');
      [lia|].
    rewrite Hv'. intros E. injection E as E. apply Hnz'; [|exact E].
    rewrite <- cmod_mod by lia. exact Hjh. }
  specialize (Hpix (segment_of_cell c) (position_of_cell c) (256 * hi + lo) Hs Hi).
  rewrite Hcell in Hpix.
  destruct (Z.ltb_spec (position_of_cell c) (first_zero a1 (segment_of_cell c))); [|lia].
  destruct (pixel_for_defined a1 (256 * hi + lo) Hoka) as (b & g & r & Hpf).
  destruct (pixel_at_defined d1 c Hokd Hc) as (t & b0 & b1 & b2 & Et & _ & _ & _ & Ep).
  rewrite Hpix in Ep.
  - rewrite Hpf in Ep. injection Ep as <- _ _ _. exact Et.
  - rewrite cmod_mod by lia. exact Hh.
  - rewrite (sample_same_frame st1 a1 _ _ Hfa). exact Hv.
Qed.

(** ** Constant frames and datagrams *)

Lemma st_warm_no_zero (s i : Z) :
  1 <= s <= 4 -> 0 <= i < 4920 -> sample st_warm s i <> Some 0.
Proof.
  intros Hs Hi. rewrite (sample_constant_frame st_warm 117 s i eq_refl Hs Hi).
  discriminate.
Qed.

Lemma constant_datagram_full (b : Z) :
  0 <= b <= 255 -> full_datagram (constant_datagram b).
Proof.
  intros Hb. unfold full_datagram, constant_datagram.
  cbn [received_bytes payload].
  split; [lia|]. split; [rewrite length_replicate; lia|].
  apply Forall_replicate. exact Hb.
Qed.

Lemma constant_datagram_no_zero (b : Z) :
  0 < b -> no_zero_sample (constant_datagram b).
Proof.
  intros Hb i hi lo _ _ Hhi Hlo. unfold constant_datagram in Hhi, Hlo.
  cbn [payload] in Hhi, Hlo.
  apply at_elem, list_elem_of_In, elem_of_replicate in Hhi as [-> _].
  apply at_elem, list_elem_of_In, elem_of_replicate in Hlo as [-> _].
  lia.
Qed.

Lemma long_datagram_full (b : Z) :
  0 <= b <= 255 -> full_datagram (long_datagram b).
Proof.
  intros Hb. unfold full_datagram, long_datagram.
  cbn [received_bytes payload].
  split; [lia|]. split; [rewrite length_replicate; lia|].
  apply Forall_replicate. exact Hb.
Qed.

Lemma long_datagram_no_zero (b : Z) :
  0 < b -> no_zero_sample (long_datagram b).
Proof.
  intros Hb i hi lo _ _ Hhi Hlo. unfold long_datagram in Hhi, Hlo.
  cbn [payload] in Hhi, Hlo.
  apply at_elem, list_elem_of_In, elem_of_replicate in Hhi as [-> _].
  apply at_elem, list_elem_of_In, elem_of_replicate in Hlo as [-> _].
  lia.
Qed.

(** ** The packet headers are not looked at *)

Lemma for_loop_related {T : Type} (R : T -> T -> Prop)
    (body : Z -> T -> option (flow * T)) :
  forall (n : nat) (i : Z) (a b : T),
    R a b ->
    (forall j a0 b0, i <= j < i + Z.of_nat n -> R a0 b0 ->
       both (fun x y => fst x = fst y /\ R (snd x) (snd y)) (body j a0) (body j b0)) ->
    both R (for_loop n i body a) (for_loop n i body b).
Proof.
  induction n as [|n IH]; intros i a b Hab Hbody; [exact Hab|].
  simpl. specialize (Hbody i a b ltac:(lia) Hab) as Hstep.
  destruct (body i a) as [[fa a1]|], (body i b) as [[fb b1]|]; simpl in Hstep;
    try contradiction; [|exact I].
  destruct Hstep as [Hf Hr]. simpl in Hf, Hr. subst fb.
  destruct fa; [|exact Hr].
  apply IH; [exact Hr|]. intros j a0 b0 Hj. apply Hbody. lia.
Qed.

Lemma same_data_maxValue (a b : ThermalData) (v : Z) :
  same_data a b -> same_data (set_maxValue a v) (set_maxValue b v).
Proof.
  intros (E1 & E2 & E3 & E4 & E5 & E6 & E7 & E8 & E9 & E10 & Hsm).
  pose proof (eq_refl v) as Hv. unfold same_data. same_fields.
Qed.

Lemma same_data_minValue (a b : ThermalData) (v : Z) :
  same_data a b -> same_data (set_minValue a v) (set_minValue b v).
Proof.
  intros (E1 & E2 & E3 & E4 & E5 & E6 & E7 & E8 & E9 & E10 & Hsm).
  pose proof (eq_refl v) as Hv. unfold same_data. same_fields.
Qed.

Lemma same_data_drop (a b : ThermalData) (v : Z) :
  same_data a b -> same_data (set_drop a v) (set_drop b v).
Proof.
  intros (E1 & E2 & E3 & E4 & E5 & E6 & E7 & E8 & E9 & E10 & Hsm).
  pose proof (eq_refl v) as Hv. unfold same_data. same_fields.
Qed.

Lemma same_data_rescale (a b : ThermalData) :
  same_data a b -> same_data (rescale a) (rescale b).
Proof.
  intros (E1 & E2 & E3 & E4 & E5 & E6 & E7 & E8 & E9 & E10 & Hsm).
  assert (Hd : f32_of_int (maxValue_ b - minValue_ b)
               = f32_of_int (maxValue_ a - minValue_ a)) by (rewrite E3, E4; reflexivity).
  assert (Hq : f32_div (f32_of_int 255) (f32_of_int (maxValue_ b - minValue_ b))
               = f32_div (f32_of_int 255) (f32_of_int (maxValue_ a - minValue_ a)))
    by (rewrite Hd; reflexivity).
  unfold same_data. same_fields.
Qed.

Lemma same_data_pixel (a b : ThermalData) (im : list Z) (td : list spec_float) :
  same_data a b ->
  same_data (set_temperature (set_image a im) td) (set_temperature (set_image b im) td).
Proof.
  intros (E1 & E2 & E3 & E4 & E5 & E6 & E7 & E8 & E9 & E10 & Hsm).
  pose proof (eq_refl im) as Him. pose proof (eq_refl td) as Htd.
  unfold same_data. same_fields.
Qed.

Lemma same_data_publish (a b : ThermalData) :
  same_data a b -> same_data (publish a) (publish b).
Proof.
  intros Hab.
  pose proof Hab as (E1 & E2 & E3 & E4 & E5 & E6 & E7 & E8 & E9 & E10 & Hsm).
  unfold publish. rewrite E7.
  assert (Hemit : forall x y, same_data x y ->
            same_data (emit x (EvPublish (temperature_data_ x) (image_data_ x)))
                      (emit y (EvPublish (temperature_data_ y) (image_data_ y)))).
  { intros x y (F1 & F2 & F3 & F4 & F5 & F6 & F7 & F8 & F9 & F10 & Fsm).
    assert (He : events_ (emit y (EvPublish (temperature_data_ y) (image_data_ y)))
                 = events_ (emit x (EvPublish (temperature_data_ x) (image_data_ x)))).
    { unfold emit. cbn [events_]. rewrite F8, F9, F10. reflexivity. }
    unfold same_data. same_fields. }
  destruct (negb (n_zero_value_drop_frame_ a =? 0)); apply Hemit;
    [apply same_data_drop|]; exact Hab.
Qed.

Lemma scan_body_related (iSegment i : Z) (a b : ThermalData) :
  1 <= iSegment <= 4 -> 0 <= i < 4920 -> same_data a b ->
  both (fun x y => fst x = fst y /\ same_data (snd x) (snd y))
       (scan_body iSegment i a) (scan_body iSegment i b).
Proof.
  intros Hs Hi Hab.
  pose proof Hab as (E1 & E2 & E3 & E4 & E5 & E6 & E7 & E8 & E9 & E10 & Hsm).
  unfold scan_body.
  destruct (Z.ltb_spec (cmod i 82) 2) as [Hh|Hh]; [simpl; auto|].
  rewrite (Hsm iSegment i Hs Hi Hh).
  destruct (sample a iSegment i) as [v|]; [|exact I]. simpl.
  destruct (v =? 0); [simpl; auto|].
  cbv zeta. rewrite E2, E4.
  assert (H1 : same_data
                 (if autoRangeMax_ a && (v >? maxValue_ a) then set_maxValue a v else a)
                 (if autoRangeMax_ a && (v >? maxValue_ a) then set_maxValue b v else b)).
  { destruct (autoRangeMax_ a && (v >? maxValue_ a));
      [apply same_data_maxValue|]; exact Hab. }
  revert H1.
  generalize (if autoRangeMax_ a && (v >? maxValue_ a) then set_maxValue a v else a).
  generalize (if autoRangeMax_ a && (v >? maxValue_ a) then set_maxValue b v else b).
  intros b1 a1 H1.
  pose proof H1 as (F1 & F2 & F3 & F4 & F5 & F6 & F7 & F8 & F9 & F10 & Fsm).
  rewrite F1, F3. simpl. split; [reflexivity|].
  destruct (autoRangeMin_ a1 && (v <? minValue_ a1));
    [apply same_data_minValue|]; exact H1.
Qed.

Lemma decode_body_related (iSegment i : Z) (a b : ThermalData) :
  1 <= iSegment <= 4 -> 0 <= i < 4920 -> same_data a b ->
  both (fun x y => fst x = fst y /\ same_data (snd x) (snd y))
       (decode_body iSegment i a) (decode_body iSegment i b).
Proof.
  intros Hs Hi Hab.
  pose proof Hab as (E1 & E2 & E3 & E4 & E5 & E6 & E7 & E8 & E9 & E10 & Hsm).
  unfold decode_body.
  destruct (Z.ltb_spec (cmod i 82) 2) as [Hh|Hh]; [simpl; auto|].
  rewrite (Hsm iSegment i Hs Hi Hh).
  destruct (sample a iSegment i) as [v|]; [|exact I]. simpl.
  destruct (v =? 0).
  { simpl. split; [reflexivity|]. rewrite E7. apply same_data_drop, Hab. }
  destruct ((row_of iSegment i <? myImageHeight_) && (column_of i <? myImageWidth_));
    [|simpl; auto].
  assert (Eint : intensity b v = intensity a v).
  { unfold intensity. rewrite E1, E2, E3, E4, E6. reflexivity. }
  unfold write_pixel. rewrite Eint, E8, E9.
  repeat match goal with
         | |- context [at_ ?l ?k ≫= _] => destruct (at_ l k); simpl; [|exact I]
         | |- context [set_at ?l ?k ?x ≫= _] => destruct (set_at l k x); simpl; [|exact I]
         end.
  split; [reflexivity|]. apply same_data_pixel, Hab.
Qed.

Lemma scan_segment_related (iSegment : Z) (a b : ThermalData) :
  1 <= iSegment <= 4 -> same_data a b ->
  both (fun x y => fst x = fst y /\ same_data (snd x) (snd y))
       (scan_segment iSegment a) (scan_segment iSegment b).
Proof.
  intros Hs Hab. unfold scan_segment, for_range.
  pose proof (for_loop_related same_data (scan_body iSegment) (Z.to_nat (4920 - 0)) 0
                a b Hab) as Hin.
  assert (Hb : both same_data
                 (for_loop (Z.to_nat (4920 - 0)) 0 (scan_body iSegment) a)
                 (for_loop (Z.to_nat (4920 - 0)) 0 (scan_body iSegment) b)).
  { apply Hin. intros j x y Hj. apply scan_body_related; lia. }
  destruct (for_loop (Z.to_nat (4920 - 0)) 0 (scan_body iSegment) a),
           (for_loop (Z.to_nat (4920 - 0)) 0 (scan_body iSegment) b);
    simpl in *; auto.
Qed.

Lemma decode_segment_related (iSegment : Z) (a b : ThermalData) :
  1 <= iSegment <= 4 -> same_data a b ->
  both (fun x y => fst x = fst y /\ same_data (snd x) (snd y))
       (decode_segment iSegment a) (decode_segment iSegment b).
Proof.
  intros Hs Hab. unfold decode_segment, for_range.
  pose proof (for_loop_related same_data (decode_body iSegment) (Z.to_nat (4920 - 0)) 0
                a b Hab) as Hin.
  assert (Hb : both same_data
                 (for_loop (Z.to_nat (4920 - 0)) 0 (decode_body iSegment) a)
                 (for_loop (Z.to_nat (4920 - 0)) 0 (decode_body iSegment) b)).
  { apply Hin. intros j x y Hj. apply decode_body_related; lia. }
  destruct (for_loop (Z.to_nat (4920 - 0)) 0 (decode_body iSegment) a),
           (for_loop (Z.to_nat (4920 - 0)) 0 (decode_body iSegment) b);
    simpl in *; auto.
Qed.

Lemma auto_range_related (a b : ThermalData) :
  same_data a b -> both same_data (auto_range a) (auto_range b).
Proof.
  intros Hab.
  pose proof Hab as (E1 & E2 & E3 & E4 & E5 & E6 & E7 & E8 & E9 & E10 & Hsm).
  unfold auto_range. rewrite E1, E2.
  destruct (autoRangeMin_ a || autoRangeMax_ a); [|exact Hab].
  assert (Hseed : same_data (seed a) (seed b)).
  { unfold seed. rewrite E1.
    assert (H1 : same_data (if autoRangeMin_ a then set_maxValue a 65535 else a)
                           (if autoRangeMin_ a then set_maxValue b 65535 else b)).
    { destruct (autoRangeMin_ a); [apply same_data_maxValue|]; exact Hab. }
    revert H1.
    generalize (if autoRangeMin_ a then set_maxValue a 65535 else a).
    generalize (if autoRangeMin_ a then set_maxValue b 65535 else b).
    intros b1 a1 H1.
    pose proof H1 as (F1 & F2 & F3 & F4 & F5 & F6 & F7 & F8 & F9 & F10 & Fsm).
    rewrite F2. destruct (autoRangeMax_ a1); [apply same_data_minValue|]; exact H1. }
  assert (Hb : both same_data (for_range 1 5 scan_segment (seed a))
                              (for_range 1 5 scan_segment (seed b))).
  { unfold for_range. apply for_loop_related; [exact Hseed|].
    intros s a0 b0 Hsr H0. apply scan_segment_related; [lia|exact H0]. }
  destruct (for_range 1 5 scan_segment (seed a)),
           (for_range 1 5 scan_segment (seed b)); simpl in *; auto.
  apply same_data_rescale, Hb.
Qed.

Lemma process_data_related (a b : ThermalData) :
  same_data a b -> both same_data (process_data a) (process_data b).
Proof.
  intros Hab. unfold process_data.
  pose proof (auto_range_related a b Hab) as H1.
  destruct (auto_range a) as [a1|], (auto_range b) as [b1|];
    simpl in *; try contradiction; [|exact I].
  assert (H2 : both same_data (decode_pass a1) (decode_pass b1)).
  { unfold decode_pass, for_range. apply for_loop_related; [exact H1|].
    intros s a0 b0 Hsr H0. apply decode_segment_related; [lia|exact H0]. }
  destruct (decode_pass a1) as [a2|], (decode_pass b1) as [b2|];
    simpl in *; try contradiction; [|exact I].
  apply same_data_publish, H2.
Qed.

Lemma same_data_refl (st : ThermalData) : same_data st st.
Proof. unfold same_data. repeat split; reflexivity. Qed.

Lemma poke_same_data (st : ThermalData) (iSegment r k x : Z) :
  1 <= iSegment <= 4 -> 0 <= r -> 0 <= k < 4 ->
  same_data st (poke st iSegment (164 * r + k) x).
Proof.
  intros Hs Hr Hk. unfold poke.
  destruct (shelf_ st !! Z.to_nat (iSegment - 1)) as [seg|] eqn:Hseg;
    [|apply same_data_refl].
  unfold same_data. repeat (split; [reflexivity|]).
  intros s i Hsr Hi Hh. rewrite cmod_mod in Hh by lia.
  unfold sample. cbn [shelf_ set_shelf].
  destruct (Z.eq_dec s iSegment) as [->|Hne].
  - assert (H1 : at_ (<[Z.to_nat (iSegment - 1) := <[Z.to_nat (164 * r + k) := x]> seg]>
                        (shelf_ st)) (iSegment - 1)
                 = Some (<[Z.to_nat (164 * r + k) := x]> seg)).
    { unfold at_. destruct (Z.ltb_spec (iSegment - 1) 0); [lia|].
      apply list_lookup_insert_eq. apply lookup_lt_is_Some_1. eauto. }
    assert (H2 : at_ (shelf_ st) (iSegment - 1) = Some seg).
    { unfold at_. destruct (Z.ltb_spec (iSegment - 1) 0); [lia|]. exact Hseg. }
    rewrite H1, H2. cbn [mbind option_bind].
    rewrite !at_insert_ne by (try lia; Z.div_mod_to_equations; lia).
    reflexivity.
  - assert (H1 : at_ (<[Z.to_nat (iSegment - 1) := <[Z.to_nat (164 * r + k) := x]> seg]>
                        (shelf_ st)) (s - 1)
                 = at_ (shelf_ st) (s - 1)).
    { unfold at_. destruct (Z.ltb_spec (s - 1) 0); [lia|].
      apply list_lookup_insert_ne. lia. }
    rewrite H1. reflexivity.
Qed.

(** X16. The four header bytes of a packet have no influence on a
    frame: overwriting byte [k < 4] of any 164-byte packet of any
    segment with any value leaves the published grid, the image and
    the value range as they would have been. *)
Theorem packet_header_ignored (st : ThermalData) (iSegment r k x : Z) :
  state_ok st = true ->
  1 <= iSegment <= 4 -> 0 <= r < 60 -> 0 <= k < 4 ->
  exists o o',
    process_data st = Some o /\
    process_data (poke st iSegment (164 * r + k) x) = Some o' /\
    temperature_data_ o' = temperature_data_ o /\
    image_data_ o' = image_data_ o /\
    minValue_ o' = minValue_ o /\ maxValue_ o' = maxValue_ o /\
    scale_ o' = scale_ o /\
    events_ o' = events_ o.
Proof.
  intros Hok Hs Hr Hk.
  destruct (process_data_total st Hok) as (st1 & st2 & _ & _ & Hp & _).
  pose proof (process_data_related st (poke st iSegment (164 * r + k) x)
                (poke_same_data st iSegment r k x Hs ltac:(lia) Hk)) as Hrel.
  rewrite Hp in Hrel.
  destruct (process_data (poke st iSegment (164 * r + k) x)) as [o'|];
    [|contradiction].
  destruct Hrel as (E1 & E2 & E3 & E4 & E5 & E6 & E7 & E8 & E9 & E10 & _).
  exists (publish st2), o'. repeat split; assumption.
Qed.
End Decoding.

(** * The theorems at concrete frames *)

(** ** Counterexamples *)

(** C3, as the specification words it, fails on the all-zero frame: the
    drop counter stands at 4 when the decoding loops end, one increment
    per segment, where a decoder that resumed at the next row would have
    counted each of the 240 rows.  And with a sample of 30000 at the head
    of the second row of segment 1, grid cell (0, 80) is never written,
    where that decoder would have stored 27 degrees there. *)
Lemma rows_are_not_resumed :
  (n_zero_value_drop_frame_ <$> decode_pass no_undefined st_zero) = Some 4 /\
  (n_zero_value_drop_frame_ <$> decode_pass_spec no_undefined st_zero) = Some 240 /\
  decode_pass no_undefined st_zero <> decode_pass_spec no_undefined st_zero /\
  let st := initial false false (second_row_frame 30000) in
  sample st 1 84 = Some 30000 /\
  ((fun st' => temperature_data_ st' !! 80%nat) <$> decode_pass no_undefined st)
    = Some (Some (S754_zero false)) /\
  ((fun st' => temperature_data_ st' !! 80%nat) <$> decode_pass_spec no_undefined st)
    = Some (Some (temperature_of 30000)).
Proof.
  assert (H4 : (n_zero_value_drop_frame_ <$> decode_pass no_undefined st_zero) = Some 4)
    by (vm_compute; reflexivity).
  assert (H240 : (n_zero_value_drop_frame_ <$> decode_pass_spec no_undefined st_zero)
                 = Some 240) by (vm_compute; reflexivity).
  split; [exact H4|]. split; [exact H240|]. split.
  - intros E. rewrite E, H240 in H4. discriminate H4.
  - repeat split; vm_compute; reflexivity.
Qed.

(** C4, as stated, fails on four reads of one byte each: the loop does
    not stop, the frame is decoded and published, and the loop ends only
    with the shutdown. *)
Lemma short_reads_are_accepted :
  let rx := [short_datagram; short_datagram; short_datagram; short_datagram] in
  let r := temp_data no_undefined 1 rx st_zero in
  Forall (fun d => received_bytes d < 9840) rx /\
  fst r = Shutdown /\ fst r <> ReceiveFailed /\
  publish_count (snd r) = 1%nat.
Proof.
  intros rx r.
  assert (E : fst r = Shutdown) by (vm_compute; reflexivity).
  split; [repeat constructor|].
  split; [exact E|]. split; [rewrite E; discriminate|].
  vm_compute. reflexivity.
Qed.


(** ** Witnesses *)

Lemma clamp_stores_the_bound_witness :
  intensity no_undefined st_hot 32000 = 31500 /\
  intensity no_undefined st_hot 27000 = 27300.
Proof.
  destruct (clamp_stores_the_bound no_undefined st_hot 32000 27000) as [Hhi Hlo].
  split.
  - apply Hhi; [reflexivity | vm_compute; reflexivity].
  - apply Hlo; [reflexivity | vm_compute; discriminate | vm_compute; discriminate].
Defined.

Lemma overrun_reads_terminator_witness :
  256 <= 31500 /\ 0 <= 0 <= 2 /\
  palette_offset 31500 0 = 768 /\
  at_ colormap_ironblack_ (palette_offset 31500 0) = Some (-1).
Proof.
  assert (Hv : 256 <= 31500) by lia.
  assert (Hk : 0 <= 0 <= 2) by lia.
  destruct (overrun_reads_terminator 31500 0 Hv Hk) as (H1 & H2 & _).
  repeat split; (exact H1 || exact H2 || lia).
Defined.

(** The sample 32000 under the shipped range: its three image bytes come
    from the terminator. *)
Example terminator_reaches_image :
  ((fun r => (palette_offset (intensity no_undefined st_hot 32000) 0,
              take 3 (image_data_ (snd r))))
     <$> decode_body no_undefined 1 2 st_hot)
  = Some (768, [255; 255; 255]).
Proof. vm_compute. reflexivity. Qed.

Lemma zero_sample_abandons_segment_witness :
  frame_all_zero st_header = false /\
  for_loop (S (Z.to_nat 4917)) 2 (decode_body no_undefined 1) st_header =
    Some (set_drop st_header 1) /\
  exists st1 st2,
    auto_range st_header = Some st1 /\
    decode_pass no_undefined st1 = Some st2 /\
    process_data no_undefined st_header = Some (publish st2) /\
    st2 = set_drop st1 4 /\
    n_zero_value_drop_frame_ (publish st2) = 0.
Proof.
  assert (Hh : 2 <= cmod 2 82) by (vm_compute; discriminate).
  assert (Hok0 : state_ok st_zero = true) by (vm_compute; reflexivity).
  assert (Hz0 : frame_all_zero st_zero = true) by (vm_compute; reflexivity).
  assert (Hok : state_ok st_header = true) by (vm_compute; reflexivity).
  assert (Hs : 1 <= 1 <= 4) by lia.
  assert (Hi : 0 <= 2 < 4920) by lia.
  assert (Hr : 0 <= 0) by lia.
  assert (Hk : 0 <= 0 < 4) by lia.
  assert (Hall : forall s j, 1 <= s <= 4 -> 0 <= j < 4920 -> 2 <= cmod j 82 ->
                             sample st_header s j = Some 0).
  { intros s j Hsr Hj Hjh.
    destruct (poke_same_data st_zero 1 0 0 1 Hs Hr Hk)
      as (_ & _ & _ & _ & _ & _ & _ & _ & _ & _ & Hsm).
    change (poke st_zero 1 (164 * 0 + 0) 1) with st_header in Hsm.
    rewrite (Hsm s j Hsr Hj Hjh). apply sample_zero; assumption. }
  destruct (zero_sample_abandons_segment no_undefined st_header 1 2 (Z.to_nat 4917)
              Hh (Hall 1 2 Hs Hi Hh))
    as [Hloop Hframe].
  destruct (Hframe Hok Hs Hi) as (st1 & st2 & Ha & Hd & Hp & _ & _ & Hfour & Hclear).
  split; [vm_compute; reflexivity|]. split; [exact Hloop|].
  exists st1, st2. split; [exact Ha|]. split; [exact Hd|]. split; [exact Hp|].
  split; [exact (Hfour Hall) | exact Hclear].
Defined.

Lemma negative_read_is_fatal_witness :
  (exists st',
     temp_data no_undefined 2 ([short_datagram] ++ mkDatagram (-1) [] :: []) st_zero
       = (ReceiveFailed, st') /\
     events_ st' = events_ st_zero ++ [EvLogError "Receive failed"; EvCloseSocket] /\
     publish_count st' = publish_count st_zero) /\
  (exists st1 st2,
     receive_frame 4 0
       ([short_datagram; short_datagram; short_datagram; short_datagram] ++ []) st_zero
       = inr ([], st1) /\
     process_data no_undefined st1 = Some st2 /\
     temp_data no_undefined 2
       ([short_datagram; short_datagram; short_datagram; short_datagram] ++ []) st_zero
       = temp_data no_undefined 1 [] st2 /\
     publish_count st2 = S (publish_count st_zero)).
Proof.
  assert (Hok : state_ok st_zero = true) by (vm_compute; reflexivity).
  assert (Hshort : 0 <= received_bytes short_datagram) by (simpl; lia).
  destruct (negative_read_is_fatal no_undefined 1 st_zero Hok) as [Hfail Hgood].
  split.
  - apply Hfail; [simpl; lia | repeat constructor; exact Hshort | simpl; lia].
  - apply Hgood; [reflexivity | repeat constructor; exact Hshort].
Defined.

Lemma destination_cell_witness :
  sample st_hot 1 2 = Some 32000 /\
  column_of 2 = 0 /\ row_of 1 2 = 0 /\
  exists st',
    decode_body no_undefined 1 2 st_hot = Some (Next, st') /\
    temperature_data_ st' = <[0%nat := temperature_of 32000]> (temperature_data_ st_hot).
Proof.
  assert (Hok : state_ok st_hot = true) by (vm_compute; reflexivity).
  assert (Hseg : 1 <= 1 <= 4) by lia.
  assert (Hh : 0 <= 0 < 4920) by lia.
  assert (Hhm : 0 mod 82 < 2) by (vm_compute; reflexivity).
  assert (Hi : 0 <= 2 < 4920) by lia.
  assert (Him : 2 <= 2 mod 82) by (vm_compute; discriminate).
  assert (Hs : sample st_hot 1 2 = Some 32000) by (vm_compute; reflexivity).
  assert (Hnz : 32000 <> 0) by discriminate.
  destruct (destination_cell no_undefined st_hot 1 0 2 32000 Hok Hseg Hh Hhm Hi Him Hs Hnz)
    as (_ & Hc & Hr & st' & cb & cg & cr & Hd & Ht & _).
  split; [exact Hs|]. split; [exact Hc|]. split; [exact Hr|].
  exists st'. split; [exact Hd | exact Ht].
Defined.

Lemma stored_temperature_witness :
  exists st' t,
    decode_body no_undefined 1 2 st_hot = Some (Next, st') /\
    temperature_data_ st' !! Z.to_nat (row_of 1 2 * 160 + column_of 2) = Some t /\
    t = temperature_of 32000 /\
    is_finite t = true /\
    (Qabs (to_Q t - ((32000 # 100) - 273)) <= (1 # 8388608) * Qabs ((32000 # 100) - 273))%Q.
Proof.
  assert (Hok : state_ok st_hot = true) by (vm_compute; reflexivity).
  assert (Hseg : 1 <= 1 <= 4) by lia.
  assert (Hi : 0 <= 2 < 4920) by lia.
  assert (Him : 2 <= 2 mod 82) by (vm_compute; discriminate).
  assert (Hs : sample st_hot 1 2 = Some 32000) by (vm_compute; reflexivity).
  assert (Hnz : 32000 <> 0) by discriminate.
  exact (stored_temperature no_undefined st_hot 1 2 32000 Hok Hseg Hi Him Hs Hnz).
Defined.

Lemma fixed_range_unchanged_witness :
  auto_range st_zero = Some st_zero /\
  exists st',
    process_data no_undefined st_zero = Some st' /\
    minValue_ st' = minValue_ st_zero /\ maxValue_ st' = maxValue_ st_zero /\
    diff_ st' = diff_ st_zero /\ scale_ st' = scale_ st_zero.
Proof.
  assert (Hok : state_ok st_zero = true) by (vm_compute; reflexivity).
  exact (fixed_range_unchanged no_undefined st_zero Hok eq_refl eq_refl).
Defined.

Lemma accesses_within_bounds_witness :
  (0 <= column_of 4919 < 160 /\ 0 <= row_of 4 4919 < 120) /\
  exists st', process_data no_undefined st_hot = Some st' /\ state_ok st' = true.
Proof.
  assert (Hok : state_ok st_hot = true) by (vm_compute; reflexivity).
  assert (Hseg : 1 <= 4 <= 4) by lia.
  assert (Hi : 0 <= 4919 < 4920) by lia.
  assert (Him : 2 <= cmod 4919 82) by (vm_compute; discriminate).
  destruct (accesses_within_bounds no_undefined st_hot 4 4919 Hok Hseg Hi Him)
    as ((Hc & Hr & _) & Hrun).
  split; [split; [exact Hc | exact Hr] | exact Hrun].
Defined.


(** ** Witnesses of the further properties *)

Lemma cell_of_injective_witness : 3 = 3 /\ 84 = 84.
Proof.
  assert (H3 : 1 <= 3 <= 4) by lia.
  assert (Hi : 0 <= 84 < 4920) by lia.
  assert (Hh : 2 <= 84 mod 82) by (vm_compute; discriminate).
  exact (cell_of_injective 3 84 3 84 H3 Hi Hh H3 Hi Hh eq_refl).
Defined.

Lemma cell_of_surjective_witness :
  segment_of_cell 19199 = 4 /\ position_of_cell 19199 = 4919 /\
  cell_of 4 4919 = 19199.
Proof.
  assert (Hc : 0 <= 19199 < 19200) by lia.
  destruct (cell_of_surjective 19199 Hc) as (_ & _ & _ & Hcell).
  split; [reflexivity|]. split; [reflexivity | exact Hcell].
Defined.

Lemma process_data_pixel_witness :
  exists st1 st',
    auto_range st_hot = Some st1 /\
    process_data no_undefined st_hot = Some st' /\
    ((forall j, 0 <= j <= 2 -> 2 <= j mod 82 -> sample st_hot 1 j <> Some 0) ->
     pixel_at st' (cell_of 1 2) = pixel_for no_undefined st1 32000) /\
    ((exists j, 0 <= j <= 2 /\ 2 <= j mod 82 /\ sample st_hot 1 j = Some 0) ->
     pixel_at st' (cell_of 1 2) = pixel_at st_hot (cell_of 1 2)).
Proof.
  assert (Hok : state_ok st_hot = true) by (vm_compute; reflexivity).
  assert (Hs : 1 <= 1 <= 4) by lia.
  assert (Hi : 0 <= 2 < 4920) by lia.
  assert (Hh : 2 <= 2 mod 82) by (vm_compute; discriminate).
  assert (Hv : sample st_hot 1 2 = Some 32000) by (vm_compute; reflexivity).
  exact (process_data_pixel no_undefined st_hot 1 2 32000 Hok Hs Hi Hh Hv).
Defined.

Lemma drop_counter_counts_segments_witness :
  exists st',
    decode_pass no_undefined st_zero = Some st' /\
    0 <= zero_segments 4 1 st_zero <= 4 /\
    n_zero_value_drop_frame_ st' =
      (if zero_segments 4 1 st_zero =? 0 then n_zero_value_drop_frame_ st_zero
       else wrap16 (n_zero_value_drop_frame_ st_zero + zero_segments 4 1 st_zero)).
Proof.
  assert (Hok : state_ok st_zero = true) by (vm_compute; reflexivity).
  destruct (drop_counter_counts_segments no_undefined st_zero Hok)
    as (st' & Hd & Hr & Hn & _).
  exists st'. split; [exact Hd|]. split; [exact Hr | exact Hn].
Defined.

Lemma full_frame_overwrites_grid_witness :
  exists st1 st' v,
    auto_range st_warm = Some st1 /\
    process_data no_undefined st_warm = Some st' /\
    sample st_warm (segment_of_cell 0) (position_of_cell 0) = Some v /\
    pixel_at st' 0 = pixel_for no_undefined st1 v /\
    n_zero_value_drop_frame_ st' = 0.
Proof.
  assert (Hok : state_ok st_warm = true) by (vm_compute; reflexivity).
  assert (Hc : 0 <= 0 < 19200) by lia.
  exact (full_frame_overwrites_grid no_undefined st_warm 0 Hok
           (fun s i Hs Hi _ => st_warm_no_zero s i Hs Hi) Hc).
Defined.

Lemma auto_range_bounds_witness :
  exists st',
    auto_range st_auto_warm = Some st' /\
    (forall s i v, 1 <= s <= 4 -> 0 <= i < 4920 -> 2 <= i mod 82 ->
                   sample st_auto_warm s i = Some v -> v <= maxValue_ st').
Proof.
  assert (Hok : state_ok st_auto_warm = true) by (vm_compute; reflexivity).
  destruct (auto_range_bounds st_auto_warm Hok) as (st' & Ha & Hmax & _).
  exists st'. split; [exact Ha|]. exact (proj1 (Hmax eq_refl)).
Defined.

Lemma auto_range_idempotent_witness :
  exists st1, auto_range st_auto_warm = Some st1 /\ auto_range st1 = Some st1.
Proof.
  assert (Hok : state_ok st_auto_warm = true) by (vm_compute; reflexivity).
  exact (auto_range_idempotent st_auto_warm Hok).
Defined.

Lemma shipped_intensity_witness :
  0 <= intensity no_undefined st_zero 29800 /\
  intensity no_undefined st_zero 29800 <= intensity no_undefined st_zero 31500 /\
  intensity no_undefined st_zero 31500 <= 255.
Proof.
  assert (Hsc : scale_ st_zero = f32_div (f32_of_int 255) (f32_of_int 4200))
    by reflexivity.
  assert (Hv : 27300 < 29800) by lia.
  assert (Hvw : 29800 <= 31500) by lia.
  assert (Hw : 31500 <= 31500) by lia.
  assert (Hk : 0 <= 0 <= 2) by lia.
  destruct (shipped_intensity no_undefined st_zero 29800 31500 0
              eq_refl eq_refl eq_refl eq_refl Hsc Hv Hvw Hw Hk)
    as (H0 & Hm & H255 & _).
  split; [exact H0|]. split; [exact Hm | exact H255].
Defined.

Lemma temp_data_publishes_each_frame_witness :
  exists st',
    temp_data no_undefined 1
      ([short_datagram; short_datagram; short_datagram; short_datagram] ++ []) st_zero
      = (Shutdown, st') /\
    publish_count st' = (publish_count st_zero + 1)%nat.
Proof.
  assert (Hok : state_ok st_zero = true) by (vm_compute; reflexivity).
  assert (Hshort : 0 <= received_bytes short_datagram) by (simpl; lia).
  destruct (temp_data_publishes_each_frame no_undefined 1
              [short_datagram; short_datagram; short_datagram; short_datagram] []
              st_zero Hok)
    as (st' & Hrun & Hpc & _).
  - do 4 (constructor; [exact Hshort|]). constructor.
  - reflexivity.
  - exists st'. split; [exact Hrun | exact Hpc].
Defined.

Lemma temp_data_stops_at_first_error_witness :
  exists st',
    temp_data no_undefined 2
      ([short_datagram; short_datagram; short_datagram; short_datagram; short_datagram]
       ++ mkDatagram (-1) [] :: []) st_zero
      = (ReceiveFailed, st') /\
    Z.of_nat (publish_count st') = Z.of_nat (publish_count st_zero) + 5 / 4.
Proof.
  assert (Hok : state_ok st_zero = true) by (vm_compute; reflexivity).
  assert (Hshort : 0 <= received_bytes short_datagram) by (simpl; lia).
  destruct (temp_data_stops_at_first_error no_undefined 2
              [short_datagram; short_datagram; short_datagram; short_datagram;
               short_datagram]
              (mkDatagram (-1) []) [] st_zero Hok)
    as (st' & es & Hrun & Hpc & _).
  - do 5 (constructor; [exact Hshort|]). constructor.
  - simpl. lia.
  - simpl. lia.
  - exists st'. split; [exact Hrun | exact Hpc].
Defined.

Lemma received_frame_is_stored_witness :
  exists st' seg,
    receive_frame 4 0
      ([short_datagram; short_datagram; short_datagram; short_datagram] ++ []) st_warm
      = inr ([], st') /\
    at_ (shelf_ st') 0 = Some seg /\
    seg = payload short_datagram
          ++ drop (length (payload short_datagram)) (replicate (Z.to_nat 9840) 117).
Proof.
  assert (Hok : state_ok st_warm = true) by (vm_compute; reflexivity).
  assert (Hshort : 0 <= received_bytes short_datagram) by (simpl; lia).
  assert (Hj : 0 <= 0 < 4) by lia.
  destruct (received_frame_is_stored
              [short_datagram; short_datagram; short_datagram; short_datagram] []
              st_warm 0 short_datagram (replicate (Z.to_nat 9840) 117) Hok eq_refl)
    as (st' & seg & Hrun & Hseg & _ & _ & Hstale).
  - do 4 (constructor; [exact Hshort|]). constructor.
  - exact Hj.
  - reflexivity.
  - reflexivity.
  - exists st', seg. split; [exact Hrun|]. split; [exact Hseg|].
    apply Hstale. simpl. lia.
Defined.

Lemma received_sample_witness :
  exists st',
    receive_frame 4 0
      ([constant_datagram 117; constant_datagram 117; constant_datagram 117;
        constant_datagram 117] ++ []) st_zero
      = inr ([], st') /\
    sample st' 1 2 = Some (256 * 117 + 117).
Proof.
  assert (Hok : state_ok st_zero = true) by (vm_compute; reflexivity).
  assert (Hgood : 0 <= received_bytes (constant_datagram 117)) by (simpl; lia).
  assert (Hs : 1 <= 1 <= 4) by lia.
  assert (Hi : 0 <= 2 < 4920) by lia.
  destruct (received_sample
              [constant_datagram 117; constant_datagram 117; constant_datagram 117;
               constant_datagram 117] [] st_zero 1 2 (constant_datagram 117) Hok eq_refl)
    as (st' & Hrun & Hval & _).
  - do 4 (constructor; [exact Hgood|]). constructor.
  - exact Hs.
  - exact Hi.
  - reflexivity.
  - exists st'. split; [exact Hrun|].
    apply Hval; [reflexivity | reflexivity | lia | lia].
Defined.

Lemma process_data_twice_witness :
  exists st1 st2,
    process_data no_undefined st_hot = Some st1 /\
    process_data no_undefined st1 = Some st2 /\
    temperature_data_ st2 = temperature_data_ st1 /\
    image_data_ st2 = image_data_ st1.
Proof.
  assert (Hok : state_ok st_hot = true) by (vm_compute; reflexivity).
  destruct (process_data_twice no_undefined st_hot Hok)
    as (st1 & st2 & H1 & H2 & _ & Ht & Him & _).
  exists st1, st2. split; [exact H1|]. split; [exact H2|]. split; [exact Ht | exact Him].
Defined.

Lemma temperature_increasing_witness :
  (to_Q (temperature_of 29800) < to_Q (temperature_of 29801))%Q /\
  temperature_of 29800 <> temperature_of 29801.
Proof.
  assert (Hv : 1 <= 29800) by lia.
  assert (Hvw : 29800 < 29801) by lia.
  assert (Hw : 29801 <= 65535) by lia.
  exact (temperature_increasing 29800 29801 Hv Hvw Hw).
Defined.

Lemma frame_end_to_end_witness :
  9840 < Z.of_nat (length (payload (long_datagram 117))) /\
  exists d hi lo st' T I,
    [long_datagram 117; constant_datagram 117; constant_datagram 117;
     constant_datagram 117] !! Z.to_nat (segment_of_cell 0 - 1) = Some d /\
    at_ (payload d) (position_of_cell 0 * 2) = Some hi /\
    at_ (payload d) (position_of_cell 0 * 2 + 1) = Some lo /\
    temp_data no_undefined 1
      ([long_datagram 117; constant_datagram 117; constant_datagram 117;
        constant_datagram 117] ++ []) st_zero = (Shutdown, st') /\
    events_ st' = events_ st_zero ++ [EvPublish T I] /\
    at_ T 0 = Some (temperature_of (256 * hi + lo)).
Proof.
  assert (Hok : state_ok st_zero = true) by (vm_compute; reflexivity).
  assert (Hb : 0 <= 117 <= 255) by lia.
  assert (Hp : 0 < 117) by lia.
  assert (Hc : 0 <= 0 < 19200) by lia.
  split.
  { unfold long_datagram. cbn [payload]. rewrite length_replicate. lia. }
  apply (frame_end_to_end no_undefined
           [long_datagram 117; constant_datagram 117; constant_datagram 117;
            constant_datagram 117] [] st_zero 0 Hok eq_refl).
  - constructor; [apply long_datagram_full; exact Hb|].
    do 3 (constructor; [apply constant_datagram_full; exact Hb|]). constructor.
  - constructor; [apply long_datagram_no_zero; exact Hp|].
    do 3 (constructor; [apply constant_datagram_no_zero; exact Hp|]). constructor.
  - exact Hc.
Defined.

Lemma packet_header_ignored_witness :
  exists o o',
    process_data no_undefined st_warm = Some o /\
    process_data no_undefined (poke st_warm 2 (164 * 7 + 3) 255) = Some o' /\
    temperature_data_ o' = temperature_data_ o /\
    image_data_ o' = image_data_ o.
Proof.
  assert (Hok : state_ok st_warm = true) by (vm_compute; reflexivity).
  assert (Hs : 1 <= 2 <= 4) by lia.
  assert (Hr : 0 <= 7 < 60) by lia.
  assert (Hk : 0 <= 3 < 4) by lia.
  destruct (packet_header_ignored no_undefined st_warm 2 7 3 255 Hok Hs Hr Hk)
    as (o & o' & H1 & H2 & Ht & Him & _).
  exists o, o'. split; [exact H1|]. split; [exact H2|]. split; [exact Ht | exact Him].
Defined.
